(** * jira-tools: label editor and issue downloader

    A shallow embedding of [jira_edit_labels.py] and
    [jira_download_issues.py], followed by the properties that the
    specification states about them, and by further properties of the
    code: the computed label list, whole runs of the two scripts, the
    files written for an issue, pagination, and attachments. *)

From stdpp Require Import gmap strings list fin_maps pretty.
From Stdlib Require Import ZArith Lia.

Set Warnings "-register-all".

Local Open Scope string_scope.
Local Open Scope list_scope.

(** ** The Python values and built-ins the two scripts rely on *)

Module Py.

(** Exceptions that reach the top of a script.  [sys.exit(n)] raises
    [SystemExit]. *)
Inductive exn :=
| AttributeError
| TypeError
| NoSectionError
| NoOptionError
| ParsingError
| HTTPError
| SystemExit (code : Z).

Inductive result (A : Type) :=
| Ok (a : A)
| Raise (e : exn).
Global Arguments Ok {A} a.
Global Arguments Raise {A} e.

Global Instance result_ret : MRet result := λ A a, Ok a.
Global Instance result_bind : MBind result := λ A B f m,
  match m with Ok a => f a | Raise e => Raise e end.
Global Instance result_fmap : FMap result := λ A B f m,
  match m with Ok a => Ok (f a) | Raise e => Raise e end.

(** A decoded JSON document, plus the module's [NOT_DOWNLOADED]
    singleton, which field accessors return next to JSON values.
    Numbers are integers; a character of a string is one [ascii]. *)
Inductive value :=
| VNone
| VNotDownloaded
| VBool (b : bool)
| VInt (n : Z)
| VStr (s : string)
| VList (items : list value)
| VDict (entries : list (string * value)).

Section dict_item.
Context {B : Type} (key : string) (found : value → B) (missing : B).

(** [found entries[key]] when the key is there, [missing] otherwise. *)
Fixpoint dict_item (entries : list (string * value)) : B :=
  match entries with
  | [] => missing
  | (k, v) :: rest => if decide (k = key) then found v else dict_item rest
  end.
End dict_item.

Definition dict_lookup (entries : list (string * value)) (key : string)
    : option value :=
  dict_item key Some None entries.

(** [d.get(key, default)] on a dict. *)
Definition dict_get (entries : list (string * value)) (key : string)
    (default : value) : value :=
  dict_item key id default entries.

(** [d[key] = v] on a dict: replaces in place or appends. *)
Fixpoint dict_set (entries : list (string * value)) (key : string)
    (v : value) : list (string * value) :=
  match entries with
  | [] => [(key, v)]
  | (k, old) :: rest =>
      if decide (k = key) then (k, v) :: rest
      else (k, old) :: dict_set rest key v
  end.

(** [obj.get(key, default)]: only a dict has the method. *)
Definition py_get (obj : value) (key : string) (default : value)
    : result value :=
  match obj with
  | VDict entries => Ok (dict_get entries key default)
  | _ => Raise AttributeError
  end.

(** [sep.join(items)] on strings. *)
Fixpoint join (sep : string) (items : list string) : string :=
  match items with
  | [] => ""
  | [x] => x
  | x :: rest => x +:+ sep +:+ join sep rest
  end.

(** [s * n] *)
Fixpoint str_repeat (s : string) (n : nat) : string :=
  match n with
  | 0 => ""
  | S n' => s +:+ str_repeat s n'
  end.

Definition chr (n : nat) : string := String (Ascii.ascii_of_nat n) "".
Definition newline : string := chr 10.
Definition backslash : string := chr 92.
Definition apostrophe : string := chr 39.
Definition quotation : string := chr 34.

Definition hex_digit (n : nat) : string :=
  if decide (n < 10)%nat then chr (48 + n) else chr (87 + n).

Fixpoint contains_char (c : Ascii.ascii) (s : string) : bool :=
  match s with
  | "" => false
  | String c' s' => bool_decide (c = c') || contains_char c s'
  end.

(** [repr] of one character inside a literal quoted with [quote]. *)
Definition repr_char (quote : string) (c : Ascii.ascii) : string :=
  let n := Ascii.nat_of_ascii c in
  if decide (String c "" = quote ∨ n = 92) then backslash +:+ String c ""
  else if decide (n = 9) then backslash +:+ "t"
  else if decide (n = 10) then backslash +:+ "n"
  else if decide (n = 13) then backslash +:+ "r"
  else if decide (n < 32 ∨ (127 ≤ n ∧ n ≤ 160) ∨ n = 173)%nat then
    backslash +:+ "x" +:+ hex_digit (n / 16) +:+ hex_digit (n mod 16)
  else String c "".

Fixpoint repr_chars (quote : string) (s : string) : string :=
  match s with
  | "" => ""
  | String c s' => repr_char quote c +:+ repr_chars quote s'
  end.

(** [repr(s)] for a string. *)
Definition repr_str (s : string) : string :=
  let quote :=
    if contains_char (Ascii.ascii_of_nat 39) s
       && negb (contains_char (Ascii.ascii_of_nat 34) s)
    then quotation else apostrophe in
  quote +:+ repr_chars quote s +:+ quote.

(** [repr(v)]; [NotDownloaded.__repr__] is part of the module. *)
Fixpoint py_repr (v : value) : string :=
  match v with
  | VNone => "None"
  | VNotDownloaded => "NOT_DOWNLOADED"
  | VBool b => if b then "True" else "False"
  | VInt n => pretty n
  | VStr s => repr_str s
  | VList items => "[" +:+ join ", " (map py_repr items) +:+ "]"
  | VDict entries =>
      "{" +:+ join ", " (map (λ kv, repr_str kv.1 +:+ ": " +:+ py_repr kv.2)
                            entries) +:+ "}"
  end.

(** [str(v)], which is what [str.format] puts in place of [{}];
    [NotDownloaded.__str__] is part of the module. *)
Definition py_str (v : value) : string :=
  match v with
  | VStr s => s
  | VNotDownloaded => "<not downloaded>"
  | _ => py_repr v
  end.

Definition as_number (v : value) : option Z :=
  match v with
  | VBool b => Some (if b then 1 else 0)%Z
  | VInt n => Some n
  | _ => None
  end.

(** [a == b] *)
Fixpoint py_eq (a b : value) {struct a} : bool :=
  match a, b with
  | VNone, VNone => true
  | VNotDownloaded, VNotDownloaded => true
  | VStr x, VStr y => bool_decide (x = y)
  | VList xs, VList ys =>
      (fix go (xs ys : list value) : bool :=
         match xs, ys with
         | [], [] => true
         | x :: xs', y :: ys' => py_eq x y && go xs' ys'
         | _, _ => false
         end) xs ys
  | VDict xs, VDict ys =>
      bool_decide (length xs = length ys)
      && forallb (λ kx, match dict_lookup ys kx.1 with
                        | Some y => py_eq kx.2 y
                        | None => false
                        end) xs
  | _, _ =>
      match as_number a, as_number b with
      | Some x, Some y => bool_decide (x = y)
      | _, _ => false
      end
  end.

(** [for c in v]: the items of a list, the characters of a string, the
    keys of a dict; nothing else that occurs here is iterable. *)
Definition py_iter (v : value) : result (list value) :=
  match v with
  | VList items => Ok items
  | VStr s => Ok (map (λ c, VStr (String c "")) (String.list_ascii_of_string s))
  | VDict entries => Ok (map (λ kv, VStr kv.1) entries)
  | _ => Raise TypeError
  end.

Definition as_str (v : value) : result string :=
  match v with
  | VStr s => Ok s
  | _ => Raise TypeError
  end.

(** [sep.join(v)]: every item has to be a string. *)
Definition py_join (sep : string) (v : value) : result string :=
  items ← py_iter v;
  strs ← mapM as_str items;
  Ok (join sep strs).

(** [len(v)] *)
Definition py_len (v : value) : result nat :=
  match v with
  | VList items => Ok (length items)
  | VStr s => Ok (String.length s)
  | VDict entries => Ok (length entries)
  | _ => Raise TypeError
  end.

(** *** Scripts with effects

    A script runs on a world [W] (what it has printed, the requests it
    has sent, the state of the service).  A run returns, dies on an
    exception, or is cut off because the [while True] loop of the model
    has used up its budget of rounds; the world reached so far is kept
    in all three cases. *)
Inductive step (A : Type) :=
| Return (a : A)
| Throw (e : exn)
| Unfinished.
Global Arguments Return {A} a.
Global Arguments Throw {A} e.
Global Arguments Unfinished {A}.

Definition M (W A : Type) : Type := W → step A * W.

Global Instance M_ret {W} : MRet (M W) := λ A a w, (Return a, w).
Global Instance M_bind {W} : MBind (M W) := λ A B f m w,
  match m w with
  | (Return a, w') => f a w'
  | (Throw e, w') => (Throw e, w')
  | (Unfinished, w') => (Unfinished, w')
  end.

Definition raise {W A} (e : exn) : M W A := λ w, (Throw e, w).
Definition unfinished {W A} : M W A := λ w, (Unfinished, w).

(** A pure computation inside a script. *)
Definition lift {W A} (r : result A) : M W A :=
  match r with
  | Ok a => mret a
  | Raise e => raise e
  end.

Section for_each.
Context {W A : Type} (body : A → M W unit).

(** [for x in items: body] *)
Fixpoint for_each (items : list A) : M W unit :=
  match items with
  | [] => mret ()
  | x :: rest => body x;; for_each rest
  end.
End for_each.

(** A script is quiet when no run of it changes the observation [obs]. *)
Definition quiet {W X A} (obs : W → X) (m : M W A) : Prop :=
  ∀ w, obs (m w).2 = obs w.

(** A script is steady for a relation between worlds when every run of
    it, however it ends, takes a world to a world related to it. *)
Definition steady {W A} (R : relation W) (m : M W A) : Prop :=
  ∀ w, R w (m w).2.

(** The status a process ends with: 0 after a normal return, the code
    given to [sys.exit], 1 with a traceback on standard error for any
    other exception that nobody catches. *)
Definition exit_status {A} (s : step A) : option Z :=
  match s with
  | Return _ => Some 0%Z
  | Throw (SystemExit code) => Some code
  | Throw _ => Some 1%Z
  | Unfinished => None
  end.

(** *** [configparser] *)

(** A parsed INI file: the options of [DEFAULT] and those of the other
    sections. *)
Record ConfigParser := {
  defaults : gmap string string;
  sections : gmap string (gmap string string)
}.

Definition DEFAULTSECT : string := "DEFAULT".

(** [cfg_parser.get(section, option)]: the section's own options come
    first, then those of [DEFAULT]. *)
Definition cfg_get (cfg : ConfigParser) (section name : string)
    : result string :=
  let lookup (sectiondict : gmap string string) :=
    match (sectiondict ∪ defaults cfg) !! name with
    | Some v => Ok v
    | None => Raise NoOptionError
    end in
  if decide (section = DEFAULTSECT) then lookup ∅
  else match sections cfg !! section with
       | Some sectiondict => lookup sectiondict
       | None => Raise NoSectionError
       end.

(** [cfg_parser.get(section, option, fallback=None)] *)
Definition cfg_get_fallback (cfg : ConfigParser) (section name : string)
    : option string :=
  match cfg_get cfg section name with
  | Ok v => Some v
  | Raise _ => None
  end.

(** What is found at the path given as [--config-file]. *)
Inductive file :=
| Missing
| Malformed
| Ini (cfg : ConfigParser).

Definition isfile (f : file) : bool :=
  match f with
  | Missing => false
  | _ => true
  end.

(** [cfg_parser.read(path)] *)
Definition cfg_read (f : file) : result ConfigParser :=
  match f with
  | Ini cfg => Ok cfg
  | Malformed => Raise ParsingError
  | Missing => Ok {| defaults := ∅; sections := ∅ |}
  end.

(** An optional string argument when it counts as true: [None] and the
    empty string do not. *)
Definition given (arg : option string) : option string :=
  match arg with
  | Some "" => None
  | _ => arg
  end.

Section credentials.
Context {W B : Type} (eprint : string → M W unit).

(** The first lines of [main], the same in both scripts (the
    configuration file, the domain, the user, the token), followed by the
    rest of the script. *)
Definition credentials (config_file : string) (domain_arg : option string)
    (config : file)
    (rest : ConfigParser → string → string → string → M W B) : M W B :=
  (if isfile config then mret ()
   else eprint ("Error: Configuration file " +:+ config_file
                +:+ " not found");;
        raise (SystemExit 1));;
  cfg_parser ← lift (cfg_read config);
  domain ← match given domain_arg with
           | Some d => mret d
           | None => lift (cfg_get cfg_parser DEFAULTSECT "domain")
           end;
  user ← match cfg_get_fallback cfg_parser domain "user" with
         | Some u => mret u
         | None =>
             eprint ("Error: user is not specified in configuration file "
                     +:+ config_file);;
             raise (SystemExit 1)
         end;
  password ← match cfg_get_fallback cfg_parser domain "api_token" with
             | Some p => mret p
             | None =>
                 eprint ("Error: api_token is not specified in "
                         +:+ "configuration file " +:+ config_file);;
                 raise (SystemExit 1)
             end;
  rest cfg_parser domain user password.
End credentials.

(** A run from [w] that ended in [r] ended early when it died on an
    exception with the observation [keep] (the requests sent, the counters)
    as it was: on [sys.exit(1)] after one more line on standard error
    ([errs]), on any other exception with standard error as it was (the
    interpreter then adds its report). *)
Definition ended_early {W X B} (keep : W → X) (errs : W → list string)
    (w : W) (r : step B * W) : Prop :=
  ∃ e, r.1 = Throw e ∧
       keep r.2 = keep w ∧
       match e with
       | SystemExit code => code = 1%Z ∧ ∃ line, errs r.2 = errs w ++ [line]
       | _ => errs r.2 = errs w
       end.

(** The first line of what the interpreter writes to standard error
    when an exception other than [SystemExit] reaches the top. *)
Definition traceback_header : string := "Traceback (most recent call last):".

Definition uncaught {A} (s : step A) : bool :=
  match s with
  | Throw (SystemExit _) => false
  | Throw _ => true
  | _ => false
  end.

(** The domain whose section is read for the credentials: the command
    line argument when it is given, otherwise [domain] of [DEFAULT]. *)
Definition effective_domain (domain_arg : option string) (cfg : ConfigParser)
    : option string :=
  match domain_arg with
  | Some "" | None => defaults cfg !! "domain"
  | Some d => Some d
  end.

(** What can be wrong with the configuration: no file, a file that does
    not parse, no domain from either source, no user, no API token. *)
Inductive config_problem (domain_arg : option string) : file → Prop :=
| file_missing : config_problem domain_arg Missing
| file_malformed : config_problem domain_arg Malformed
| domain_missing cfg :
    effective_domain domain_arg cfg = None →
    config_problem domain_arg (Ini cfg)
| user_missing cfg d :
    effective_domain domain_arg cfg = Some d →
    cfg_get_fallback cfg d "user" = None →
    config_problem domain_arg (Ini cfg)
| api_token_missing cfg d :
    effective_domain domain_arg cfg = Some d →
    cfg_get_fallback cfg d "api_token" = None →
    config_problem domain_arg (Ini cfg).

(** A configuration file for examples: a default domain and its
    credentials. *)
Definition example_config : file :=
  Ini {| defaults := {[ "domain" := "example.net" ]};
         sections := {[ "example.net" :=
                          {[ "user" := "u"; "api_token" := "t" ]} ]} |}.

End Py.


(** ** The issue downloader, [jira_download_issues.py] *)

Module DownloadIssues.
Import Py.

(** What an attribute set by [create_object_from_value] or
    [create_object_from_field] holds: [None], [NOT_DOWNLOADED], or an
    instance of the wrapper class. *)
Inductive maybe (A : Type) :=
| IsNone
| NotDownloaded
| Object (a : A).
Global Arguments IsNone {A}.
Global Arguments NotDownloaded {A}.
Global Arguments Object {A} a.

Definition have_data {A} (value : maybe A) : bool :=
  match value with
  | Object _ => true
  | _ => false
  end.

(** [if obj:] for an author attribute: an instance counts as true (the
    class defines neither [__bool__] nor [__len__]), [None] does not. *)
Definition truth {A} (obj : maybe A) : bool :=
  match obj with
  | IsNone => false
  | _ => true
  end.

(** [obj.method()] or [obj.attribute] on the value of such an attribute:
    [None] and [NOT_DOWNLOADED] have none of the wrappers' members. *)
Definition attr {A B} (obj : maybe A) (member : A → result B) : result B :=
  match obj with
  | Object a => member a
  | _ => Raise AttributeError
  end.

(** [class JiraRestObject]: every wrapper keeps its payload in [_data]. *)
Class JiraRestObject (T : Type) := _data : T → value.

Section JiraRestObject.
Context `{JiraRestObject T}.

Definition get_value (self : T) (key : string) (default : value)
    : result value :=
  py_get (_data self) key default.

Definition self_url (self : T) : result value :=
  get_value self "self" VNone.
End JiraRestObject.

(** [JiraRestObject.__eq__] between two wrappers, of whatever classes. *)
Definition __eq__ `{JiraRestObject T, JiraRestObject U} (self : T) (other : U)
    : result bool :=
  a ← self_url self;
  b ← self_url other;
  Ok (py_eq a b).

(** [create_object_from_value], called from [__init__] on the payload
    just stored in [self._data]. *)
Definition create_object_from_value {A} (data : value)
    (cls : value → result A) (key : string) : result (maybe A) :=
  value ← py_get data key VNone;
  match value with
  | VNone => Ok IsNone
  | _ => Object <$> cls value
  end.

Module JiraAuthor.
Record t := mk { data : value }.
Definition init (data : value) : result t := Ok (mk data).
Global Instance rest : JiraRestObject t := data.

Definition display_name (self : t) : result value :=
  get_value self "displayName" VNone.

Definition to_struct (self : t) : result value :=
  name ← display_name self;
  Ok (VDict [("displayName", name)]).

Definition to_text (self : t) : result value := display_name self.
End JiraAuthor.

Module JiraComment.
Record t := mk { data : value; author_object : maybe JiraAuthor.t }.

Definition init (data : value) : result t :=
  author ← create_object_from_value data JiraAuthor.init "author";
  Ok (mk data author).
Global Instance rest : JiraRestObject t := data.

Definition body (self : t) := get_value self "body" VNone.
Definition created (self : t) := get_value self "created" VNone.
Definition updated (self : t) := get_value self "updated" VNone.

Definition to_struct (self : t) : result value :=
  b ← body self;
  c ← created self;
  u ← updated self;
  let res := [("body", b); ("created", c); ("updated", u)] in
  if truth (author_object self)
  then a ← attr (author_object self) JiraAuthor.to_struct;
       Ok (VDict (dict_set res "author" a))
  else Ok (VDict res).

Definition to_text (self : t) : result string :=
  author ← (if truth (author_object self)
             then py_str <$> attr (author_object self) JiraAuthor.to_text
             else Ok "<unknown author>");
  c ← created self;
  let author_and_date := author +:+ " " +:+ py_str c in
  let sep := str_repeat "-" (String.length author_and_date) in
  b ← body self;
  Ok (sep +:+ newline +:+ author_and_date +:+ newline +:+ sep +:+ newline
      +:+ py_str b +:+ newline).
End JiraComment.

Module JiraCommentList.
Record t := mk { data : value; comments : list JiraComment.t }.

Definition init (data : value) : result t :=
  value ← py_get data "comments" (VList []);
  items ← py_iter value;
  cs ← mapM JiraComment.init items;
  Ok (mk data cs).
Global Instance rest : JiraRestObject t := data.

Definition total (self : t) := get_value self "total" VNone.

Definition to_struct (self : t) : result value :=
  VList <$> mapM JiraComment.to_struct (comments self).

Definition to_text (self : t) : result string :=
  join newline <$> mapM JiraComment.to_text (comments self).

Definition len (self : t) : nat := length (comments self).
End JiraCommentList.

Module JiraResolution.
Record t := mk { data : value }.
Definition init (data : value) : result t := Ok (mk data).
Global Instance rest : JiraRestObject t := data.

Definition description (self : t) := get_value self "description" VNone.
Definition name (self : t) := get_value self "name" VNone.

Definition to_struct (self : t) : result value :=
  d ← description self;
  n ← name self;
  Ok (VDict [("type", VStr "JiraResolution"); ("description", d);
             ("name", n)]).

Definition to_text (self : t) : result string :=
  n ← name self;
  Ok ("Resolution: " +:+ py_str n).
End JiraResolution.

Module JiraStatusCategory.
Record t := mk { data : value }.
Definition init (data : value) : result t := Ok (mk data).
Global Instance rest : JiraRestObject t := data.
End JiraStatusCategory.

Module JiraStatus.
Record t := mk { data : value; status_category : maybe JiraStatusCategory.t }.

Definition init (data : value) : result t :=
  category ← create_object_from_value data JiraStatusCategory.init
               "statusCategory";
  Ok (mk data category).
Global Instance rest : JiraRestObject t := data.

Definition name (self : t) := get_value self "name" VNone.
End JiraStatus.

Module JiraPriority.
Record t := mk { data : value }.
Definition init (data : value) : result t := Ok (mk data).
Global Instance rest : JiraRestObject t := data.

Definition name (self : t) := get_value self "name" VNone.
End JiraPriority.

Module JiraIssueType.
Record t := mk { data : value }.
Definition init (data : value) : result t := Ok (mk data).
Global Instance rest : JiraRestObject t := data.

Definition name (self : t) := get_value self "name" VNone.
End JiraIssueType.

Module JiraAttachment.
Record t := mk { data : value; author : maybe JiraAuthor.t }.

Definition init (data : value) : result t :=
  a ← create_object_from_value data JiraAuthor.init "author";
  Ok (mk data a).
Global Instance rest : JiraRestObject t := data.

Definition filename (self : t) := get_value self "filename" VNone.
Definition content (self : t) := get_value self "content" VNone.
End JiraAttachment.

(** The test of [create_object_from_field] on the looked-up value. *)
Definition object_from_field {A} (cls : value → result A) (value : value)
    : result (maybe A) :=
  match value with
  | VNone | VNotDownloaded => Ok NotDownloaded
  | _ => Object <$> cls value
  end.

(** [JiraIssue.create_object_from_field]; every caller leaves [default]
    at [NOT_DOWNLOADED]. *)
Definition create_object_from_field {A} (fields : value)
    (cls : value → result A) (key : string) : result (maybe A) :=
  value ← py_get fields key VNotDownloaded;
  object_from_field cls value.

(** [[cls(c) for c in value]] *)
Definition comprehension {A} (cls : value → result A) (value : value)
    : result (list A) :=
  items ← py_iter value;
  mapM cls items.

Module JiraIssue.
Inductive t := mk {
  data : value;
  fields : value;
  parent_issue : maybe t;
  resolution_object : maybe JiraResolution.t;
  comments : maybe JiraCommentList.t;
  status : maybe JiraStatus.t;
  priority : maybe JiraPriority.t;
  reporter : maybe JiraAuthor.t;
  assignee : maybe JiraAuthor.t;
  issuetype : maybe JiraIssueType.t;
  subtasks : list t;
  attachment : list JiraAttachment.t
}.

(** [JiraIssue.__init__].  The payload of the parent and of each
    subtask sits under [data["fields"]], and the recursion follows the
    payload: [dict_item] hands the nested value to the constructor.
    [init_unfold] below states the same in the order of the source. *)
Fixpoint init (data : value) : result t :=
  match data with
  | VDict entries =>
      dict_item "fields"
        (λ fields,
           match fields with
           | VDict items =>
               parent ← dict_item "parent" (object_from_field init)
                          (Ok NotDownloaded) items;
               resolution ← create_object_from_field fields
                              JiraResolution.init "resolution";
               comments ← create_object_from_field fields
                            JiraCommentList.init "comment";
               status ← create_object_from_field fields
                          JiraStatus.init "status";
               priority ← create_object_from_field fields
                            JiraPriority.init "priority";
               reporter ← create_object_from_field fields
                            JiraAuthor.init "reporter";
               assignee ← create_object_from_field fields
                            JiraAuthor.init "assignee";
               issuetype ← create_object_from_field fields
                             JiraIssueType.init "issuetype";
               subtasks ← dict_item "subtasks"
                            (λ value,
                               match value with
                               | VList cs => mapM init cs
                               | _ => comprehension
                                        (λ _, Raise AttributeError) value
                               end)
                            (Ok []) items;
               attachment ← (value ← py_get fields "attachment" (VList []);
                             comprehension JiraAttachment.init value);
               Ok (mk data fields parent resolution comments status
                     priority reporter assignee issuetype subtasks
                     attachment)
           | _ => Raise AttributeError
           end)
        (Raise AttributeError) entries
  | _ => Raise AttributeError
  end.
Global Instance rest : JiraRestObject t := data.

Definition key (self : t) := get_value self "key" VNone.

Definition get_field (self : t) (field_name : string) : result value :=
  py_get (fields self) field_name VNotDownloaded.

Definition description (self : t) := get_field self "description".
Definition summary (self : t) := get_field self "summary".
Definition labels (self : t) := get_field self "labels".
Definition created (self : t) := get_field self "created".
Definition updated (self : t) := get_value self "updated" VNone.
Definition resultiondate (self : t) := get_field self "resolutiondate".

Definition to_struct (self : t) : result value :=
  k ← key self;
  s ← summary self;
  d ← description self;
  c ← created self;
  l ← labels self;
  u ← updated self;
  r ← resultiondate self;
  let res := [("type", VStr "JiraIssue"); ("key", k); ("summary", s);
              ("description", d); ("created", c); ("labels", l);
              ("updated", u); ("resolutiondate", r)] in
  res ← (if have_data (parent_issue self)
         then pk ← attr (parent_issue self) key;
              Ok (dict_set res "parent" pk)
         else Ok res);
  res ← (if have_data (resolution_object self)
         then v ← attr (resolution_object self) JiraResolution.to_struct;
              Ok (dict_set res "resolution" v)
         else Ok res);
  res ← (if have_data (comments self)
         then v ← attr (comments self) JiraCommentList.to_struct;
              Ok (dict_set res "comments" v)
         else Ok res);
  Ok (VDict res).

(** [{obj.name}] in the template: the attribute is read while the text
    is formatted. *)
Definition name_of {A} (name : A → result value) (obj : maybe A)
    : result string :=
  py_str <$> attr obj name.

(** The template of [to_text], with its fields already turned into
    text. *)
Definition template (key issuetype_name status_name priority_name reporter
    assignee resolution subtasks summary description labels created updated
    comments : string) : string :=
  "Issue: " +:+ key +:+ newline
  +:+ "Type: " +:+ issuetype_name +:+ newline
  +:+ "Status: " +:+ status_name +:+ newline
  +:+ "Priority: " +:+ priority_name +:+ newline
  +:+ "Reporter: " +:+ reporter +:+ newline
  +:+ "Assignee: " +:+ assignee +:+ newline
  +:+ "Resolution: " +:+ resolution +:+ newline
  +:+ "Subtasks: " +:+ subtasks +:+ newline
  +:+ "Summary: " +:+ summary +:+ newline
  +:+ "Description:" +:+ newline
  +:+ newline
  +:+ description +:+ newline
  +:+ "---" +:+ newline
  +:+ "Labels: " +:+ labels +:+ newline
  +:+ "Created: " +:+ created +:+ newline
  +:+ "Updated: " +:+ updated +:+ newline
  +:+ "Comments:" +:+ newline
  +:+ newline
  +:+ comments.

Definition to_text (self : t) : result string :=
  subtasks_text ←
    match subtasks self with
    | [] => Ok "none"
    | _ => keys ← mapM key (subtasks self);
           strs ← mapM as_str keys;
           Ok (join ", " strs)
    end;
  k ← key self;
  reporter_text ←
    (if have_data (reporter self)
     then attr (reporter self) JiraAuthor.display_name
     else Ok (VStr "Unknown"));
  assignee_text ←
    (if have_data (assignee self)
     then attr (assignee self) JiraAuthor.display_name
     else Ok (VStr "Unknown"));
  resolution_text ←
    (if have_data (resolution_object self)
     then attr (resolution_object self) JiraResolution.name
     else Ok (VStr "Unresolved"));
  s ← summary self;
  d ← description self;
  labels_text ← (l ← labels self; py_join ", " l);
  c ← created self;
  u ← updated self;
  comments_text ←
    match comments self with
    | NotDownloaded => Ok "<not downloaded>"
    | obj => attr obj JiraCommentList.to_text
    end;
  issuetype_name ← name_of JiraIssueType.name (issuetype self);
  status_name ← name_of JiraStatus.name (status self);
  priority_name ← name_of JiraPriority.name (priority self);
  Ok (template (py_str k) issuetype_name status_name priority_name
        (py_str reporter_text) (py_str assignee_text)
        (py_str resolution_text) subtasks_text (py_str s) (py_str d)
        labels_text (py_str c) (py_str u) comments_text).
End JiraIssue.

(** The text written for a fetched record: [JiraIssue(issue_dict)], then
    [to_text()]. *)
Definition issue_text (issue_dict : value) : result string :=
  issue ← JiraIssue.init issue_dict;
  JiraIssue.to_text issue.

(** The structure written for a fetched record. *)
Definition issue_struct (issue_dict : value) : result value :=
  issue ← JiraIssue.init issue_dict;
  JiraIssue.to_struct issue.

(** The payload [data] after [data["fields"][key] = None]. *)
Definition with_null_field (entries items : list (string * value))
    (key : string) : value :=
  VDict (dict_set entries "fields" (VDict (dict_set items key VNone))).

(** The same issue object around another payload. *)
Definition rewrap (data fields : value) (i : JiraIssue.t) : JiraIssue.t :=
  JiraIssue.mk data fields (JiraIssue.parent_issue i)
    (JiraIssue.resolution_object i) (JiraIssue.comments i)
    (JiraIssue.status i) (JiraIssue.priority i) (JiraIssue.reporter i)
    (JiraIssue.assignee i) (JiraIssue.issuetype i) (JiraIssue.subtasks i)
    (JiraIssue.attachment i).

(** A text with a slot: [f x] is [x] between two fixed texts. *)
Definition slot (f : string → string) : Prop :=
  ∃ pre post, ∀ x, f x = pre +:+ x +:+ post.

(** Payloads for examples: the fields of an issue without comments, and
    the record around them; reporter, assignee, resolution, description and
    the rest of the optional fields are absent. *)
Definition example_fields : list (string * value) :=
  [("issuetype", VDict [("name", VStr "Bug")]);
   ("status", VDict [("name", VStr "Open")]);
   ("priority", VDict [("name", VStr "High")]);
   ("labels", VList [VStr "a"; VStr "b"]);
   ("comment", VDict [("comments", VList []); ("total", VInt 0)])].

Definition example_entries : list (string * value) :=
  [("key", VStr "K-1"); ("fields", VDict example_fields)].

(** *** The run of the script *)

(** The client object made by [Jira(url=..., username=..., password=...)]. *)
Record Jira := {
  url : string;
  username : string;
  password : string
}.

(** What the script asks of the service. *)
Inductive request :=
| Jql (jql : string) (start limit : nat)
| GetContent (content : value).

(** What a run leaves behind, in order. *)
Inductive event :=
| Stdout (line : string)
| Stderr (line : string)
| Sent (jira : Jira) (r : request)
| MakeDirs (path : string)
| OpenFile (path : string)
| WriteFile (path : string) (text : string)
| DumpYaml (path : string) (document : value)
| MakeIssueDir (dest_dir key : string)
| StoreAttachment (dest_dir key filename : string).

Definition limit : nat := 200.

Section jira_get_issues.
(** [jira.jql(jql, start=start, limit=limit)] for the query at hand,
    and the body of the [for] loop that consumes the generator. *)
Context {W : Type} (search : nat → nat → M W value)
        (body : value → M W unit).

(** One pass through [while True] and what follows it.  [rounds]
    bounds the number of passes. *)
Fixpoint jira_get_issues_from (rounds : nat) (start : nat) (total : value)
    : M W unit :=
  match rounds with
  | 0 => unfinished
  | S rounds' =>
      data ← search start limit;
      total ← (if py_eq total (VInt (-1))
               then lift (py_get data "total" VNone)
               else mret total);
      issues ← lift (py_get data "issues" VNone);
      num_issues ← lift (py_len issues);
      (if decide (0 < num_issues)
       then items ← lift (py_iter issues); for_each body items
       else mret ());;
      if decide (num_issues = 0) then mret ()
      else jira_get_issues_from rounds' (start + num_issues) total
  end.

Definition jira_get_issues (rounds : nat) : M W unit :=
  jira_get_issues_from rounds 0 (VInt (-1)).
End jira_get_issues.

Section run.
(** The service: its state, and how it answers and moves on. *)
Context {S : Type} (respond : S → Jira → request → result value * S).

Record World := {
  service : S;
  log : list event;
  num_issues : nat
}.

Definition emit (e : event) : M World unit := λ w,
  (Return (), {| service := service w; log := log w ++ [e];
                 num_issues := num_issues w |}).

Definition print (line : string) : M World unit := emit (Stdout line).
Definition eprint (line : string) : M World unit := emit (Stderr line).

Definition send (jira : Jira) (r : request) : M World value := λ w,
  let '(answer, s) := respond (service w) jira r in
  let w' := {| service := s; log := log w ++ [Sent jira r];
               num_issues := num_issues w |} in
  match answer with
  | Ok v => (Return v, w')
  | Raise e => (Throw e, w')
  end.

Definition count_issue : M World unit := λ w,
  (Return (), {| service := service w; log := log w;
                 num_issues := Datatypes.S (num_issues w) |}).

Definition get_num_issues : M World nat := λ w, (Return (num_issues w), w).

Record Args := {
  atlassian_domain : option string;
  config_file : string;
  dest_dir : string;
  jql : option string;
  output_format : string;
  download_attachments : bool
}.

(** [os.path.join(a, b)] *)
Definition path_join (a b : string) : string :=
  if String.prefix "/" b then b
  else if decide (a = "" ∨ String.prefix "/" (String.rev a) = true)
       then a +:+ b
       else a +:+ "/" +:+ b.

(** [a + b] with [b] a string. *)
Definition str_add (a : value) (b : string) : result string :=
  match a with
  | VStr s => Ok (s +:+ b)
  | _ => Raise TypeError
  end.

(** [JiraAttachment.download] *)
Definition download (jira : Jira) (dest_dir key : string)
    (a : JiraAttachment.t) : M World unit :=
  filename ← lift (JiraAttachment.filename a);
  name ← lift (as_str filename);
  content ← lift (JiraAttachment.content a);
  send jira (GetContent content);;
  emit (StoreAttachment dest_dir key name).

(** The body of the [for] loop of [main]. *)
Definition process_issue (args : Args) (domain : string) (jira : Jira)
    (issue_dict : value) : M World unit :=
  issue ← lift (JiraIssue.init issue_dict);
  count_issue;;
  match JiraIssue.comments issue with
  | Object cs =>
      total ← lift (JiraCommentList.total cs);
      if py_eq total (VInt (Z.of_nat (JiraCommentList.len cs))) then mret ()
      else print ("Need to download comments: total = " +:+ py_str total
                  +:+ ", have = " +:+ pretty (JiraCommentList.len cs))
  | _ => raise AttributeError
  end;;
  key ← lift (JiraIssue.key issue);
  let browse_url := "https://" +:+ domain +:+ "/browse/" +:+ py_str key in
  (if decide (output_format args = "yaml") then
     name ← lift (str_add key ".yaml");
     let issue_file_path := path_join (dest_dir args) name in
     print ("issue " +:+ py_str key +:+ " -> " +:+ issue_file_path);;
     emit (OpenFile issue_file_path);;
     lift (JiraIssue.to_struct issue);;
     document ← lift (JiraIssue.to_struct issue);
     emit (DumpYaml issue_file_path document)
   else if decide (output_format args = "text") then
     name ← lift (str_add key ".txt");
     let issue_file_path := path_join (dest_dir args) name in
     print ("issue " +:+ py_str key +:+ " -> " +:+ issue_file_path);;
     emit (OpenFile issue_file_path);;
     emit (WriteFile issue_file_path ("Link: " +:+ browse_url +:+ newline));;
     issue_text ← lift (JiraIssue.to_text issue);
     emit (WriteFile issue_file_path issue_text)
   else mret ());;
  if download_attachments args then
    dir ← lift (str_add key "");
    emit (MakeIssueDir (dest_dir args) dir);;
    for_each (download jira (dest_dir args) dir) (JiraIssue.attachment issue)
  else mret ().

Definition main (rounds : nat) (args : Args) (config : file)
    : M World unit :=
  (if isfile config then mret ()
   else eprint ("Error: Configuration file " +:+ config_file args
                +:+ " not found");;
        raise (SystemExit 1));;
  cfg_parser ← lift (cfg_read config);
  domain ← match given (atlassian_domain args) with
           | Some d => mret d
           | None => lift (cfg_get cfg_parser DEFAULTSECT "domain")
           end;
  user ← match cfg_get_fallback cfg_parser domain "user" with
         | Some u => mret u
         | None =>
             eprint ("Error: user is not specified in configuration file "
                     +:+ config_file args);;
             raise (SystemExit 1)
         end;
  password ← match cfg_get_fallback cfg_parser domain "api_token" with
             | Some p => mret p
             | None =>
                 eprint ("Error: api_token is not specified in "
                         +:+ "configuration file " +:+ config_file args);;
                 raise (SystemExit 1)
             end;
  jql ← match given (jql args) with
        | Some q => mret q
        | None => lift (cfg_get cfg_parser DEFAULTSECT "jql")
        end;
  print ("Atlassian domain: " +:+ domain);;
  print ("Atlassian user: " +:+ user);;
  print ("Output issues to the directory: " +:+ dest_dir args);;
  print ("Output format: " +:+ output_format args);;
  print ("JQL: " +:+ jql);;
  emit (MakeDirs (dest_dir args));;
  let jira := {| url := "https://" +:+ domain; username := user;
                 password := password |} in
  jira_get_issues (λ start limit, send jira (Jql jql start limit))
    (process_issue args domain jira) rounds;;
  n ← get_num_issues;
  print ("Downloaded " +:+ pretty n +:+ " issues").

(** The script after the credentials. *)
Definition after_credentials (rounds : nat) (args : Args)
    (cfg_parser : ConfigParser) (domain user password : string)
    : M World unit :=
  jql ← match given (jql args) with
        | Some q => mret q
        | None => lift (cfg_get cfg_parser DEFAULTSECT "jql")
        end;
  print ("Atlassian domain: " +:+ domain);;
  print ("Atlassian user: " +:+ user);;
  print ("Output issues to the directory: " +:+ dest_dir args);;
  print ("Output format: " +:+ output_format args);;
  print ("JQL: " +:+ jql);;
  emit (MakeDirs (dest_dir args));;
  let jira := {| url := "https://" +:+ domain; username := user;
                 password := password |} in
  jira_get_issues (λ start limit, send jira (Jql jql start limit))
    (process_issue args domain jira) rounds;;
  n ← get_num_issues;
  print ("Downloaded " +:+ pretty n +:+ " issues").

(** The script as a process: [main(args)], then the exit status, with the
    interpreter's report when an exception was not caught. *)
Definition script (rounds : nat) (args : Args) (config : file) (w : World)
    : option Z * World :=
  let '(s, w') := main rounds args config w in
  (exit_status s,
   if uncaught s
   then {| service := service w'; log := log w' ++ [Stderr traceback_header];
           num_issues := num_issues w' |}
   else w').
End run.

(** For examples: a service that cannot be reached, and the world before
    the script has done anything. *)
Definition offline (s : unit) (_ : Jira) (_ : request)
    : result value * unit :=
  (Raise HTTPError, s).

Definition empty_world {S} (s : S) : World :=
  {| service := s; log := []; num_issues := 0 |}.

(** Another service for examples: every search finds nothing. *)
Definition nothing (s : unit) (_ : Jira) (_ : request) : result value * unit :=
  (Ok (VDict [("total", VInt 0); ("issues", VList [])]), s).

(** More payloads for examples: a record with dates in its field map, a
    record without a field map, a record without comments, and a record
    with a parent, a subtask, an attachment and a comment. *)
Definition example_dated : list (string * value) :=
  [("key", VStr "K-1");
   ("fields", VDict (("created", VStr "2024-01-01")
                     :: ("updated", VStr "2024-01-02") :: example_fields))].

Definition example_bare : list (string * value) := [("key", VStr "K-1")].

Definition example_uncommented : list (string * value) :=
  [("key", VStr "K-1"); ("fields", VDict [("labels", VList [])])].

Definition example_family_fields : list (string * value) :=
  [("parent", VDict [("key", VStr "K-0"); ("fields", VDict [])]);
   ("subtasks", VList [VDict [("key", VStr "K-2"); ("fields", VDict [])]]);
   ("attachment", VList [VDict [("filename", VStr "a.txt")]]);
   ("comment", VDict [("comments", VList [VDict [("body", VStr "hi")]])])].

Definition example_family : list (string * value) :=
  [("key", VStr "K-1"); ("fields", VDict example_family_fields)].

(** A comment list for examples: one comment with an author, one
    without. *)
Definition example_comments : value :=
  VDict [("total", VInt 2);
         ("comments",
          VList [VDict [("body", VStr "hi");
                        ("author", VDict [("displayName", VStr "Ann")])];
                 VDict [("body", VStr "yo")]])].

(** The requests and the lines on standard error found in a log. *)
Definition requests (l : list event) : list request :=
  omap (λ e, match e with Sent _ r => Some r | _ => None end) l.

Definition stderr (l : list event) : list string :=
  omap (λ e, match e with Stderr line => Some line | _ => None end) l.

(** What must stay as it was until the first call, and the lines on
    standard error. *)
Definition download_untouched {S} (w : @World S) : list request * nat * S :=
  (requests (log w), num_issues w, service w).

Definition download_errors {S} (w : @World S) : list string :=
  stderr (log w).

(** What a run did to the file system, in a log. *)
Definition files (l : list event) : list event :=
  omap (λ e, match e with
             | Stdout _ | Stderr _ | Sent _ _ => None
             | _ => Some e
             end) l.

(** The query of a run: the argument when it is given, otherwise [jql]
    of [DEFAULT]. *)
Definition effective_jql (jql_arg : option string) (cfg : ConfigParser)
    : option string :=
  match jql_arg with
  | Some "" | None => defaults cfg !! "jql"
  | Some q => Some q
  end.

(** The documents handed to [yaml_dumper.dump], in a log. *)
Definition dumped (l : list event) : list value :=
  omap (λ e, match e with DumpYaml _ document => Some document | _ => None end)
       l.



(** A document without a [browse_url] entry. *)
Definition no_browse_url (document : value) : Prop :=
  ∃ entries, document = VDict entries ∧
             dict_lookup entries "browse_url" = None.

(** The documents dumped from [w] to [w'] are all of the kind [P]. *)
Definition dumps {S} (P : value → Prop) (w w' : @World S) : Prop :=
  ∃ documents,
    dumped (log w') = dumped (log w) ++ documents ∧ Forall P documents.

(** The keys of a dict, in its order. *)
Definition dict_keys (entries : list (string * value)) : list string :=
  entries.*1.

(** The field map has a value under [key], and it is not null. *)
Definition fetched (items : list (string * value)) (key : string) : bool :=
  match dict_get items key VNotDownloaded with
  | VNone | VNotDownloaded => false
  | _ => true
  end.

End DownloadIssues.

(** ** The label editor, [jira_edit_labels.py] *)

Module EditLabels.
Import Py.

(** What the tool reads from a fetched issue: [issue_dict.get("key")]
    and [issue_dict.get("fields").get("labels")], a list of strings. *)
Record Issue := {
  issue_key : string;
  issue_labels : list string
}.

(** [list.remove(x)]: drops the first item equal to [x].  Python raises
    [ValueError] when there is none; the one call is guarded by
    [label in new_labels]. *)
Fixpoint list_remove (x : string) (l : list string) : list string :=
  match l with
  | [] => []
  | y :: l' => if decide (x = y) then l' else y :: list_remove x l'
  end.

(** The variables of lines 93-106 for one issue, and what was printed. *)
Record edit_state := {
  new_labels : list string;
  update_labels : bool;
  printed : list string
}.

(** Body of [for label in args.add_labels]. *)
Definition add_label (old_labels_set : gset string) (key : string)
    (st : edit_state) (label : string) : edit_state :=
  if decide (label ∉ old_labels_set) then
    {| new_labels := new_labels st ++ [label];
       update_labels := true;
       printed := printed st ++
         ["Add label " +:+ repr_str label +:+ " to the issue " +:+ key] |}
  else st.

(** Body of [for label in args.remove_labels]. *)
Definition remove_label (old_labels_set : gset string) (key : string)
    (st : edit_state) (label : string) : edit_state :=
  if decide (label ∈ old_labels_set ∧ label ∈ new_labels st) then
    {| new_labels := list_remove label (new_labels st);
       update_labels := true;
       printed := printed st ++
         ["Remove label " +:+ repr_str label +:+ " from the issue "
          +:+ key] |}
  else st.

(** Lines 93-106. *)
Definition edit_labels (add_labels remove_labels : list string)
    (key : string) (old_labels : list string) : edit_state :=
  let old_labels_set : gset string := list_to_set old_labels in
  let st0 := {| new_labels := old_labels; update_labels := false;
                printed := [] |} in
  let st1 := foldl (add_label old_labels_set key) st0 add_labels in
  foldl (remove_label old_labels_set key) st1 remove_labels.

(** The label list computed for an issue with the given labels. *)
Definition compute_labels (add_labels remove_labels old_labels : list string)
    : list string :=
  new_labels (edit_labels add_labels remove_labels "" old_labels).

(** How many times a label occurs in a label list. *)
Definition occurrences (x : string) (l : list string) : nat :=
  count_occ String.eq_dec l x.
Global Arguments occurrences : simpl never.

(** *** The run of the script *)

Record Jira := {
  url : string;
  username : string;
  password : string
}.

Inductive request :=
| GetIssue (key fields : string)
| Jql (jql : string) (start limit : nat) (fields : string)
| UpdateIssueField (key : string) (labels : list string).

Inductive event :=
| Stdout (line : string)
| Stderr (line : string)
| Sent (jira : Jira) (r : request).

(** The calls found in a log, and the update calls among them. *)
Definition requests (l : list event) : list request :=
  omap (λ e, match e with Sent _ r => Some r | _ => None end) l.

Definition update_calls (l : list event) : list (string * list string) :=
  omap (λ e, match e with
             | Sent _ (UpdateIssueField key labels) => Some (key, labels)
             | _ => None
             end) l.

Definition stderr (l : list event) : list string :=
  omap (λ e, match e with Stderr line => Some line | _ => None end) l.

(** The issues asked for by key, with the fields asked for. *)
Definition lookups (l : list event) : list (string * string) :=
  omap (λ e, match e with
             | Sent _ (GetIssue key fields) => Some (key, fields)
             | _ => None
             end) l.

(** The calls that read from the service, in order. *)
Definition reads (l : list event) : list request :=
  omap (λ e, match e with
             | Sent _ (UpdateIssueField _ _) => None
             | Sent _ r => Some r
             | _ => None
             end) l.

(** The searches: the query, the offset, the limit and the fields. *)
Definition searches (l : list event) : list (string * nat * nat * string) :=
  omap (λ e, match e with
             | Sent _ (Jql q start limit fields) =>
                 Some (q, start, limit, fields)
             | _ => None
             end) l.

(** The service: what it answers to each call, and how it moves on. *)
Record Service (S : Type) := {
  issue : S → Jira → string → string → result Issue * S;
  jql : S → Jira → string → nat → nat → string → result (list Issue) * S;
  update_issue_field : S → Jira → string → list string → result unit * S
}.
Global Arguments issue {S}.
Global Arguments jql {S}.
Global Arguments update_issue_field {S}.

Record World (S : Type) := {
  service : S;
  log : list event;
  num_issues : nat;
  num_updated_issues : nat
}.
Global Arguments service {S}.
Global Arguments log {S}.
Global Arguments num_issues {S}.
Global Arguments num_updated_issues {S}.

Definition limit : nat := 200.

Section jira_get_issues.
(** [jira.jql(jql, start=start, limit=limit, fields=fields)] reduced to
    [data.get("issues")], and the body of the consuming [for] loop. *)
Context {W : Type} (search : string → nat → nat → M W (list Issue))
        (body : Issue → M W unit).

Fixpoint jira_get_issues_from (jql : string) (rounds : nat) (start : nat)
    : M W unit :=
  match rounds with
  | 0 => unfinished
  | S rounds' =>
      issues ← search jql start limit;
      let num_issues := length issues in
      (if decide (0 < num_issues) then for_each body issues else mret ());;
      if decide (num_issues = 0) then mret ()
      else jira_get_issues_from jql rounds' (start + num_issues)
  end.

(** [jira_get_issues(jira, jql, fields)] *)
Definition jira_get_issues (jql : option string) (rounds : nat)
    : M W unit :=
  match jql with
  | None | Some "" => mret ()
  | Some q => jira_get_issues_from q rounds 0
  end.
End jira_get_issues.

Section run.
Context {S : Type} (srv : Service S).

Definition emit (e : event) : M (World S) unit := λ w,
  (Return (), {| service := service w; log := log w ++ [e];
                 num_issues := num_issues w;
                 num_updated_issues := num_updated_issues w |}).

Definition print (line : string) : M (World S) unit := emit (Stdout line).
Definition eprint (line : string) : M (World S) unit := emit (Stderr line).

(** A call on the client: logged, answered by the service. *)
Definition send {A} (jira : Jira) (r : request)
    (answer : S → result A * S) : M (World S) A := λ w,
  let '(a, s) := answer (service w) in
  let w' := {| service := s; log := log w ++ [Sent jira r];
               num_issues := num_issues w;
               num_updated_issues := num_updated_issues w |} in
  match a with
  | Ok v => (Return v, w')
  | Raise e => (Throw e, w')
  end.

Definition count_issue : M (World S) unit := λ w,
  (Return (), {| service := service w; log := log w;
                 num_issues := Datatypes.S (num_issues w);
                 num_updated_issues := num_updated_issues w |}).

Definition count_updated_issue : M (World S) unit := λ w,
  (Return (), {| service := service w; log := log w;
                 num_issues := num_issues w;
                 num_updated_issues :=
                   Datatypes.S (num_updated_issues w) |}).

Definition counters : M (World S) (nat * nat) := λ w,
  (Return (num_issues w, num_updated_issues w), w).

(** [jira_get_issues_from_keys]: one [jira.issue(key, fields="*all")]
    per key, each followed by the body of the loop. *)
Definition jira_get_issues_from_keys (jira : Jira) (keys : list string)
    (body : Issue → M (World S) unit) : M (World S) unit :=
  for_each (λ key,
              issue_dict ← send jira (GetIssue key "*all")
                             (λ s, issue srv s jira key "*all");
              body issue_dict) keys.

Record Args := {
  dry_run : bool;
  atlassian_domain : option string;
  config_file : string;
  args_jql : option string;
  keys : list string;
  add_labels : list string;
  remove_labels : list string
}.

(** The body of the [for] loop of [main] (lines 88-118). *)
Definition process_issue (args : Args) (jira : Jira) (issue_dict : Issue)
    : M (World S) unit :=
  count_issue;;
  let issue_key := issue_key issue_dict in
  let old_labels := issue_labels issue_dict in
  let st := edit_labels (add_labels args) (remove_labels args) issue_key
              old_labels in
  for_each print (printed st);;
  if update_labels st then
    count_updated_issue;;
    if dry_run args then
      print ("DRY RUN: I would update issue " +:+ issue_key
             +:+ " with labels: " +:+ join ", " (new_labels st))
    else
      print ("Update issue " +:+ issue_key +:+ " with labels: "
             +:+ join ", " (new_labels st));;
      send jira (UpdateIssueField issue_key (new_labels st))
        (λ s, update_issue_field srv s jira issue_key (new_labels st))
  else mret ().

(** The world [w] with another log. *)
Definition with_log (w : World S) (l : list event) : World S :=
  {| service := service w; log := l; num_issues := num_issues w;
     num_updated_issues := num_updated_issues w |}.

(** What [process_issue] adds to the log. *)
Definition issue_events (args : Args) (jira : Jira) (issue_dict : Issue)
    : list event :=
  let key := issue_key issue_dict in
  let st := edit_labels (add_labels args) (remove_labels args) key
              (issue_labels issue_dict) in
  map Stdout (printed st) ++
  if update_labels st then
    if dry_run args then
      [Stdout ("DRY RUN: I would update issue " +:+ key
               +:+ " with labels: " +:+ join ", " (new_labels st))]
    else
      [Stdout ("Update issue " +:+ key +:+ " with labels: "
               +:+ join ", " (new_labels st));
       Sent jira (UpdateIssueField key (new_labels st))]
  else [].

Definition main (rounds : nat) (args : Args) (config : file)
    : M (World S) unit :=
  (if isfile config then mret ()
   else eprint ("Error: Configuration file " +:+ config_file args
                +:+ " not found");;
        raise (SystemExit 1));;
  cfg_parser ← lift (cfg_read config);
  domain ← match given (atlassian_domain args) with
           | Some d => mret d
           | None => lift (cfg_get cfg_parser DEFAULTSECT "domain")
           end;
  user ← match cfg_get_fallback cfg_parser domain "user" with
         | Some u => mret u
         | None =>
             eprint ("Error: user is not specified in configuration file "
                     +:+ config_file args);;
             raise (SystemExit 1)
         end;
  password ← match cfg_get_fallback cfg_parser domain "api_token" with
             | Some p => mret p
             | None =>
                 eprint ("Error: api_token is not specified in "
                         +:+ "configuration file " +:+ config_file args);;
                 raise (SystemExit 1)
             end;
  print (match given (args_jql args) with
         | Some q => "JQL: " +:+ q
         | None => "No JQL specified"
         end);;
  print (match keys args with
         | [] => "No Jira keys specified"
         | ks => "Jira keys: " +:+ join ", " ks
         end);;
  print (match add_labels args with
         | [] => "There are no labels to add"
         | ls => "Add labels: " +:+ join ", " ls
         end);;
  print (match remove_labels args with
         | [] => "There are no labels to remove"
         | ls => "Remove labels: " +:+ join ", " ls
         end);;
  match add_labels args, remove_labels args with
  | [], [] =>
      eprint "Error: no labels specified for adding and/or removing";;
      raise (SystemExit 1)
  | _, _ => mret ()
  end;;
  (* "https://" + args.atlassian_domain: the argument, not [domain] *)
  url ← match atlassian_domain args with
        | Some d => mret ("https://" +:+ d)
        | None => raise TypeError
        end;
  let jira := {| url := url; username := user; password := password |} in
  jira_get_issues_from_keys jira (keys args) (process_issue args jira);;
  jira_get_issues
    (λ q start limit,
       send jira (Jql q start limit "labels")
         (λ s, jql srv s jira q start limit "labels"))
    (process_issue args jira) (args_jql args) rounds;;
  '(n, updated) ← counters;
  print ("Processed " +:+ pretty n +:+ " issue(s)");;
  if dry_run args
  then print ("DRY RUN: I would have updated " +:+ pretty updated
              +:+ " issue(s)")
  else print ("Updated " +:+ pretty updated +:+ " issue(s)").

(** What must stay as it was until the first call: the requests in the
    log, the counters and the state of the service. *)
Definition untouched (w : World S) : list request * nat * nat * S :=
  (requests (log w), num_issues w, num_updated_issues w, service w).

Definition errors (w : World S) : list string := stderr (log w).

(** The script after the credentials. *)
Definition after_credentials (rounds : nat) (args : Args)
    (domain user password : string) : M (World S) unit :=
  print (match given (args_jql args) with
         | Some q => "JQL: " +:+ q
         | None => "No JQL specified"
         end);;
  print (match keys args with
         | [] => "No Jira keys specified"
         | ks => "Jira keys: " +:+ join ", " ks
         end);;
  print (match add_labels args with
         | [] => "There are no labels to add"
         | ls => "Add labels: " +:+ join ", " ls
         end);;
  print (match remove_labels args with
         | [] => "There are no labels to remove"
         | ls => "Remove labels: " +:+ join ", " ls
         end);;
  match add_labels args, remove_labels args with
  | [], [] =>
      eprint "Error: no labels specified for adding and/or removing";;
      raise (SystemExit 1)
  | _, _ => mret ()
  end;;
  url ← match atlassian_domain args with
        | Some d => mret ("https://" +:+ d)
        | None => raise TypeError
        end;
  let jira := {| url := url; username := user; password := password |} in
  jira_get_issues_from_keys jira (keys args) (process_issue args jira);;
  jira_get_issues
    (λ q start limit,
       send jira (Jql q start limit "labels")
         (λ s, jql srv s jira q start limit "labels"))
    (process_issue args jira) (args_jql args) rounds;;
  '(n, updated) ← counters;
  print ("Processed " +:+ pretty n +:+ " issue(s)");;
  if dry_run args
  then print ("DRY RUN: I would have updated " +:+ pretty updated
              +:+ " issue(s)")
  else print ("Updated " +:+ pretty updated +:+ " issue(s)").

(** The script as a process: [main(args)], then the exit status, with the
    interpreter's report when an exception was not caught. *)
Definition script (rounds : nat) (args : Args) (config : file) (w : World S)
    : option Z * World S :=
  let '(s, w') := main rounds args config w in
  (exit_status s,
   if uncaught s
   then with_log w' (log w' ++ [Stderr traceback_header])
   else w').
End run.

(** A service for examples: it holds the issues in a list, serves them in
    that order, and stores the labels it is given. *)
Definition store : Service (list Issue) := {|
  issue s _ key _ :=
    match filter (λ i, issue_key i = key) s with
    | i :: _ => (Ok i, s)
    | [] => (Raise HTTPError, s)
    end;
  jql s _ _ start limit _ := (Ok (take limit (drop start s)), s);
  update_issue_field s _ key labels :=
    (Ok (), map (λ i, if decide (issue_key i = key)
                      then {| issue_key := key; issue_labels := labels |}
                      else i) s)
|}.

Definition empty_world {S} (s : S) : World S :=
  {| service := s; log := []; num_issues := 0; num_updated_issues := 0 |}.

(** Another service for examples: it knows the issues whose keys are in
    [known], every one with the labels [labels], finds nothing by search
    and accepts every update without keeping it. *)
Definition fixed (known labels : list string) : Service unit := {|
  issue s _ key _ :=
    if decide (key ∈ known)
    then (Ok {| issue_key := key; issue_labels := labels |}, s)
    else (Raise HTTPError, s);
  jql s _ _ _ _ _ := (Ok [], s);
  update_issue_field s _ _ _ := (Ok (), s)
|}.

(** How the two counters of a run may move: neither goes down, and the
    count of updated issues grows by no more than the count of issues. *)
Definition counted {S} (w w' : World S) : Prop :=
  (num_issues w ≤ num_issues w')%nat ∧
  (num_updated_issues w ≤ num_updated_issues w')%nat ∧
  (num_updated_issues w' - num_updated_issues w
     ≤ num_issues w' - num_issues w)%nat.

End EditLabels.

(** ** A service that pages through a fixed list of records *)

Module Paging.
Import Py.

(** What the consumer of the iterator has been given so far, and the
    [(start, limit)] of the requests sent so far. *)
Definition Trace (A : Type) : Type := list A * list (nat * nat).

(** The service holds [records] and answers a request with the records
    from [start] on, at most [limit] and at most [page_size] of them. *)
Definition page {A} (records : list A) (page_size start limit : nat)
    : list A :=
  take (min limit page_size) (drop start records).

(** The consumer that keeps every record it is given. *)
Definition collect {A} (x : A) : M (Trace A) unit := λ t,
  (Return (), (t.1 ++ [x], t.2)).

(** [jira.jql] of the downloader against that service. *)
Definition search_values (records : list value) (page_size : nat)
    (start limit : nat) : M (Trace value) value := λ t,
  (Return (VDict [("total", VInt (Z.of_nat (length records)));
                  ("issues", VList (page records page_size start limit))]),
   (t.1, t.2 ++ [(start, limit)])).

(** [jira.jql] of the label tool against that service. *)
Definition search_issues (records : list EditLabels.Issue) (page_size : nat)
    (jql : string) (start limit : nat)
    : M (Trace EditLabels.Issue) (list EditLabels.Issue) := λ t,
  (Return (page records page_size start limit),
   (t.1, t.2 ++ [(start, limit)])).

(** The number of non-empty pages for [n] records served [p] at a time. *)
Definition pages (n p : nat) : nat := (n + p - 1) / p.

(** The requests of a complete iteration over [n] records: one per page,
    each starting where the page before ended, and a last one at [n]. *)
Definition expected_requests (n p : nat) : list (nat * nat) :=
  map (λ j, (min (j * p) n, 200)) (seq 0 (S (pages n p))).

(** The offsets asked for from [start] on. *)
Definition requests_from (n p start : nat) : list (nat * nat) :=
  map (λ j, (min (start + j * p) n, 200)) (seq 0 (S (pages (n - start) p))).

(** 401 records. *)
Definition records_401 : list value :=
  map (λ n, VInt (Z.of_nat n)) (seq 0 401).

(** A service that takes no notice of the offset: it answers every
    search with the same one record, and reports a total of one. *)
Definition search_again (record : value) (start limit : nat)
    : M (Trace value) value := λ t,
  (Return (VDict [("total", VInt 1); ("issues", VList [record])]),
   (t.1, t.2 ++ [(start, limit)])).

Definition search_again_issues (record : EditLabels.Issue) (jql : string)
    (start limit : nat)
    : M (Trace EditLabels.Issue) (list EditLabels.Issue) := λ t,
  (Return [record], (t.1, t.2 ++ [(start, limit)])).

End Paging.

(** ** Attachments: [download_with_progress_bar] and its callers *)

Module Attachments.
Import Py DownloadIssues.

(** What [session.get(url, stream=True, allow_redirects=True)] hands
    back: the status code, the [Content-Length] header when there is one
    (a decimal number), and the body as [iter_content] yields it, chunk by
    chunk. *)
Record Response := {
  status_code : nat;
  content_length : option nat;
  chunks : list string
}.

(** [resp.raise_for_status()] *)
Definition raise_for_status (resp : Response) : result unit :=
  if decide (400 ≤ status_code resp ∧ status_code resp < 600)%nat
  then Raise HTTPError
  else Ok ().

(** What a download leaves behind, the files aside: the requests, the
    lines on standard output, and the progress bar ([tqdm] with its
    description and total, and each [bar.update(size)]). *)
Inductive event :=
| Fetched (url : value)
| Printed (line : string)
| BarOpened (desc : string) (total : nat)
| BarUpdated (size : nat).

Section run.
(** The session: its state, and what it answers to a [get]. *)
Context {S : Type} (get : S → value → result Response * S).

(** The regular files by path, with their contents; a character of a
    string is a byte. *)
Record World := {
  session : S;
  files : gmap string string;
  log : list event
}.

Definition emit (e : event) : M World unit := λ w,
  (Return (), {| session := session w; files := files w;
                 log := log w ++ [e] |}).

Definition session_get (url : value) : M World Response := λ w,
  let '(answer, s) := get (session w) url in
  let w' := {| session := s; files := files w;
               log := log w ++ [Fetched url] |} in
  match answer with
  | Ok resp => (Return resp, w')
  | Raise e => (Throw e, w')
  end.

(** [os.path.exists(fname)] *)
Definition path_exists (fname : string) : M World bool := λ w,
  (Return (bool_decide (is_Some (files w !! fname))), w).

(** [os.stat(fname).st_size], called for a file that exists. *)
Definition st_size (fname : string) : M World nat := λ w,
  (Return (from_option String.length 0 (files w !! fname)), w).

(** [open(fname, "wb")], in a directory that exists ([main] has just
    made it): the file is there and empty afterwards. *)
Definition open_wb (fname : string) : M World unit := λ w,
  (Return (), {| session := session w; files := <[fname := ""]> (files w);
                 log := log w |}).

(** [file.write(data)]: appends, and returns the number of bytes. *)
Definition file_write (fname data : string) : M World nat := λ w,
  (Return (String.length data),
   {| session := session w;
      files := <[fname := default "" (files w !! fname) +:+ data]> (files w);
      log := log w |}).

(** [download_with_progress_bar(session, url, fname)], lines 20-38.
    [returned] tells whether the early [return] was taken. *)
Definition download_with_progress_bar (url : value) (fname : string)
    : M World unit :=
  resp ← session_get url;
  lift (raise_for_status resp);;
  let total := default 0 (content_length resp) in
  path_exists fname ≫= λ found : bool,
  (if found
   then fstats ← st_size fname;
        if decide (fstats = total)
        then emit (Printed ("File " +:+ fname +:+ " already downloaded"));;
             mret true
        else mret false
   else mret false) ≫= λ returned : bool,
  if returned then mret ()
  else
    open_wb fname;;
    emit (BarOpened fname total);;
    for_each (λ data, size ← file_write fname data; emit (BarUpdated size))
             (chunks resp).

(** [JiraAttachment.download(session, dest_dir)], lines 362-364, with the
    directory that the one call in [main] passes, a string. *)
Definition download (self : JiraAttachment.t) (dest_dir : string)
    : M World unit :=
  filename ← lift (JiraAttachment.filename self);
  name ← lift (as_str filename);
  let path := path_join dest_dir name in
  content ← lift (JiraAttachment.content self);
  download_with_progress_bar content path.

(** [JiraIssue.download_attachment(session, dest_dir)], lines 525-527. *)
Definition download_attachment (self : JiraIssue.t) (dest_dir : string)
    : M World unit :=
  for_each (λ a, download a dest_dir) (JiraIssue.attachment self).
End run.

(** The bytes the progress bar was advanced by, in a log. *)
Definition progress (l : list event) : nat :=
  sum_list (omap (λ e, match e with BarUpdated size => Some size | _ => None end)
                 l).

(** The body of a response. *)
Definition body (resp : Response) : string :=
  foldr String.app "" (chunks resp).

(** A session for examples: it answers every [get] with the same
    response. *)
Definition always (resp : Response) (s : unit) (_ : value)
    : result Response * unit :=
  (Ok resp, s).

End Attachments.

(** * Properties *)

(** ** Label computation *)

Section LabelFacts.
Import EditLabels.

Implicit Types (S : gset string) (st : edit_state) (l add rem : list string).

Lemma occurrences_app x l1 l2 :
  occurrences x (l1 ++ l2) = occurrences x l1 + occurrences x l2.
Proof. apply count_occ_app. Qed.

Lemma occurrences_pos x l : x ∈ l ↔ 0 < occurrences x l.
Proof. rewrite list_elem_of_In. apply count_occ_In. Qed.

Lemma occurrences_zero x l : x ∉ l ↔ occurrences x l = 0.
Proof. rewrite occurrences_pos. lia. Qed.

Lemma occurrences_cons x y l :
  occurrences x (y :: l) = (if decide (y = x) then 1 else 0) + occurrences x l.
Proof.
  unfold occurrences. simpl.
  destruct (String.eq_dec y x), (decide (y = x)); congruence || lia.
Qed.

Lemma occurrences_list_remove x y l :
  occurrences x (list_remove y l) =
    occurrences x l - (if decide (y = x) then 1 else 0).
Proof.
  induction l as [|z l IH]; cbn [list_remove]; [done|].
  destruct (decide (y = z)) as [->|Hyz].
  - rewrite occurrences_cons. case_decide; lia.
  - rewrite !occurrences_cons, IH.
    repeat case_decide; subst; try congruence; lia.
Qed.

Lemma length_list_remove y l :
  y ∈ l → length (list_remove y l) < length l.
Proof.
  induction l as [|z l IH]; simpl; intros Hin.
  - by apply not_elem_of_nil in Hin.
  - case_decide; [lia|].
    apply elem_of_cons in Hin as [?|Hin]; [done|].
    simpl. specialize (IH Hin). lia.
Qed.

(** The add loop appends, in order, the add labels missing from the
    original set. *)
Lemma add_loop_new_labels S key st add :
  new_labels (foldl (add_label S key) st add) =
    new_labels st ++ filter (λ a, a ∉ S) add.
Proof.
  revert st. induction add as [|a add IH]; intros st; simpl.
  - by rewrite app_nil_r.
  - rewrite IH. unfold add_label. rewrite filter_cons.
    case_decide; simpl; [by rewrite <- app_assoc | done].
Qed.

Lemma add_loop_update_labels S key st add :
  update_labels (foldl (add_label S key) st add) = true ↔
    update_labels st = true ∨ Exists (λ a, a ∉ S) add.
Proof.
  revert st. induction add as [|a add IH]; intros st; cbn [foldl].
  - rewrite Exists_nil. tauto.
  - rewrite IH, Exists_cons. unfold add_label.
    case_decide; cbn [update_labels]; tauto.
Qed.

Lemma add_loop_idle S key st add :
  Forall (λ a, a ∈ S) add → foldl (add_label S key) st add = st.
Proof.
  induction 1 as [|a add Ha _ IH]; simpl; [done|].
  unfold add_label at 2. by rewrite decide_False by tauto.
Qed.

Lemma remove_loop_idle S key st rem :
  Forall (λ r, r ∉ S) rem → foldl (remove_label S key) st rem = st.
Proof.
  induction 1 as [|r rem Hr _ IH]; simpl; [done|].
  unfold remove_label at 2. by rewrite decide_False by tauto.
Qed.

(** Each remove label that was on the issue takes away one occurrence,
    as long as one is left. *)
Lemma remove_loop_occurrences S key st rem x :
  occurrences x (new_labels (foldl (remove_label S key) st rem)) =
    if decide (x ∈ S)
    then occurrences x (new_labels st) - occurrences x rem
    else occurrences x (new_labels st).
Proof.
  revert st. induction rem as [|r rem IH]; intros st; simpl.
  - case_decide; unfold occurrences; simpl; lia.
  - rewrite IH, occurrences_cons. unfold remove_label.
    destruct (decide (r ∈ S ∧ r ∈ new_labels st)) as [[HrS Hrn]|Hno]; simpl.
    + rewrite occurrences_list_remove.
      repeat case_decide; subst; try done; lia.
    + destruct (decide (r = x)) as [->|Hrx]; [|case_decide; lia].
      case_decide as HxS; [|done].
      assert (x ∉ new_labels st) as Hx by tauto.
      apply occurrences_zero in Hx. lia.
Qed.

(** The remove loop either leaves its state alone or shortens the list
    and raises the flag. *)
Lemma remove_loop_cases S key st rem :
  let st' := foldl (remove_label S key) st rem in
  st' = st ∨
  (update_labels st' = true ∧
   length (new_labels st') < length (new_labels st) ∧
   Exists (λ r, r ∈ S) rem).
Proof.
  revert st. induction rem as [|r rem IH]; intros st; simpl; [by left|].
  unfold remove_label at 2 4 6.
  destruct (decide (r ∈ S ∧ r ∈ new_labels st)) as [[HrS Hrn]|Hno].
  - right.
    set (st1 := {| new_labels := list_remove r (new_labels st);
                   update_labels := true; printed := _ |}).
    pose proof (length_list_remove r _ Hrn) as Hlen.
    destruct (IH st1) as [->|(Hu & Hl & _)]; simpl.
    + split_and!; [done | done | by left].
    + split_and!; [done | simpl in Hl; lia | by left].
  - destruct (IH st) as [Heq|(Hu & Hl & Hex)]; [by left|right].
    split_and!; [done | done | by right].
Qed.

Lemma occurrences_filter (P : string → Prop) `{∀ x, Decision (P x)} x l :
  occurrences x (filter P l) = if decide (P x) then occurrences x l else 0.
Proof.
  induction l as [|y l IH]; [by case_decide|].
  rewrite filter_cons. destruct (decide (P y)) as [Hy|Hy].
  - rewrite !occurrences_cons, IH. repeat case_decide; subst; done.
  - rewrite occurrences_cons, IH. repeat case_decide; subst; done.
Qed.

(** The printed lines aside, the key of the issue plays no part. *)
Lemma add_loop_key S key key' st st' add :
  new_labels st = new_labels st' → update_labels st = update_labels st' →
  let r := foldl (add_label S key) st add in
  let r' := foldl (add_label S key') st' add in
  new_labels r = new_labels r' ∧ update_labels r = update_labels r'.
Proof.
  revert st st'. induction add as [|a add IH]; intros st st' Hn Hu; [done|].
  cbn [foldl]. apply IH; unfold add_label; case_decide; simpl; congruence.
Qed.

Lemma remove_loop_key S key key' st st' rem :
  new_labels st = new_labels st' → update_labels st = update_labels st' →
  let r := foldl (remove_label S key) st rem in
  let r' := foldl (remove_label S key') st' rem in
  new_labels r = new_labels r' ∧ update_labels r = update_labels r'.
Proof.
  revert st st'. induction rem as [|a rem IH]; intros st st' Hn Hu; [done|].
  cbn [foldl]. apply IH; unfold remove_label; rewrite <- Hn;
    case_decide; simpl; congruence.
Qed.

Lemma edit_labels_key add rem key old :
  new_labels (edit_labels add rem key old) = compute_labels add rem old ∧
  update_labels (edit_labels add rem key old) =
    update_labels (edit_labels add rem "" old).
Proof.
  unfold compute_labels, edit_labels.
  apply remove_loop_key; by apply add_loop_key.
Qed.

(** How often a label occurs in the computed list. *)
Lemma compute_labels_occurrences add rem old x :
  occurrences x (compute_labels add rem old) =
    if decide (x ∈ old)
    then occurrences x old - occurrences x rem
    else occurrences x add.
Proof.
  unfold compute_labels, edit_labels.
  rewrite remove_loop_occurrences, add_loop_new_labels. cbn [new_labels].
  rewrite occurrences_app, occurrences_filter.
  rewrite (decide_ext (x ∈ list_to_set (C:=gset string) old) (x ∈ old))
    by apply elem_of_list_to_set.
  destruct (decide (x ∈ old)) as [Hin|Hout].
  - rewrite decide_False; [lia|]. rewrite elem_of_list_to_set. tauto.
  - rewrite decide_True by (by rewrite elem_of_list_to_set).
    apply occurrences_zero in Hout. lia.
Qed.

(** The flag is raised exactly when the computed list is not the
    original one. *)
Lemma update_labels_iff add rem key old :
  update_labels (edit_labels add rem key old) = true ↔
    compute_labels add rem old ≠ old.
Proof.
  destruct (edit_labels_key add rem key old) as [_ ->].
  unfold compute_labels, edit_labels.
  set (S := list_to_set old : gset string).
  set (st0 := {| new_labels := old; update_labels := false; printed := [] |}).
  set (st1 := foldl (add_label S "") st0 add).
  destruct (decide (Exists (λ a, a ∉ S) add)) as [Hex|Hnone].
  - (* a label was appended, and no removal touches it *)
    apply Exists_exists in Hex as (a & Ha & HaS).
    assert (0 < occurrences a (new_labels (foldl (remove_label S "") st1 rem)))
      as Hpos.
    { rewrite remove_loop_occurrences, decide_False by done.
      unfold st1. rewrite add_loop_new_labels, occurrences_app.
      rewrite occurrences_filter, decide_True by done.
      apply occurrences_pos in Ha. lia. }
    split.
    + intros _ Heq. rewrite Heq in Hpos. apply occurrences_pos in Hpos.
      apply HaS. by apply elem_of_list_to_set.
    + intros _. destruct (remove_loop_cases S "" st1 rem) as [->|[-> _]];
        [|done].
      apply add_loop_update_labels. right. apply Exists_exists. eauto.
  - (* nothing was appended *)
    assert (st1 = st0) as ->.
    { apply add_loop_idle, Forall_forall. intros a Ha.
      destruct (decide (a ∈ S)); [done|].
      exfalso. apply Hnone, Exists_exists. eauto. }
    destruct (remove_loop_cases S "" st0 rem) as [->|(-> & Hlen & _)].
    + simpl. split; [done|]. intros H. by destruct H.
    + split; [|done]. intros _ Heq. rewrite Heq in Hlen.
      simpl in Hlen. lia.
Qed.

Lemma edit_labels_idle add rem key old :
  Forall (λ a, a ∈ old) add → Forall (λ r, r ∉ old) rem →
  edit_labels add rem key old =
    {| new_labels := old; update_labels := false; printed := [] |}.
Proof.
  intros Hadd Hrem. unfold edit_labels.
  rewrite add_loop_idle, remove_loop_idle; [done| |].
  - eapply Forall_impl; [exact Hrem|]. intros r Hr.
    by rewrite elem_of_list_to_set.
  - eapply Forall_impl; [exact Hadd|]. intros a Ha.
    by rewrite elem_of_list_to_set.
Qed.

(** What raises the flag: an add label that is new to the issue, or a
    remove label that was on it. *)
Lemma update_labels_cases add rem key old :
  update_labels (edit_labels add rem key old) = true →
  Exists (λ a, a ∉ old) add ∨ Exists (λ r, r ∈ old) rem.
Proof.
  unfold edit_labels. set (S := list_to_set old : gset string).
  set (st0 := {| new_labels := old; update_labels := false; printed := [] |}).
  intros Hflag.
  destruct (remove_loop_cases S key (foldl (add_label S key) st0 add) rem)
    as [Heq|(_ & _ & Hex)].
  - left. rewrite Heq in Hflag. apply add_loop_update_labels in Hflag.
    destruct Hflag as [?|Hex]; [done|].
    eapply Exists_impl; [exact Hex|]. intros a Ha.
    by rewrite <- (elem_of_list_to_set (C:=gset string)).
  - right. eapply Exists_impl; [exact Hex|]. intros r Hr.
    by apply elem_of_list_to_set in Hr.
Qed.

Lemma occurrences_NoDup x l : NoDup l → (occurrences x l ≤ 1)%nat.
Proof.
  intros Hnd. apply NoDup_ListNoDup in Hnd.
  by apply (proj1 (NoDup_count_occ String.eq_dec l)).
Qed.

End LabelFacts.

(** ** Scripts: what a step leaves untouched *)

Section Quiet.
Import Py.
Context {W X : Type} (obs : W → X).

Lemma quiet_ret {A} (a : A) : quiet obs (mret a).
Proof. done. Qed.

Lemma quiet_raise {A} e : quiet obs (raise (A:=A) e).
Proof. done. Qed.

Lemma quiet_unfinished {A} : quiet obs (unfinished (A:=A)).
Proof. done. Qed.

Lemma quiet_lift {A} (r : result A) : quiet obs (lift r).
Proof. by destruct r. Qed.

Lemma quiet_bind {A B} (m : M W A) (f : A → M W B) :
  quiet obs m → (∀ a, quiet obs (f a)) → quiet obs (m ≫= f).
Proof.
  intros Hm Hf w. unfold mbind, M_bind. specialize (Hm w).
  destruct (m w) as [[a|e|] w']; simpl in *; [|done..].
  by rewrite Hf.
Qed.

Lemma quiet_for_each {A} (body : A → M W unit) items :
  (∀ x, quiet obs (body x)) → quiet obs (for_each body items).
Proof.
  intros Hbody. induction items as [|x items IH]; simpl.
  - apply quiet_ret.
  - apply quiet_bind; [apply Hbody | intros _; apply IH].
Qed.
End Quiet.

Create HintDb quiet.
Global Hint Resolve quiet_ret quiet_raise quiet_unfinished quiet_lift : quiet.

(** ** The label editor: one issue, and a whole run *)

Section LabelRun.
Import Py EditLabels.
Context {S : Type} (srv : Service S).

Implicit Types (w : World S) (args : Args).

Lemma quiet_emit {X} (obs : list event → X) e :
  (∀ l, obs (l ++ [e]) = obs l) → quiet (obs ∘ log) (emit (S:=S) e).
Proof. intros H w. simpl. apply H. Qed.

Lemma quiet_send {X A} (obs : list event → X) jira r
    (answer : S → result A * S) :
  (∀ l, obs (l ++ [Sent jira r]) = obs l) →
  quiet (obs ∘ log) (send jira r answer).
Proof.
  intros H w. unfold send.
  destruct (answer (service w)) as [[a|e] s]; simpl; apply H.
Qed.

Lemma update_calls_snoc l e :
  update_calls (l ++ [e]) =
    update_calls l ++
    match e with
    | Sent _ (UpdateIssueField key labels) => [(key, labels)]
    | _ => []
    end.
Proof.
  unfold update_calls. rewrite omap_app. f_equal.
  by destruct e as [| |? []].
Qed.

Lemma requests_snoc l e :
  requests (l ++ [e]) =
    requests l ++ match e with Sent _ r => [r] | _ => [] end.
Proof. unfold requests. rewrite omap_app. f_equal. by destruct e. Qed.

(** Printing the lines of one issue. *)
Lemma for_each_print lines w :
  for_each print lines w =
    (Return (), with_log w (log w ++ map Stdout lines)).
Proof.
  revert w. induction lines as [|line lines IH]; intros w; simpl.
  - rewrite app_nil_r. by destruct w.
  - unfold mbind, M_bind, print at 1, emit. rewrite IH. simpl.
    unfold with_log. simpl. by rewrite <- app_assoc.
Qed.

Lemma process_issue_log args jira issue_dict w :
  log (process_issue srv args jira issue_dict w).2 =
    log w ++ issue_events args jira issue_dict.
Proof.
  unfold process_issue, issue_events.
  unfold mbind at 1, M_bind at 1. simpl.
  unfold mbind at 1, M_bind at 1. rewrite for_each_print.
  destruct (update_labels _); simpl; [|by rewrite app_nil_r].
  unfold mbind at 1, M_bind at 1. simpl.
  destruct (dry_run args); simpl.
  - by rewrite <- app_assoc.
  - unfold mbind at 1, M_bind at 1. simpl. unfold send. simpl.
    destruct (update_issue_field _ _ _ _ _) as [[[]|e] s]; simpl;
      by rewrite <- !app_assoc.
Qed.

Lemma update_calls_stdout lines : update_calls (map Stdout lines) = [].
Proof. by induction lines. Qed.

Lemma update_calls_app l1 l2 :
  update_calls (l1 ++ l2) = update_calls l1 ++ update_calls l2.
Proof. apply omap_app. Qed.

(** The one update call an issue can cause. *)
Lemma update_calls_issue_events args jira issue_dict :
  update_calls (issue_events args jira issue_dict) =
    let st := edit_labels (add_labels args) (remove_labels args)
                (issue_key issue_dict) (issue_labels issue_dict) in
    if update_labels st && negb (dry_run args)
    then [(issue_key issue_dict, new_labels st)] else [].
Proof.
  unfold issue_events. rewrite update_calls_app, update_calls_stdout. simpl.
  destruct (update_labels _); [|done]. by destruct (dry_run args).
Qed.

Lemma quiet_process_issue_dry_run args jira issue_dict :
  dry_run args = true →
  quiet (update_calls ∘ log) (process_issue srv args jira issue_dict).
Proof.
  intros Hdry w. simpl.
  rewrite process_issue_log, update_calls_app, update_calls_issue_events.
  cbv zeta. rewrite Hdry, andb_false_r. apply app_nil_r.
Qed.

Lemma quiet_jira_get_issues_from {X} (obs : World S → X)
    (search : string → nat → nat → M (World S) (list Issue)) body q rounds
    start :
  (∀ start limit, quiet obs (search q start limit)) →
  (∀ i, quiet obs (body i)) →
  quiet obs (jira_get_issues_from search body q rounds start).
Proof.
  intros Hsearch Hbody. revert start.
  induction rounds as [|rounds IH]; intros start; simpl.
  - apply quiet_unfinished.
  - apply quiet_bind; [apply Hsearch|]. intros issues.
    apply quiet_bind.
    + case_decide; [by apply quiet_for_each | apply quiet_ret].
    + intros _. case_decide; [apply quiet_ret | apply IH].
Qed.

Lemma quiet_jira_get_issues {X} (obs : World S → X)
    (search : string → nat → nat → M (World S) (list Issue)) body q rounds :
  (∀ q start limit, quiet obs (search q start limit)) →
  (∀ i, quiet obs (body i)) →
  quiet obs (jira_get_issues search body q rounds).
Proof.
  intros Hsearch Hbody. unfold jira_get_issues.
  destruct q as [[|c q]|]; try apply quiet_ret.
  by apply quiet_jira_get_issues_from.
Qed.

Lemma quiet_jira_get_issues_from_keys {X} (obs : list event → X) jira keys
    body :
  (∀ l key, obs (l ++ [Sent jira (GetIssue key "*all")]) = obs l) →
  (∀ i, quiet (obs ∘ log) (body i)) →
  quiet (obs ∘ log) (jira_get_issues_from_keys srv jira keys body).
Proof.
  intros Hsent Hbody. apply quiet_for_each. intros key.
  apply quiet_bind; [|done]. apply quiet_send. intros l. apply Hsent.
Qed.

(** In a dry run, the update calls in the log stay as they were. *)
Lemma quiet_main_dry_run rounds args config :
  dry_run args = true →
  quiet (update_calls ∘ log) (main srv rounds args config).
Proof.
  intros Hdry. unfold main, print, eprint.
  repeat first
    [ by apply quiet_process_issue_dry_run
    | apply quiet_jira_get_issues
    | apply quiet_jira_get_issues_from_keys
    | apply quiet_ret | apply quiet_raise | apply quiet_lift
    | apply quiet_emit; intros ?; by rewrite update_calls_snoc, app_nil_r
    | apply quiet_send; intros ?; by rewrite update_calls_snoc, app_nil_r
    | apply quiet_bind; [|intros ?]
    | intros ? ?; by rewrite update_calls_snoc, app_nil_r
    | intros ? ? ?; apply quiet_send
    | intros ?; by apply quiet_process_issue_dry_run
    | match goal with
      | |- quiet _ (match ?x with _ => _ end) => destruct x
      end ].
  - intros l. by rewrite update_calls_snoc, app_nil_r.
  - by intros w.
Qed.

End LabelRun.

(** ** The label claims *)

Section LabelClaims.
Import Py EditLabels.
Context {S : Type} (srv : Service S).

Implicit Types (w : World S) (args : Args) (add rem old : list string).

(** C1, as stated, fails: with no labels on the issue and [x] both added
    and removed, the computed list is [[x]]. *)
Lemma added_label_survives_removal :
  compute_labels ["x"] ["x"] [] = ["x"] ∧
  "x" ∈ compute_labels ["x"] ["x"] [].
Proof. split; [by vm_compute|]. vm_compute. apply list_elem_of_here. Qed.

(** C1 (amended).  For a label [L] in both the add and the remove list:
    when [L] is not on the issue, it is appended and stays, because the
    remove loop only acts on labels of the original list; when [L] is on
    the issue, it is in the computed list exactly if it occurs in the
    original list more often than in the remove list, so never when the
    original list has it once. *)
Theorem remove_wins_on_original_labels add rem old L :
  L ∈ add → L ∈ rem →
  (L ∉ old → L ∈ compute_labels add rem old) ∧
  (L ∈ old →
   (L ∈ compute_labels add rem old ↔
    occurrences L rem < occurrences L old)).
Proof.
  intros Hadd Hrem. apply occurrences_pos in Hadd.
  split; intros H.
  - apply occurrences_pos.
    by rewrite compute_labels_occurrences, decide_False.
  - rewrite occurrences_pos, compute_labels_occurrences, decide_True by done.
    lia.
Qed.

Lemma remove_wins_on_original_labels_witness :
  ("x" ∉ [] → "x" ∈ compute_labels ["x"] ["x"] []) ∧
  ("x" ∈ [] →
   ("x" ∈ compute_labels ["x"] ["x"] [] ↔
    occurrences "x" ["x"] < occurrences "x" [])).
Proof.
  apply (remove_wins_on_original_labels ["x"] ["x"] [] "x");
    apply list_elem_of_here.
Defined.

(** C3, as stated, fails: with [x] both added and removed, the first run
    on an issue without labels computes [[x]], and the second run, on
    [[x]], computes the empty list and raises the flag again. *)
Lemma label_update_not_idempotent :
  compute_labels ["x"] ["x"] [] = ["x"] ∧
  compute_labels ["x"] ["x"] (compute_labels ["x"] ["x"] []) = [] ∧
  update_labels (edit_labels ["x"] ["x"] "K-1" ["x"]) = true.
Proof. by vm_compute. Qed.

(** C3 (amended).  When no label is in both lists and no remove label
    occurs in the original list more often than in the remove list (so, in
    particular, when the original list has no duplicates), the computation
    is idempotent, and processing the updated issue again with the same
    arguments raises no flag, prints nothing and sends nothing. *)
Theorem label_update_idempotent args jira key old w :
  (∀ x, x ∈ add_labels args → x ∉ remove_labels args) →
  (∀ r, r ∈ remove_labels args →
        (occurrences r old ≤ occurrences r (remove_labels args))%nat) →
  let f := compute_labels (add_labels args) (remove_labels args) in
  let updated := {| issue_key := key; issue_labels := f old |} in
  f (f old) = f old ∧
  update_labels
    (edit_labels (add_labels args) (remove_labels args) key (f old)) = false ∧
  log (process_issue srv args jira updated w).2 = log w.
Proof.
  intros Hdisj Hcount f updated.
  assert (edit_labels (add_labels args) (remove_labels args) key (f old)
          = {| new_labels := f old; update_labels := false; printed := [] |})
    as Hidle.
  { apply edit_labels_idle; apply Forall_forall; intros x Hx.
    - apply occurrences_pos. unfold f. rewrite compute_labels_occurrences.
      assert (occurrences x (remove_labels args) = 0) as ->
        by by apply occurrences_zero, Hdisj.
      apply occurrences_pos in Hx. case_decide as Hin; [|done].
      apply occurrences_pos in Hin. lia.
    - apply occurrences_zero. unfold f. rewrite compute_labels_occurrences.
      case_decide; [specialize (Hcount x Hx); lia|].
      apply occurrences_zero. intros Hadd. by apply (Hdisj x).
  }
  split_and!.
  - destruct (edit_labels_key (add_labels args) (remove_labels args) key
                (f old)) as [Hkey _].
    unfold f at 1. by rewrite <- Hkey, Hidle.
  - by rewrite Hidle.
  - rewrite process_issue_log. unfold issue_events, updated. simpl.
    rewrite Hidle. simpl. by rewrite app_nil_r.
Qed.

(** C5, as stated, fails on a list with duplicates: removing [x] from
    [[x; x]] leaves [[x]], the same set of labels, and the update call is
    sent. *)
Lemma update_sent_for_same_label_set :
  let args := {| dry_run := false; atlassian_domain := Some "example.net";
                 config_file := "config.ini"; args_jql := None;
                 keys := ["K-1"]; add_labels := []; remove_labels := ["x"] |} in
  let jira := {| url := "https://example.net"; username := "u";
                 password := "p" |} in
  let issue_dict := {| issue_key := "K-1"; issue_labels := ["x"; "x"] |} in
  update_calls
    (log (process_issue store args jira issue_dict
            (empty_world [issue_dict])).2) = [("K-1", ["x"])] ∧
  list_to_set (C:=gset string) ["x"] = list_to_set ["x"; "x"].
Proof. split; [by vm_compute | set_solver]. Qed.

(** C5 (amended).  Processing an issue sends an update call only if the
    run is not a dry run and the computed label list differs from the
    original list; when the original list has no duplicates, the two
    lists then differ as sets of labels too. *)
Theorem update_only_if_labels_change args jira issue_dict w :
  let old := issue_labels issue_dict in
  let new := compute_labels (add_labels args) (remove_labels args) old in
  update_calls (log (process_issue srv args jira issue_dict w).2)
    ≠ update_calls (log w) →
  dry_run args = false ∧
  new ≠ old ∧
  (NoDup old → list_to_set (C:=gset string) new ≠ list_to_set old).
Proof.
  intros old new.
  rewrite process_issue_log, update_calls_app, update_calls_issue_events.
  cbv zeta.
  destruct (update_labels _) eqn:Hflag; simpl; [|by rewrite app_nil_r].
  destruct (dry_run args); simpl; [by rewrite app_nil_r|]. intros _.
  split_and!; [done|by eapply update_labels_iff|].
  intros Hnd Hset.
  assert (∀ x, x ∈ new ↔ x ∈ old) as Hsame.
  { intros x. by rewrite <- !(elem_of_list_to_set (C:=gset string)), Hset. }
  apply update_labels_cases in Hflag as [Hex|Hex];
    apply Exists_exists in Hex as (x & Hx & Hold).
  - (* an appended label is in the new list and not in the old one *)
    apply Hold, Hsame, occurrences_pos. unfold new.
    rewrite compute_labels_occurrences, decide_False by done.
    by apply occurrences_pos.
  - (* the single occurrence of a removed label is gone *)
    apply Hsame in Hold as Hnew. apply occurrences_pos in Hnew.
    unfold new in Hnew.
    rewrite compute_labels_occurrences, decide_True in Hnew by done.
    pose proof (occurrences_NoDup x old Hnd).
    apply occurrences_pos in Hx. fold old in Hnew. lia.
Qed.

(** C6.  In the scenario of the specification the computed list is
    [[b; c]], the three lines below are what is printed for the issue and
    nothing is sent; and whatever the arguments, the configuration and the
    service, a dry run of the whole script adds no update call to the
    log. *)
Theorem dry_run_sends_no_update :
  (∀ jira w,
     let args := {| dry_run := true; atlassian_domain := Some "example.net";
                    config_file := "config.ini"; args_jql := None;
                    keys := ["K-1"]; add_labels := ["c"];
                    remove_labels := ["a"] |} in
     let issue_dict := {| issue_key := "K-1"; issue_labels := ["a"; "b"] |} in
     new_labels (edit_labels ["c"] ["a"] "K-1" ["a"; "b"]) = ["b"; "c"] ∧
     log (process_issue srv args jira issue_dict w).2 =
       log w ++
       [Stdout "Add label 'c' to the issue K-1";
        Stdout "Remove label 'a' from the issue K-1";
        Stdout "DRY RUN: I would update issue K-1 with labels: b, c"]) ∧
  (∀ rounds args config w,
     dry_run args = true →
     update_calls (log (main srv rounds args config w).2) =
       update_calls (log w)).
Proof.
  split.
  - intros jira w args issue_dict. split; [by vm_compute|].
    rewrite process_issue_log. f_equal.
  - intros rounds args config w Hdry.
    by apply (quiet_main_dry_run srv rounds args config Hdry w).
Qed.

End LabelClaims.

Section LabelWitnesses.
Import Py EditLabels.

Lemma label_update_idempotent_witness :
  let args := {| dry_run := false; atlassian_domain := Some "example.net";
                 config_file := "config.ini"; args_jql := None;
                 keys := ["K-1"]; add_labels := ["c"];
                 remove_labels := ["a"] |} in
  let jira := {| url := "https://example.net"; username := "u";
                 password := "p" |} in
  compute_labels ["c"] ["a"] (compute_labels ["c"] ["a"] ["a"; "b"])
    = compute_labels ["c"] ["a"] ["a"; "b"] ∧
  update_labels
    (edit_labels ["c"] ["a"] "K-1" (compute_labels ["c"] ["a"] ["a"; "b"]))
    = false ∧
  log
    (process_issue store args jira
       {| issue_key := "K-1";
          issue_labels := compute_labels ["c"] ["a"] ["a"; "b"] |}
       (empty_world [])).2 = [].
Proof.
  intros args jira.
  apply (label_update_idempotent store args jira "K-1" ["a"; "b"]
           (empty_world [])).
  - intros x Hx%list_elem_of_singleton Ha%list_elem_of_singleton. by subst.
  - intros r Hr%list_elem_of_singleton. subst. vm_compute. lia.
Defined.

Lemma update_only_if_labels_change_witness :
  let args := {| dry_run := false; atlassian_domain := Some "example.net";
                 config_file := "config.ini"; args_jql := None;
                 keys := ["K-1"]; add_labels := ["c"];
                 remove_labels := ["a"] |} in
  let jira := {| url := "https://example.net"; username := "u";
                 password := "p" |} in
  let issue_dict := {| issue_key := "K-1"; issue_labels := ["a"; "b"] |} in
  dry_run args = false ∧
  compute_labels ["c"] ["a"] ["a"; "b"] ≠ ["a"; "b"] ∧
  (NoDup ["a"; "b"] →
   list_to_set (C:=gset string) (compute_labels ["c"] ["a"] ["a"; "b"])
     ≠ list_to_set ["a"; "b"]).
Proof.
  intros args jira issue_dict.
  apply (update_only_if_labels_change store args jira issue_dict
           (empty_world [issue_dict])).
  vm_compute. discriminate.
Defined.

Lemma dry_run_sends_no_update_witness :
  let args := {| dry_run := true; atlassian_domain := Some "example.net";
                 config_file := "config.ini"; args_jql := None;
                 keys := ["K-1"]; add_labels := ["c"];
                 remove_labels := ["a"] |} in
  let w := empty_world [{| issue_key := "K-1"; issue_labels := ["a"; "b"] |}] in
  update_calls (log (main store 5 args example_config w).2)
    = update_calls (log w).
Proof.
  intros args w.
  by apply (proj2 (dry_run_sends_no_update store) 5 args example_config w).
Defined.

End LabelWitnesses.

(** ** Payloads and wrapper objects *)

Section PayloadFacts.
Import Py DownloadIssues.

Implicit Types (entries items : list (string * value)) (v : value).

Lemma dict_item_lookup {B} key (found : value → B) missing entries :
  dict_item key found missing entries =
    match dict_lookup entries key with
    | Some v => found v
    | None => missing
    end.
Proof.
  unfold dict_lookup.
  induction entries as [|[k v] entries IH]; simpl; [done|].
  by case_decide.
Qed.

Lemma dict_get_lookup entries key dflt :
  dict_get entries key dflt = default dflt (dict_lookup entries key).
Proof. unfold dict_get. rewrite dict_item_lookup. by destruct dict_lookup. Qed.

(** Reading a dict after [d[key] = v]. *)
Lemma dict_lookup_set entries key v key' :
  dict_lookup (dict_set entries key v) key' =
    if decide (key = key') then Some v else dict_lookup entries key'.
Proof.
  unfold dict_lookup.
  induction entries as [|[k old] entries IH]; simpl.
  - by repeat case_decide.
  - repeat (case_decide; simpl; subst); try done; try congruence.
Qed.

(** A constructor applied to a string fails on its first [get]. *)
Lemma init_non_dict v :
  (∀ entries, v ≠ VDict entries) → JiraIssue.init v = Raise AttributeError.
Proof. destruct v; try done. intros H. by destruct (H entries). Qed.

Lemma mapM_raise {A B} (e : exn) (l : list A) :
  l ≠ [] → mapM (M:=result) (λ _, Raise (A:=B) e) l = Raise e.
Proof. by destruct l. Qed.

Lemma comprehension_init value :
  match value with
  | VList cs => mapM JiraIssue.init cs
  | _ => comprehension (λ _, Raise AttributeError) value
  end = comprehension JiraIssue.init value.
Proof.
  destruct value as [| | | |s|cs|entries]; try done.
  - unfold comprehension. simpl. by destruct s.
  - unfold comprehension. simpl. by destruct entries as [|[k v] entries].
Qed.

Lemma object_from_field_item {A} (cls : value → result A) key items :
  dict_item key (object_from_field cls) (Ok NotDownloaded) items =
    create_object_from_field (VDict items) cls key.
Proof.
  unfold create_object_from_field. cbn [py_get mbind result_bind].
  rewrite dict_item_lookup, dict_get_lookup.
  by destruct (dict_lookup items key).
Qed.

Lemma subtasks_item items :
  dict_item "subtasks"
    (λ value, match value with
              | VList cs => mapM JiraIssue.init cs
              | _ => comprehension (λ _, Raise AttributeError) value
              end) (Ok []) items =
    (value ← py_get (VDict items) "subtasks" (VList []);
     comprehension JiraIssue.init value).
Proof.
  cbn [py_get mbind result_bind].
  rewrite dict_item_lookup, dict_get_lookup.
  destruct (dict_lookup items "subtasks") as [value|]; [|done].
  apply comprehension_init.
Qed.

(** [JiraIssue.__init__], in the order of the source. *)
Lemma init_unfold data :
  JiraIssue.init data =
    fields ← py_get data "fields" VNone;
    parent ← create_object_from_field fields JiraIssue.init "parent";
    resolution ← create_object_from_field fields JiraResolution.init
                   "resolution";
    comments ← create_object_from_field fields JiraCommentList.init "comment";
    status ← create_object_from_field fields JiraStatus.init "status";
    priority ← create_object_from_field fields JiraPriority.init "priority";
    reporter ← create_object_from_field fields JiraAuthor.init "reporter";
    assignee ← create_object_from_field fields JiraAuthor.init "assignee";
    issuetype ← create_object_from_field fields JiraIssueType.init "issuetype";
    subtasks ← (value ← py_get fields "subtasks" (VList []);
                comprehension JiraIssue.init value);
    attachment ← (value ← py_get fields "attachment" (VList []);
                  comprehension JiraAttachment.init value);
    Ok (JiraIssue.mk data fields parent resolution comments status priority
          reporter assignee issuetype subtasks attachment).
Proof.
  destruct data as [| | | | | |entries]; try reflexivity.
  cbn [JiraIssue.init py_get]. rewrite dict_item_lookup, dict_get_lookup.
  destruct (dict_lookup entries "fields") as [fields|]; [|reflexivity].
  cbn [default mbind result_bind].
  destruct fields as [| | | | | |items]; try reflexivity.
  rewrite object_from_field_item.
  do 8 (destruct (create_object_from_field _ _ _); [|reflexivity];
        cbn [mbind result_bind]).
  by rewrite subtasks_item.
Qed.

Lemma py_get_Ok obj key dflt v :
  py_get obj key dflt = Ok v →
  ∃ entries, obj = VDict entries ∧ v = dict_get entries key dflt.
Proof. destruct obj; try done. intros [= <-]. eauto. Qed.

Lemma bind_Ok {A B} (m : result A) (f : A → result B) b :
  m ≫= f = Ok b → ∃ a, m = Ok a ∧ f a = Ok b.
Proof. destruct m as [a|e]; [eauto|done]. Qed.

(** What a successful [JiraIssue.__init__] has stored. *)
Lemma init_Ok data issue :
  JiraIssue.init data = Ok issue →
  ∃ fields,
    py_get data "fields" VNone = Ok fields ∧
    JiraIssue.data issue = data ∧
    JiraIssue.fields issue = fields ∧
    create_object_from_field fields JiraIssue.init "parent"
      = Ok (JiraIssue.parent_issue issue) ∧
    create_object_from_field fields JiraResolution.init "resolution"
      = Ok (JiraIssue.resolution_object issue) ∧
    create_object_from_field fields JiraCommentList.init "comment"
      = Ok (JiraIssue.comments issue) ∧
    create_object_from_field fields JiraStatus.init "status"
      = Ok (JiraIssue.status issue) ∧
    create_object_from_field fields JiraPriority.init "priority"
      = Ok (JiraIssue.priority issue) ∧
    create_object_from_field fields JiraAuthor.init "reporter"
      = Ok (JiraIssue.reporter issue) ∧
    create_object_from_field fields JiraAuthor.init "assignee"
      = Ok (JiraIssue.assignee issue) ∧
    create_object_from_field fields JiraIssueType.init "issuetype"
      = Ok (JiraIssue.issuetype issue) ∧
    (value ← py_get fields "subtasks" (VList []);
     comprehension JiraIssue.init value) = Ok (JiraIssue.subtasks issue) ∧
    (value ← py_get fields "attachment" (VList []);
     comprehension JiraAttachment.init value)
      = Ok (JiraIssue.attachment issue).
Proof.
  rewrite init_unfold. intros H.
  repeat (apply bind_Ok in H as (? & ? & H)).
  injection H as <-. eexists. by split_and!.
Qed.

(** A constructed issue wraps two dicts. *)
Lemma init_dicts data issue :
  JiraIssue.init data = Ok issue →
  ∃ entries items,
    JiraIssue.data issue = VDict entries ∧
    JiraIssue.fields issue = VDict items.
Proof.
  intros (fields & Hf & Hd & Hfs & Hp & _)%init_Ok.
  apply py_get_Ok in Hf as (entries & -> & ->).
  unfold create_object_from_field in Hp.
  apply bind_Ok in Hp as (v & (items & Hi & _)%py_get_Ok & _).
  rewrite Hd, Hfs, Hi. eauto.
Qed.

Lemma create_object_from_field_Object {A} fields (cls : value → result A)
    key a :
  create_object_from_field fields cls key = Ok (Object a) →
  ∃ v, py_get fields key VNotDownloaded = Ok v ∧ cls v = Ok a.
Proof.
  unfold create_object_from_field. intros (v & Hv & H)%bind_Ok.
  exists v. split; [done|].
  destruct v; simpl in H; try done;
    by destruct (cls _) as [a'|]; simplify_eq/=.
Qed.

End PayloadFacts.

(** ** Equality of wrapper objects *)

Section WrapperEquality.
Import Py DownloadIssues.

(** C8.  Two wrappers made from raw payloads, of any two wrapper classes,
    compare equal exactly when the values under ["self"] in their payloads
    are equal ([None] standing for a missing entry); for two URL strings
    that is equality of the strings.  Nothing else in the payloads
    matters. *)
Theorem wrappers_equal_iff_self_urls `{JiraRestObject T, JiraRestObject U}
    (x : T) (y : U) dx dy :
  _data x = VDict dx → _data y = VDict dy →
  let ux := dict_get dx "self" VNone in
  let uy := dict_get dy "self" VNone in
  __eq__ x y = Ok (py_eq ux uy) ∧
  (∀ u v, ux = VStr u → uy = VStr v → (__eq__ x y = Ok true ↔ u = v)).
Proof.
  intros Hx Hy ux uy.
  assert (__eq__ x y = Ok (py_eq ux uy)) as Heq.
  { unfold __eq__, self_url, get_value. by rewrite Hx, Hy. }
  split; [done|]. intros u v Hu Hv. rewrite Heq, Hu, Hv. simpl.
  split.
  - intros [= Huv]. by apply bool_decide_eq_true in Huv.
  - intros ->. by rewrite bool_decide_eq_true_2.
Qed.

Lemma wrappers_equal_iff_self_urls_witness :
  let author := JiraAuthor.mk (VDict [("self", VStr "https://example.net/7");
                                      ("displayName", VStr "Ann")]) in
  let resolution := JiraResolution.mk
                      (VDict [("name", VStr "Done");
                              ("self", VStr "https://example.net/7")]) in
  __eq__ author resolution = Ok true ∧
  (∀ u v, VStr "https://example.net/7" = VStr u →
          VStr "https://example.net/7" = VStr v →
          (__eq__ author resolution = Ok true ↔ u = v)).
Proof.
  intros author resolution.
  by apply (wrappers_equal_iff_self_urls author resolution
              [("self", VStr "https://example.net/7");
               ("displayName", VStr "Ann")]
              [("name", VStr "Done");
               ("self", VStr "https://example.net/7")]).
Defined.

End WrapperEquality.

(** ** Structured output *)

Section StructuredOutput.
Import Py DownloadIssues.

(** C7.  Take an issue payload whose comment field is an object with an
    empty list of comments (or with no list at all).  The issue object is
    built, and [to_struct] returns a dict in which ["comments"] is the
    empty list; the one way [to_struct] can fail on such an issue is a
    resolution payload that is not an object. *)
Theorem no_comments_give_empty_list data fields comment issue :
  py_get data "fields" VNone = Ok fields →
  py_get fields "comment" VNotDownloaded = Ok (VDict comment) →
  dict_get comment "comments" (VList []) = VList [] →
  JiraIssue.init data = Ok issue →
  (∃ d, JiraIssue.to_struct issue = Ok (VDict d) ∧
        dict_lookup d "comments" = Some (VList [])) ∨
  (JiraIssue.to_struct issue = Raise AttributeError ∧
   ∃ r, JiraIssue.resolution_object issue = Object r ∧
        ∀ entries, JiraResolution.data r ≠ VDict entries).
Proof.
  intros Hfields Hcomment Hempty Hinit.
  pose proof (init_dicts _ _ Hinit) as (entries & items & Hd & Hf).
  apply init_Ok in Hinit
    as (fields' & Hfields' & _ & Hfs & Hparent & _ & Hcs & _).
  assert (fields' = fields) as -> by congruence.
  (* the comment list object holds no comment *)
  assert (JiraIssue.comments issue = Object (JiraCommentList.mk (VDict comment) []))
    as Hcomments.
  { unfold create_object_from_field in Hcs. rewrite Hcomment in Hcs.
    cbn in Hcs. rewrite Hempty in Hcs. cbn in Hcs. congruence. }
  (* the parent, when there is one, wraps a dict *)
  assert (∀ parent, JiraIssue.parent_issue issue = Object parent →
                    ∃ k, JiraIssue.key parent = Ok k) as Hkey.
  { intros parent Hp. rewrite Hp in Hparent.
    apply create_object_from_field_Object in Hparent as (v & _ & Hv).
    apply init_dicts in Hv as (pe & pitems & Hpe & _).
    unfold JiraIssue.key, get_value, _data, JiraIssue.rest.
    rewrite Hpe. cbn. eauto. }
  unfold JiraIssue.to_struct, JiraIssue.key, JiraIssue.summary,
    JiraIssue.description, JiraIssue.created, JiraIssue.labels,
    JiraIssue.updated, JiraIssue.resultiondate, JiraIssue.get_field,
    get_value, _data, JiraIssue.rest.
  rewrite Hd, Hf, Hcomments. cbn [py_get mbind result_bind].
  set (res := [("type", _); _; _; _; _; _; _; _]).
  destruct (JiraIssue.parent_issue issue) as [| |parent] eqn:Hp;
    cbn [have_data attr].
  3: destruct (Hkey parent eq_refl) as [k Hk];
     unfold JiraIssue.key, get_value, _data, JiraIssue.rest in Hk;
     rewrite Hk.
  all: cbn [mbind result_bind].
  all: destruct (JiraIssue.resolution_object issue) as [| |r] eqn:Hr;
    cbn [have_data attr];
    [left; eexists; split; [reflexivity|];
       by rewrite dict_lookup_set, decide_True ..|].
  all: unfold JiraResolution.to_struct, JiraResolution.description,
         JiraResolution.name, get_value, _data, JiraResolution.rest.
  all: destruct (JiraResolution.data r) as [| | | | | |re] eqn:Hre;
    [right; split; [reflexivity|]; exists r; split; [done|];
       intros ?; congruence ..|].
  all: left; eexists; split; [reflexivity|];
    by rewrite dict_lookup_set, decide_True.
Qed.

Lemma no_comments_give_empty_list_witness :
  ∃ issue,
    JiraIssue.init (VDict example_entries) = Ok issue ∧
    ((∃ d, JiraIssue.to_struct issue = Ok (VDict d) ∧
           dict_lookup d "comments" = Some (VList [])) ∨
     (JiraIssue.to_struct issue = Raise AttributeError ∧
      ∃ r, JiraIssue.resolution_object issue = Object r ∧
           ∀ entries, JiraResolution.data r ≠ VDict entries)).
Proof.
  eexists. split; [vm_compute; reflexivity|].
  apply (no_comments_give_empty_list (VDict example_entries)
           (VDict example_fields)
           [("comments", VList []); ("total", VInt 0)]);
    reflexivity.
Defined.

End StructuredOutput.

(** ** Text output: absent fields and null fields *)

Section TextOutput.
Import Py DownloadIssues.

Implicit Types (entries items : list (string * value)).

(** A wrapper attribute cannot tell a null field from an absent one:
    [create_object_from_field] answers [NOT_DOWNLOADED] to both. *)
Lemma create_object_from_field_null {A} items (cls : value → result A) k key :
  dict_lookup items k = None →
  create_object_from_field (VDict (dict_set items k VNone)) cls key =
    create_object_from_field (VDict items) cls key.
Proof.
  intros Hk. unfold create_object_from_field. cbn [py_get mbind result_bind].
  rewrite !dict_get_lookup, dict_lookup_set.
  case_decide; [subst; by rewrite Hk|done].
Qed.

Lemma py_get_set_ne entries k v key dflt :
  k ≠ key →
  py_get (VDict (dict_set entries k v)) key dflt =
    py_get (VDict entries) key dflt.
Proof.
  intros Hne. cbn [py_get].
  by rewrite !dict_get_lookup, dict_lookup_set, decide_False.
Qed.

Lemma py_get_set_eq entries k v dflt :
  py_get (VDict (dict_set entries k v)) k dflt = Ok v.
Proof.
  cbn [py_get]. by rewrite !dict_get_lookup, dict_lookup_set, decide_True.
Qed.

(** Setting an absent field to null changes the payload kept in the issue
    object and nothing else, the two list fields aside. *)
Lemma init_with_null_field entries items k :
  dict_lookup entries "fields" = Some (VDict items) →
  dict_lookup items k = None →
  k ≠ "subtasks" → k ≠ "attachment" →
  JiraIssue.init (with_null_field entries items k) =
    rewrap (with_null_field entries items k) (VDict (dict_set items k VNone))
      <$> JiraIssue.init (VDict entries).
Proof.
  intros Hfields Hk Hsub Hatt. unfold with_null_field.
  rewrite !init_unfold, py_get_set_eq. cbn [py_get].
  rewrite dict_get_lookup, Hfields. cbn [default mbind result_bind].
  rewrite !create_object_from_field_null by done.
  rewrite !(py_get_set_ne items k) by done.
  cbv [id].
  repeat match goal with
         | |- ?m ≫= _ = _ <$> (?m ≫= _) =>
             destruct m; [|reflexivity]; cbn [mbind result_bind]
         end.
  reflexivity.
Qed.

Lemma append_assoc (a b c : string) : (a +:+ b) +:+ c = a +:+ (b +:+ c).
Proof.
  induction a as [|x a IH]; [done|].
  change (String x ((a +:+ b) +:+ c) = String x (a +:+ (b +:+ c))).
  by rewrite IH.
Qed.

Lemma append_nil_r (a : string) : a +:+ "" = a.
Proof.
  induction a as [|x a IH]; [done|].
  change (String x (a +:+ "") = String x a). by rewrite IH.
Qed.

Lemma slot_here post : slot (λ x, x +:+ post).
Proof. exists "", post. done. Qed.

Lemma slot_end : slot (λ x, x).
Proof. exists "", "". intros x. by rewrite append_nil_r. Qed.

Lemma slot_prepend a f : slot f → slot (λ x, a +:+ f x).
Proof.
  intros (pre & post & Hf). exists (a +:+ pre), post. intros x.
  by rewrite Hf, append_assoc.
Qed.

(** The fields that [to_text] prints as they come out of the field map. *)
Lemma template_summary k ty st pr rep asg res sub d lab cr upd com :
  slot (λ x, JiraIssue.template k ty st pr rep asg res sub x d lab cr upd com).
Proof.
  unfold JiraIssue.template. repeat apply slot_prepend. apply slot_here.
Qed.

Lemma template_description k ty st pr rep asg res sub sm lab cr upd com :
  slot (λ x, JiraIssue.template k ty st pr rep asg res sub sm x lab cr upd com).
Proof.
  unfold JiraIssue.template. repeat apply slot_prepend. apply slot_here.
Qed.

Lemma template_created k ty st pr rep asg res sub sm d lab upd com :
  slot (λ x, JiraIssue.template k ty st pr rep asg res sub sm d lab x upd com).
Proof.
  unfold JiraIssue.template. repeat apply slot_prepend. apply slot_here.
Qed.

Lemma slot_distinct f :
  slot f →
  ∃ pre post,
    f "<not downloaded>" = pre +:+ "<not downloaded>" +:+ post ∧
    f "None" = pre +:+ "None" +:+ post ∧
    f "<not downloaded>" ≠ f "None".
Proof.
  intros (pre & post & Hf). exists pre, post. rewrite !Hf.
  split_and!; [done..|]. intros Heq. by apply (inj (String.app pre)) in Heq.
Qed.

(** Membership in a list of literals, by evaluation. *)
Lemma elem_of_ne (k x : string) (l : list string) :
  k ∈ l → bool_decide (x ∈ l) = false → k ≠ x.
Proof. intros Hk Hx ->. by apply bool_decide_eq_false in Hx. Qed.

Lemma not_elem_of_ne (k x : string) (l : list string) :
  k ∉ l → bool_decide (x ∈ l) = true → k ≠ x.
Proof. intros Hk Hx ->. by apply bool_decide_eq_true in Hx. Qed.

(** A literal in a list of other literals. *)
Ltac absurd_elem H :=
  exfalso;
  repeat (apply elem_of_cons in H as [H|H]; [discriminate H|]);
  by apply elem_of_nil in H.

(** Unfolds [to_text] on an issue and on the same issue around a payload
    with one more null field. *)
Ltac unfold_to_text Hd Hf :=
  unfold JiraIssue.to_text, JiraIssue.key, JiraIssue.summary,
    JiraIssue.description, JiraIssue.created, JiraIssue.labels,
    JiraIssue.updated, JiraIssue.get_field, get_value, _data, JiraIssue.rest,
    rewrap, with_null_field in *;
  cbn [JiraIssue.data JiraIssue.fields JiraIssue.parent_issue
       JiraIssue.resolution_object JiraIssue.comments JiraIssue.status
       JiraIssue.priority JiraIssue.reporter JiraIssue.assignee
       JiraIssue.issuetype JiraIssue.subtasks JiraIssue.attachment] in *;
  rewrite ?Hd, ?Hf in *.

(** A field that [to_text] does not read from the field map. *)
Lemma to_text_null_unread i entries items k :
  JiraIssue.data i = VDict entries → JiraIssue.fields i = VDict items →
  k ∉ ["summary"; "description"; "labels"; "created"] →
  JiraIssue.to_text
    (rewrap (with_null_field entries items k) (VDict (dict_set items k VNone)) i)
  = JiraIssue.to_text i.
Proof.
  intros Hd Hf Hk. unfold_to_text Hd Hf.
  rewrite !(py_get_set_ne entries "fields") by done.
  rewrite !(py_get_set_ne items k)
    by (by eapply not_elem_of_ne; [exact Hk|vm_compute]).
  done.
Qed.

(** A field that [to_text] prints as it comes out of the field map. *)
Lemma to_text_null_scalar i entries items k t0 :
  JiraIssue.data i = VDict entries → JiraIssue.fields i = VDict items →
  dict_lookup items k = None →
  k ∈ ["summary"; "description"; "created"] →
  JiraIssue.to_text i = Ok t0 →
  ∃ f, slot f ∧ t0 = f "<not downloaded>" ∧
       JiraIssue.to_text
         (rewrap (with_null_field entries items k)
            (VDict (dict_set items k VNone)) i) = Ok (f "None").
Proof.
  intros Hd Hf Hnone Hk Ht. unfold_to_text Hd Hf.
  repeat (apply bind_Ok in Ht as (? & ? & Ht)).
  injection Ht as <-.
  rewrite !(py_get_set_ne entries "fields") by done.
  assert (∀ d, py_get (VDict items) k VNotDownloaded = Ok d →
               d = VNotDownloaded) as Habsent.
  { intros d. cbn [py_get]. rewrite dict_get_lookup, Hnone. by intros [= <-]. }
  repeat apply elem_of_cons in Hk as [->|Hk]; [..|by apply elem_of_nil in Hk];
    rewrite (py_get_set_eq items);
    rewrite ?(py_get_set_ne items) by done;
    repeat match goal with
           | H : ?m = Ok _ |- context [?m ≫= _] =>
               rewrite H; cbn [mbind result_bind]
           | H : ?m = Ok _ |- context [mbind (M:=result) _ ?m] =>
               rewrite H; cbn [mbind result_bind]
           end;
    cbn [mbind result_bind py_str py_repr];
    match goal with
    | H : py_get (VDict items) _ VNotDownloaded = Ok ?d |- _ =>
        apply Habsent in H; subst d
    end;
    cbn [py_str].
  - match goal with
    | |- ∃ f, _ ∧ JiraIssue.template ?a ?b ?c ?d ?e ?g ?h ?j _ ?l ?m ?n ?o ?q
                  = _ ∧ _ =>
        exists (λ x, JiraIssue.template a b c d e g h j x l m n o q)
    end.
    split_and!; [apply template_summary|done..].
  - match goal with
    | |- ∃ f, _ ∧ JiraIssue.template ?a ?b ?c ?d ?e ?g ?h ?j ?l _ ?m ?n ?o ?q
                  = _ ∧ _ =>
        exists (λ x, JiraIssue.template a b c d e g h j l x m n o q)
    end.
    split_and!; [apply template_description|done..].
  - match goal with
    | |- ∃ f, _ ∧ JiraIssue.template ?a ?b ?c ?d ?e ?g ?h ?j ?l ?m ?n _ ?o ?q
                  = _ ∧ _ =>
        exists (λ x, JiraIssue.template a b c d e g h j l m n x o q)
    end.
    split_and!; [apply template_created|done..].
Qed.

Lemma init_payload entries items i :
  dict_lookup entries "fields" = Some (VDict items) →
  JiraIssue.init (VDict entries) = Ok i →
  JiraIssue.data i = VDict entries ∧ JiraIssue.fields i = VDict items.
Proof.
  intros Hfields (fields & Hf & Hd & Hfs & _)%init_Ok.
  cbn [py_get] in Hf. rewrite dict_get_lookup, Hfields in Hf.
  injection Hf as <-. done.
Qed.

(** C2, as stated, fails: for an issue without a reporter entry, the text
    is the same whether the entry is absent or null (both print
    [Reporter: Unknown]). *)
Lemma null_reporter_prints_like_absent :
  dict_lookup example_fields "reporter" = None ∧
  py_get (with_null_field example_entries example_fields "reporter")
    "fields" VNone ≫= (λ fields, py_get fields "reporter" VNotDownloaded)
    = Ok VNone ∧
  ∃ text,
    issue_text (VDict example_entries) = Ok text ∧
    issue_text (with_null_field example_entries example_fields "reporter")
      = Ok text.
Proof. split_and!; [done..|]. eexists. split; by vm_compute. Qed.

(** C2 (amended).  Take an issue payload and a field [k] absent from its
    field map, and compare the text with the text for the same payload
    with [k] set to null.  For reporter, assignee, resolution and comment
    the two texts are the same: the wrapper attribute is [NOT_DOWNLOADED]
    in both cases.  For summary, description and created, which are
    printed as they come out of the field map, the texts differ: the first
    has [<not downloaded>] where the second has [None]. *)
Theorem absent_and_null_fields_in_text entries items k :
  dict_lookup entries "fields" = Some (VDict items) →
  dict_lookup items k = None →
  (k ∈ ["reporter"; "assignee"; "resolution"; "comment"] →
   issue_text (with_null_field entries items k) = issue_text (VDict entries)) ∧
  (k ∈ ["summary"; "description"; "created"] →
   ∀ t0, issue_text (VDict entries) = Ok t0 →
     ∃ pre post t1,
       t0 = pre +:+ "<not downloaded>" +:+ post ∧
       t1 = pre +:+ "None" +:+ post ∧
       issue_text (with_null_field entries items k) = Ok t1 ∧
       t1 ≠ t0).
Proof.
  intros Hfields Hnone. unfold issue_text. split; intros Hk.
  - rewrite init_with_null_field
      by (done || by eapply elem_of_ne; [exact Hk|vm_compute]).
    destruct (JiraIssue.init (VDict entries)) as [i|e] eqn:Hinit; [|done].
    destruct (init_payload _ _ _ Hfields Hinit) as [Hd Hf].
    cbn [fmap result_fmap mbind result_bind].
    apply to_text_null_unread; [done..|].
    intros Hin.
    repeat (apply elem_of_cons in Hin as [->|Hin]; [absurd_elem Hk|]).
    by apply elem_of_nil in Hin.
  - intros t0 Ht. rewrite init_with_null_field
      by (done || by eapply elem_of_ne; [exact Hk|vm_compute]).
    destruct (JiraIssue.init (VDict entries)) as [i|e] eqn:Hinit; [|done].
    destruct (init_payload _ _ _ Hfields Hinit) as [Hd Hf].
    cbn [fmap result_fmap mbind result_bind] in *.
    destruct (to_text_null_scalar i entries items k t0 Hd Hf Hnone Hk Ht)
      as (f & Hslot & -> & ->).
    destruct (slot_distinct f Hslot) as (pre & post & H0 & H1 & Hne).
    exists pre, post, (f "None"). by split_and!.
Qed.

Lemma absent_and_null_fields_in_text_witness :
  ("description" ∈ ["reporter"; "assignee"; "resolution"; "comment"] →
   issue_text (with_null_field example_entries example_fields "description")
     = issue_text (VDict example_entries)) ∧
  ("description" ∈ ["summary"; "description"; "created"] →
   ∀ t0, issue_text (VDict example_entries) = Ok t0 →
     ∃ pre post t1,
       t0 = pre +:+ "<not downloaded>" +:+ post ∧
       t1 = pre +:+ "None" +:+ post ∧
       issue_text (with_null_field example_entries example_fields
                     "description") = Ok t1 ∧
       t1 ≠ t0).
Proof.
  apply (absent_and_null_fields_in_text example_entries example_fields
           "description"); reflexivity.
Defined.

End TextOutput.

(** ** Pagination *)

Section Pagination.
Import Py Paging.

Lemma length_page {A} (records : list A) page_size start limit :
  length (page records page_size start limit) =
    min (min limit page_size) (length records - start).
Proof. unfold page. by rewrite length_take, length_drop. Qed.

(** One more page for every full or partial page that is left. *)
Lemma pages_step n p :
  0 < n → 0 < p → pages n p = S (pages (n - min p n) p).
Proof.
  intros Hn Hp. unfold pages.
  destruct (decide (n ≤ p)%nat) as [Hle|Hgt].
  - rewrite Nat.min_r by done.
    replace (n - n + p - 1) with (p - 1) by lia.
    rewrite (Nat.div_small (p - 1)) by lia.
    symmetry. apply (Nat.div_unique _ _ _ (n - 1)); lia.
  - rewrite Nat.min_l by lia.
    replace (n + p - 1) with ((n - p + p - 1) + 1 * p) by lia.
    rewrite Nat.div_add by lia. lia.
Qed.

Lemma pages_0 p : 0 < p → pages 0 p = 0.
Proof. intros Hp. unfold pages. apply Nat.div_small. lia. Qed.

Lemma requests_from_0 n p : requests_from n p 0 = expected_requests n p.
Proof. unfold requests_from, expected_requests. by rewrite Nat.sub_0_r. Qed.

Lemma requests_from_step n p start :
  start < n → 0 < p →
  requests_from n p start =
    (start, 200) :: requests_from n p (start + min p (n - start)).
Proof.
  intros Hlt Hp. unfold requests_from.
  rewrite (pages_step (n - start) p) by lia.
  replace (n - (start + min p (n - start)))
    with (n - start - min p (n - start)) by lia.
  set (k := Datatypes.S (pages _ p)).
  change (seq 0 (Datatypes.S k)) with (0 :: seq 1 k).
  rewrite <- seq_shift, map_cons, map_map. f_equal.
  - f_equal. lia.
  - apply map_ext. intros j. f_equal. lia.
Qed.

Lemma requests_from_end n p : 0 < p → requests_from n p n = [(n, 200)].
Proof.
  intros Hp. unfold requests_from.
  rewrite Nat.sub_diag, pages_0 by done. simpl. do 2 f_equal. lia.
Qed.

Lemma for_each_collect {A} (items : list A) t :
  for_each collect items t = (Return (), (t.1 ++ items, t.2)).
Proof.
  revert t. induction items as [|x items IH]; intros [ys rs]; simpl.
  - by rewrite app_nil_r.
  - unfold mbind, M_bind. simpl. rewrite IH. simpl.
    by rewrite <- app_assoc.
Qed.

Lemma drop_page {A} (records : list A) p start :
  page records p start 200 ++
    drop (start + min (min 200 p) (length records - start)) records
  = drop start records.
Proof.
  unfold page. rewrite <- drop_drop.
  set (l := drop start records).
  rewrite <- (take_drop (min 200 p) l) at 3. f_equal.
  destruct (decide (min 200 p ≤ length records - start)%nat).
  - by rewrite Nat.min_l.
  - rewrite Nat.min_r by lia.
    assert (length l = length records - start) as Hl
      by apply length_drop.
    by rewrite !drop_ge by lia.
Qed.

Lemma bind_returns {W A B} (m : M W A) (f : A → M W B) w a w' :
  m w = (Return a, w') → (m ≫= f) w = f a w'.
Proof. intros H. unfold mbind, M_bind. by rewrite H. Qed.

(** With rounds to spare, the downloader's iterator hands over the
    records from [start] on and asks for the offsets of [requests_from]. *)
Lemma download_iterator_from (records : list value) p rounds start total t :
  0 < p → (start ≤ length records)%nat →
  pages (length records - start) (min 200 p) < rounds →
  DownloadIssues.jira_get_issues_from (search_values records p) collect
    rounds start total t =
  (Return (), (t.1 ++ drop start records,
               t.2 ++ requests_from (length records) (min 200 p) start)).
Proof.
  intros Hp. revert start total t.
  induction rounds as [|rounds IH]; intros start total [ys rs] Hstart Hrounds;
    [lia|].
  cbn [DownloadIssues.jira_get_issues_from].
  change DownloadIssues.limit with 200.
  etrans; [by eapply bind_returns|].
  set (data := VDict _). cbn [fst snd].
  etrans.
  { eapply bind_returns.
    instantiate (1 := (ys, rs ++ [(start, 200)])).
    instantiate (1 := if py_eq total (VInt (-1))
                      then VInt (Z.of_nat (length records)) else total).
    by destruct (py_eq total _). }
  etrans; [by eapply bind_returns|].
  etrans; [by eapply bind_returns|].
  cbn [length].
  pose proof (length_page records p start 200) as Hlen.
  change (dict_get _ "issues" VNone) with (VList (page records p start 200)).
  cbn [py_iter lift].
  destruct (decide (start = length records)) as [->|Hne].
  - (* nothing is left: the empty page ends the loop *)
    assert (page records p (length records) 200 = []) as ->
      by (apply nil_length_inv; lia).
    cbn [length].
    rewrite (decide_False (P:=0 < 0)), (decide_True (P:=0 = 0)) by lia.
    rewrite drop_all, app_nil_r, requests_from_end by lia.
    reflexivity.
  - rewrite (decide_True (P:=0 < _)), (decide_False (P:=_ = 0)) by lia.
    etrans.
    { eapply bind_returns. etrans; [by eapply bind_returns|].
      apply for_each_collect. }
    cbn [fst snd]. rewrite IH; [|lia|].
    + cbn [fst snd]. rewrite Hlen, <- !app_assoc, drop_page.
      by rewrite (requests_from_step _ _ start) by lia.
    + rewrite Hlen.
      rewrite (pages_step (length records - start)) in Hrounds by lia.
      replace (length records
               - (start + min (min 200 p) (length records - start)))
        with (length records - start
              - min (min 200 p) (length records - start)) by lia.
      lia.
Qed.

(** The same for the iterator of the label tool. *)
Lemma label_iterator_from (records : list EditLabels.Issue) p q rounds start
    t :
  0 < p → (start ≤ length records)%nat →
  pages (length records - start) (min 200 p) < rounds →
  EditLabels.jira_get_issues_from (search_issues records p) collect q
    rounds start t =
  (Return (), (t.1 ++ drop start records,
               t.2 ++ requests_from (length records) (min 200 p) start)).
Proof.
  intros Hp. revert start t.
  induction rounds as [|rounds IH]; intros start [ys rs] Hstart Hrounds;
    [lia|].
  cbn [EditLabels.jira_get_issues_from].
  change EditLabels.limit with 200.
  etrans; [by eapply bind_returns|]. cbn [fst snd].
  pose proof (length_page records p start 200) as Hlen.
  destruct (decide (start = length records)) as [->|Hne].
  - assert (page records p (length records) 200 = []) as ->
      by (apply nil_length_inv; lia).
    cbn [length].
    rewrite (decide_False (P:=0 < 0)), (decide_True (P:=0 = 0)) by lia.
    rewrite drop_all, app_nil_r, requests_from_end by lia.
    reflexivity.
  - rewrite (decide_True (P:=0 < _)), (decide_False (P:=_ = 0)) by lia.
    etrans; [eapply bind_returns, for_each_collect|].
    cbn [fst snd]. rewrite IH; [|lia|].
    + cbn [fst snd]. rewrite Hlen, <- !app_assoc, drop_page.
      by rewrite (requests_from_step _ _ start) by lia.
    + rewrite Hlen.
      rewrite (pages_step (length records - start)) in Hrounds by lia.
      replace (length records
               - (start + min (min 200 p) (length records - start)))
        with (length records - start
              - min (min 200 p) (length records - start)) by lia.
      lia.
Qed.

(** C4, as stated, fails on the number of requests: for 401 records
    served 200 at a time the iterator sends four requests, the last one at
    offset 401 for the empty page that ends the loop; after three requests
    it has not returned. *)
Lemma four_requests_for_401_records :
  DownloadIssues.jira_get_issues (search_values records_401 200) collect 4
    ([], []) =
  (Return (), (records_401, [(0, 200); (200, 200); (400, 200); (401, 200)])) ∧
  (DownloadIssues.jira_get_issues (search_values records_401 200) collect 3
     ([], [])).1 = Unfinished.
Proof. split; by vm_compute. Qed.

(** C4 (amended).  Against a service that holds [N] records and serves
    them in a fixed order, at most [page_size] and at most 200 per
    request, the iterator of either tool, given enough rounds, returns
    after handing over exactly the [N] records, each once and in the order
    of the service.  Its requests start at 0 and each next one where the
    page before ended; the last request starts at [N] and gets the empty
    page that ends the loop.  That makes one request more than there are
    pages: four requests for 401 records served 200 at a time. *)
Theorem iterator_yields_every_record_once page_size rounds :
  0 < page_size →
  (∀ records : list value,
     pages (length records) (min 200 page_size) < rounds →
     DownloadIssues.jira_get_issues (search_values records page_size) collect
       rounds ([], []) =
     (Return (),
      (records, expected_requests (length records) (min 200 page_size)))) ∧
  (∀ (records : list EditLabels.Issue) c q,
     pages (length records) (min 200 page_size) < rounds →
     EditLabels.jira_get_issues (search_issues records page_size) collect
       (Some (String c q)) rounds ([], []) =
     (Return (),
      (records, expected_requests (length records) (min 200 page_size)))) ∧
  (∀ n, length (expected_requests n (min 200 page_size)) =
        S (pages n (min 200 page_size))) ∧
  (page_size = 200 → length (expected_requests 401 (min 200 page_size)) = 4).
Proof.
  intros Hp. split_and!.
  - intros records Hrounds. unfold DownloadIssues.jira_get_issues.
    rewrite download_iterator_from; [|done|lia|by rewrite Nat.sub_0_r].
    by rewrite drop_0, requests_from_0.
  - intros records c q Hrounds. cbn [EditLabels.jira_get_issues].
    rewrite label_iterator_from; [|done|lia|by rewrite Nat.sub_0_r].
    by rewrite drop_0, requests_from_0.
  - intros n. unfold expected_requests. by rewrite length_map, length_seq.
  - by intros ->.
Qed.

Lemma iterator_yields_every_record_once_witness :
  DownloadIssues.jira_get_issues (search_values records_401 200) collect 5
    ([], []) =
  (Return (), (records_401, expected_requests (length records_401)
                              (min 200 200))).
Proof.
  apply (proj1 (iterator_yields_every_record_once 200 5 ltac:(lia))
           records_401).
  vm_compute. lia.
Defined.

End Pagination.

(** ** Start-up: configuration and credentials *)

Section Startup.
Import Py.
Context {W X : Type} (eprint : string → M W unit).
Context (keep : W → X) (errs : W → list string).

(** What printing to standard error does to the two observations. *)
Hypothesis eprint_returns : ∀ line w, (eprint line w).1 = Return ().
Hypothesis eprint_keep : ∀ line w, keep (eprint line w).2 = keep w.
Hypothesis eprint_errs : ∀ line w, errs (eprint line w).2 = errs w ++ [line].

Lemma cfg_get_default cfg name :
  cfg_get cfg DEFAULTSECT name =
    match defaults cfg !! name with
    | Some v => Ok v
    | None => Raise NoOptionError
    end.
Proof.
  unfold cfg_get. rewrite decide_True by done. by rewrite (left_id_L ∅ (∪)).
Qed.

Lemma exit_with_message {B} line w :
  ended_early (B:=B) keep errs w
    ((eprint line ≫= λ _, raise (SystemExit 1)) w).
Proof.
  unfold mbind, M_bind.
  pose proof (eprint_returns line w) as Hr.
  pose proof (eprint_keep line w) as Hk.
  pose proof (eprint_errs line w) as He.
  destruct (eprint line w) as [s w']. simpl in *. subst s.
  exists (SystemExit 1). simpl. eauto.
Qed.

Lemma ended_early_bind {A B} (m : M W A) (f : A → M W B) w :
  ended_early keep errs w (m w) → ended_early keep errs w ((m ≫= f) w).
Proof.
  intros (e & He & Hrest). unfold mbind, M_bind.
  destruct (m w) as [s w']. simpl in He. subst s. by exists e.
Qed.

(** The start-up either ends the run early or hands the configuration,
    the domain, the user and the token to the rest of the script, with
    nothing printed. *)
Lemma credentials_cases {B} config_file domain_arg config
    (rest : ConfigParser → string → string → string → M W B) w :
  ended_early keep errs w
    (credentials eprint config_file domain_arg config rest w) ∨
  ∃ cfg d u p,
    config = Ini cfg ∧
    effective_domain domain_arg cfg = Some d ∧
    cfg_get_fallback cfg d "user" = Some u ∧
    cfg_get_fallback cfg d "api_token" = Some p ∧
    credentials eprint config_file domain_arg config rest w = rest cfg d u p w.
Proof.
  unfold credentials. destruct config as [| |cfg].
  - left. cbn [isfile]. apply ended_early_bind, exit_with_message.
  - left. by exists ParsingError.
  - cbn [isfile cfg_read lift].
    assert (∀ (k : string → M W B) d,
              effective_domain domain_arg cfg = Some d →
              (match given domain_arg with
               | Some d => mret d
               | None => lift (cfg_get cfg DEFAULTSECT "domain")
               end ≫= k) w = k d w) as Hdomain.
    { intros k d Hd. unfold effective_domain in Hd.
      destruct domain_arg as [[|c a]|]; simpl; simplify_eq/=;
        try done; by rewrite cfg_get_default, Hd. }
    destruct (effective_domain domain_arg cfg) as [d|] eqn:Hd.
    + erewrite (bind_returns (mret ())) by done.
      erewrite (bind_returns (mret cfg)) by done.
      rewrite (Hdomain _ d eq_refl).
      destruct (cfg_get_fallback cfg d "user") as [u|] eqn:Hu.
      2: { left. apply ended_early_bind, exit_with_message. }
      erewrite (bind_returns (mret u)) by done.
      destruct (cfg_get_fallback cfg d "api_token") as [p|] eqn:Hp.
      2: { left. apply ended_early_bind, exit_with_message. }
      erewrite (bind_returns (mret p)) by done.
      right. by exists cfg, d, u, p.
    + left. exists NoOptionError. unfold effective_domain in Hd.
      destruct domain_arg as [[|c a]|]; simplify_eq/=;
        unfold mbind, M_bind; simpl; by rewrite cfg_get_default, Hd.
Qed.

(** A problem with the configuration ends the run early. *)
Lemma credentials_problem {B} config_file domain_arg config
    (rest : ConfigParser → string → string → string → M W B) w :
  config_problem domain_arg config →
  ended_early keep errs w
    (credentials eprint config_file domain_arg config rest w).
Proof.
  intros Hproblem.
  destruct (credentials_cases config_file domain_arg config rest w)
    as [?|(cfg & d & u & p & -> & Hd & Hu & Hp & _)]; [done|].
  inversion Hproblem; simplify_eq.
Qed.

End Startup.

(** ** Start-up of the label tool *)

Section LabelStartup.
Import Py EditLabels.
Context {S : Type} (srv : Service S).

Implicit Types (w : World S) (args : Args).

Lemma main_credentials rounds args config :
  main srv rounds args config =
    credentials eprint (config_file args) (atlassian_domain args) config
      (λ _, after_credentials srv rounds args).
Proof. reflexivity. Qed.

Lemma stderr_snoc l e :
  stderr (l ++ [e]) = stderr l ++ match e with Stderr x => [x] | _ => [] end.
Proof. unfold stderr. rewrite omap_app. f_equal. by destruct e. Qed.

Lemma eprint_untouched line w :
  untouched (eprint (S:=S) line w).2 = untouched w.
Proof. unfold untouched. simpl. by rewrite requests_snoc, app_nil_r. Qed.

Lemma eprint_errors line w :
  errors (eprint (S:=S) line w).2 = errors w ++ [line].
Proof. unfold errors. simpl. by rewrite stderr_snoc. Qed.

Lemma print_untouched line w :
  untouched (print (S:=S) line w).2 = untouched w ∧
  errors (print (S:=S) line w).2 = errors w.
Proof.
  unfold untouched, errors. simpl.
  by rewrite requests_snoc, stderr_snoc, !app_nil_r.
Qed.

(** A run that ends early from a world that differs from [w0] in what
    was printed to standard output only ends early from [w0] too. *)
Lemma ended_early_from {B} w0 w (r : step B * World S) :
  untouched w = untouched w0 → errors w = errors w0 →
  ended_early untouched errors w r → ended_early untouched errors w0 r.
Proof.
  intros Hu He (e & ? & Hk & Hrest). exists e. rewrite <- Hu, <- He. eauto.
Qed.

Lemma print_then {B} line (m : M (World S) B) w :
  ended_early untouched errors (print line w).2 (m (print line w).2) →
  ended_early untouched errors w ((print line ≫= λ _, m) w).
Proof.
  intros H. erewrite bind_returns by reflexivity.
  destruct (print_untouched line w).
  by eapply ended_early_from.
Qed.

(** Without labels to add or remove, or without the domain argument, the
    rest of the script ends early as well. *)
Lemma after_credentials_early rounds args domain user password w :
  (add_labels args = [] ∧ remove_labels args = []) ∨
  atlassian_domain args = None →
  ended_early untouched errors w
    (after_credentials srv rounds args domain user password w).
Proof.
  intros Hcase. unfold after_credentials.
  do 4 apply print_then.
  set (w' := (print _ _).2).
  destruct (add_labels args) as [|a add], (remove_labels args) as [|r rem].
  1: { apply ended_early_bind, exit_with_message;
         auto using eprint_untouched, eprint_errors. }
  all: destruct Hcase as [[??]|Hnone]; try done.
  all: erewrite (bind_returns (mret ())) by reflexivity.
  all: rewrite Hnone; by exists TypeError.
Qed.

(** With the domain argument missing, every run of [main] ends early. *)
Lemma main_without_domain_argument rounds args config w :
  atlassian_domain args = None →
  ended_early untouched errors w (main srv rounds args config w).
Proof.
  intros Hnone. rewrite main_credentials.
  destruct (credentials_cases eprint untouched errors
              (λ _ _, eq_refl) eprint_untouched eprint_errors
              (config_file args) (atlassian_domain args) config
              (λ _, after_credentials srv rounds args) w)
    as [?|(cfg & d & u & p & _ & _ & _ & _ & ->)]; [done|].
  apply after_credentials_early. by right.
Qed.

(** The configuration problems and the missing labels end [main] early. *)
Lemma main_ends_early rounds args config w :
  config_problem (atlassian_domain args) config ∨
  (add_labels args = [] ∧ remove_labels args = []) →
  ended_early untouched errors w (main srv rounds args config w).
Proof.
  intros Hcase. rewrite main_credentials.
  destruct (credentials_cases eprint untouched errors
              (λ _ _, eq_refl) eprint_untouched eprint_errors
              (config_file args) (atlassian_domain args) config
              (λ _, after_credentials srv rounds args) w)
    as [?|(cfg & d & u & p & -> & Hd & Hu & Hp & ->)]; [done|].
  destruct Hcase as [Hproblem|Hlabels].
  - inversion Hproblem; simplify_eq.
  - apply after_credentials_early. by left.
Qed.

(** An early end of [main], seen from outside the process. *)
Lemma script_ends_early rounds args config w :
  ended_early untouched errors w (main srv rounds args config w) →
  let r := script srv rounds args config w in
  r.1 = Some 1%Z ∧
  (∃ line, stderr (log r.2) = stderr (log w) ++ [line]) ∧
  requests (log r.2) = requests (log w) ∧
  num_issues r.2 = num_issues w.
Proof.
  intros (e & He & Hk & Herr). unfold script.
  destruct (main srv rounds args config w) as [s w']. simpl in *. subst s.
  unfold untouched in Hk. injection Hk as Hreq Hn _ _.
  unfold errors in Herr.
  destruct e; simpl in *;
    try (rewrite stderr_snoc, requests_snoc, app_nil_r, Herr;
         split_and!; eauto).
  destruct Herr as [-> [line Hline]]. split_and!; eauto.
Qed.

(** With labels given and no domain argument, the rest of the script
    dies where it builds the URL. *)
Lemma after_credentials_type_error rounds args domain user password w :
  atlassian_domain args = None →
  add_labels args ≠ [] ∨ remove_labels args ≠ [] →
  (after_credentials srv rounds args domain user password w).1 = Throw TypeError.
Proof.
  intros Hnone Hlabels. unfold after_credentials.
  do 4 (erewrite (bind_returns (print _)) by reflexivity).
  destruct (add_labels args) as [|a add], (remove_labels args) as [|r rem];
    [by destruct Hlabels|..].
  all: erewrite (bind_returns (mret ())) by reflexivity.
  all: by rewrite Hnone.
Qed.

End LabelStartup.

(** ** Start-up of the downloader *)

Section DownloadStartup.
Import Py DownloadIssues.
Context {S : Type} (respond : S → Jira → request → result value * S).

Implicit Types (w : @World S) (args : Args).

Lemma download_main_credentials rounds args config :
  ∃ rest,
    main respond rounds args config =
      credentials eprint (config_file args) (atlassian_domain args) config
        rest.
Proof. eexists (λ cfg_parser domain user password, _). reflexivity. Qed.

Lemma download_requests_snoc l e :
  requests (l ++ [e]) =
    requests l ++ match e with Sent _ r => [r] | _ => [] end.
Proof. unfold requests. rewrite omap_app. f_equal. by destruct e. Qed.

Lemma download_stderr_snoc l e :
  stderr (l ++ [e]) = stderr l ++ match e with Stderr x => [x] | _ => [] end.
Proof. unfold stderr. rewrite omap_app. f_equal. by destruct e. Qed.

Lemma download_eprint_untouched line w :
  download_untouched (eprint (S:=S) line w).2 = download_untouched w.
Proof.
  unfold download_untouched. simpl.
  by rewrite download_requests_snoc, app_nil_r.
Qed.

Lemma download_eprint_errors line w :
  download_errors (eprint (S:=S) line w).2 = download_errors w ++ [line].
Proof. unfold download_errors. simpl. by rewrite download_stderr_snoc. Qed.

Lemma download_main_ends_early rounds args config w :
  config_problem (atlassian_domain args) config →
  ended_early download_untouched download_errors w
    (main respond rounds args config w).
Proof.
  intros Hproblem.
  destruct (download_main_credentials rounds args config) as [rest ->].
  by apply credentials_problem;
    auto using download_eprint_untouched, download_eprint_errors.
Qed.

Lemma download_script_ends_early rounds args config w :
  ended_early download_untouched download_errors w
    (main respond rounds args config w) →
  let r := script respond rounds args config w in
  r.1 = Some 1%Z ∧
  (∃ line, stderr (log r.2) = stderr (log w) ++ [line]) ∧
  requests (log r.2) = requests (log w) ∧
  num_issues r.2 = num_issues w.
Proof.
  intros (e & He & Hk & Herr). unfold script.
  destruct (main respond rounds args config w) as [s w']. simpl in *. subst s.
  unfold download_untouched in Hk. injection Hk as Hreq Hn _.
  unfold download_errors in Herr.
  destruct e; simpl in *;
    try (rewrite download_stderr_snoc, download_requests_snoc, app_nil_r, Herr;
         split_and!; eauto).
  destruct Herr as [-> [line Hline]]. split_and!; eauto.
Qed.

End DownloadStartup.

(** ** The start-up claims *)

Section StartupClaims.
Import Py.

(** C9.  For either tool: when the configuration file is missing or does
    not parse, or the domain (with no domain argument), the user or the
    API token is missing from it, the process ends with status 1 and one
    more line on standard error (the tool's own message, or the
    interpreter's report of the [configparser] exception), having sent no
    request.  The label tool ends the same way when there are no labels to
    add and none to remove. *)
Theorem configuration_errors_exit_with_1 :
  (∀ S (respond : S → DownloadIssues.Jira → DownloadIssues.request
                  → result value * S) rounds args config w,
     config_problem (DownloadIssues.atlassian_domain args) config →
     let r := DownloadIssues.script respond rounds args config w in
     r.1 = Some 1%Z ∧
     (∃ line, DownloadIssues.stderr (DownloadIssues.log r.2) =
              DownloadIssues.stderr (DownloadIssues.log w) ++ [line]) ∧
     DownloadIssues.requests (DownloadIssues.log r.2) =
       DownloadIssues.requests (DownloadIssues.log w)) ∧
  (∀ S (srv : EditLabels.Service S) rounds args config w,
     config_problem (EditLabels.atlassian_domain args) config ∨
     (EditLabels.add_labels args = [] ∧ EditLabels.remove_labels args = []) →
     let r := EditLabels.script srv rounds args config w in
     r.1 = Some 1%Z ∧
     (∃ line, EditLabels.stderr (EditLabels.log r.2) =
              EditLabels.stderr (EditLabels.log w) ++ [line]) ∧
     EditLabels.requests (EditLabels.log r.2) =
       EditLabels.requests (EditLabels.log w)).
Proof.
  split.
  - intros S respond rounds args config w Hproblem.
    destruct (download_script_ends_early respond rounds args config w)
      as (? & ? & ? & _); [|done].
    by apply download_main_ends_early.
  - intros S srv rounds args config w Hcase.
    destruct (script_ends_early srv rounds args config w)
      as (? & ? & ? & _); [|done].
    by apply main_ends_early.
Qed.

(** C10.  The label tool builds the URL from the domain argument alone.
    Without that argument every run of [main] dies on an exception before
    any request is sent and before any issue is counted, and the process
    ends with status 1; when the configuration file supplies the domain,
    the user and the token, and there are labels to work on, the exception
    is the [TypeError] of ["https://" + None]. *)
Theorem label_tool_needs_domain_argument {S} (srv : EditLabels.Service S)
    rounds args config w :
  EditLabels.atlassian_domain args = None →
  let r := EditLabels.main srv rounds args config w in
  (∃ e, r.1 = Throw e) ∧
  EditLabels.requests (EditLabels.log r.2)
    = EditLabels.requests (EditLabels.log w) ∧
  EditLabels.num_issues r.2 = EditLabels.num_issues w ∧
  (EditLabels.script srv rounds args config w).1 = Some 1%Z ∧
  (∀ cfg d u p,
     config = Ini cfg →
     defaults cfg !! "domain" = Some d →
     cfg_get_fallback cfg d "user" = Some u →
     cfg_get_fallback cfg d "api_token" = Some p →
     EditLabels.add_labels args ≠ [] ∨ EditLabels.remove_labels args ≠ [] →
     r.1 = Throw TypeError).
Proof.
  intros Hnone r.
  pose proof (main_without_domain_argument srv rounds args config w Hnone)
    as Hearly.
  pose proof (script_ends_early srv rounds args config w Hearly)
    as (Hstatus & _).
  destruct Hearly as (e & He & Hk & _).
  unfold EditLabels.untouched in Hk. injection Hk as Hreq Hn _ _.
  split_and!; eauto.
  intros cfg d u p -> Hd Hu Hp Hlabels. unfold r.
  rewrite main_credentials.
  unfold credentials. rewrite Hnone.
  cbn [isfile cfg_read lift given].
  erewrite (bind_returns (mret ())) by reflexivity.
  erewrite (bind_returns (mret cfg)) by reflexivity.
  rewrite cfg_get_default, Hd. cbn [lift].
  erewrite (bind_returns (mret d)) by reflexivity.
  rewrite Hu. erewrite (bind_returns (mret u)) by reflexivity.
  rewrite Hp. erewrite (bind_returns (mret p)) by reflexivity.
  by apply after_credentials_type_error.
Qed.

Lemma configuration_errors_exit_with_1_witness :
  (let args := {| DownloadIssues.atlassian_domain := None;
                  DownloadIssues.config_file := "config.ini";
                  DownloadIssues.dest_dir := "issues";
                  DownloadIssues.jql := None;
                  DownloadIssues.output_format := "text";
                  DownloadIssues.download_attachments := false |} in
   let r := DownloadIssues.script DownloadIssues.offline 5 args Missing
              (DownloadIssues.empty_world ()) in
   r.1 = Some 1%Z ∧
   (∃ line, DownloadIssues.stderr (DownloadIssues.log r.2) = [] ++ [line]) ∧
   DownloadIssues.requests (DownloadIssues.log r.2) = []) ∧
  (let args := {| EditLabels.dry_run := false;
                  EditLabels.atlassian_domain := Some "example.net";
                  EditLabels.config_file := "config.ini";
                  EditLabels.args_jql := None;
                  EditLabels.keys := ["K-1"];
                  EditLabels.add_labels := [];
                  EditLabels.remove_labels := [] |} in
   let r := EditLabels.script EditLabels.store 5 args example_config
              (EditLabels.empty_world []) in
   r.1 = Some 1%Z ∧
   (∃ line, EditLabels.stderr (EditLabels.log r.2) = [] ++ [line]) ∧
   EditLabels.requests (EditLabels.log r.2) = []).
Proof.
  split.
  - apply (proj1 configuration_errors_exit_with_1 unit DownloadIssues.offline
             5 _ Missing (DownloadIssues.empty_world ())).
    apply file_missing.
  - apply (proj2 configuration_errors_exit_with_1 _ EditLabels.store
             5 _ example_config (EditLabels.empty_world [])).
    right. split; reflexivity.
Defined.

Lemma label_tool_needs_domain_argument_witness :
  let args := {| EditLabels.dry_run := false;
                 EditLabels.atlassian_domain := None;
                 EditLabels.config_file := "config.ini";
                 EditLabels.args_jql := None;
                 EditLabels.keys := ["K-1"];
                 EditLabels.add_labels := ["c"];
                 EditLabels.remove_labels := [] |} in
  let w := EditLabels.empty_world
             [{| EditLabels.issue_key := "K-1";
                 EditLabels.issue_labels := ["a"] |}] in
  let r := EditLabels.main EditLabels.store 5 args example_config w in
  r.1 = Throw TypeError ∧
  EditLabels.requests (EditLabels.log r.2) = [] ∧
  EditLabels.num_issues r.2 = 0 ∧
  (EditLabels.script EditLabels.store 5 args example_config w).1 = Some 1%Z.
Proof.
  intros args w r.
  destruct (label_tool_needs_domain_argument EditLabels.store 5 args
              example_config w eq_refl)
    as (_ & Hreq & Hn & Hstatus & Herror).
  split_and!; [|exact Hreq|exact Hn|exact Hstatus].
  apply (Herror _ "example.net" "u" "t" eq_refl);
    [by vm_compute..|by left].
Defined.

End StartupClaims.

(** * Further properties *)

(** ** The computed label list: order, multiplicities, printed lines *)

Section LabelStructure.
Import EditLabels.

Implicit Types (S : gset string) (st : edit_state) (l add rem old : list string).

Lemma list_remove_app_l r l1 l2 :
  r ∈ l1 → list_remove r (l1 ++ l2) = list_remove r l1 ++ l2.
Proof.
  induction l1 as [|y l1 IH]; simpl; intros Hin.
  - by apply not_elem_of_nil in Hin.
  - case_decide; [done|].
    apply elem_of_cons in Hin as [?|Hin]; [done|].
    simpl. by rewrite IH.
Qed.

Lemma list_remove_sublist r l : list_remove r l `sublist_of` l.
Proof.
  induction l as [|y l IH]; simpl; [done|].
  case_decide; [by apply sublist_cons | by apply sublist_skip].
Qed.

(** The remove loop works on the part of the list that comes from the
    issue; what the add loop appended stays where it is. *)
Lemma remove_loop_kept S key st rem kept suffix :
  new_labels st = kept ++ suffix → Forall (λ a, a ∉ S) suffix →
  ∃ kept', kept' `sublist_of` kept ∧
           new_labels (foldl (remove_label S key) st rem) = kept' ++ suffix.
Proof.
  intros Hst Hsuffix. revert st kept Hst.
  induction rem as [|r rem IH]; intros st kept Hst; cbn [foldl].
  - by exists kept.
  - unfold remove_label at 2.
    destruct (decide (r ∈ S ∧ r ∈ new_labels st)) as [[HrS Hrn]|Hno].
    + assert (r ∈ kept) as Hkept.
      { rewrite Hst in Hrn. apply elem_of_app in Hrn as [?|Hrs]; [done|].
        rewrite Forall_forall in Hsuffix. by destruct (Hsuffix r Hrs). }
      destruct (IH {| new_labels := list_remove r (new_labels st);
                      update_labels := true;
                      printed := printed st ++
                        ["Remove label " +:+ Py.repr_str r
                         +:+ " from the issue " +:+ key] |}
                   (list_remove r kept)) as (kept' & Hsub & Heq).
      { cbn [new_labels]. by rewrite Hst, list_remove_app_l. }
      exists kept'. split; [|done].
      etrans; [exact Hsub|]. apply list_remove_sublist.
    + by apply IH.
Qed.

(** X1.  The computed list is what is left of the labels of the issue, in
    their order, followed by the add labels that were not on the issue, in
    the order of the arguments: the remove arguments never reach a label
    that was appended. *)
Theorem original_order_kept add rem old :
  ∃ kept,
    kept `sublist_of` old ∧
    compute_labels add rem old = kept ++ filter (λ a, a ∉ old) add.
Proof.
  unfold compute_labels, edit_labels.
  set (S := list_to_set old : gset string).
  set (st0 := {| new_labels := old; update_labels := false; printed := [] |}).
  assert (filter (λ a, a ∉ old) add = filter (λ a, a ∉ S) add) as ->.
  { apply list_filter_iff. intros a. unfold S.
    by rewrite elem_of_list_to_set. }
  apply remove_loop_kept.
  - by rewrite add_loop_new_labels.
  - apply Forall_forall. intros a Ha.
    by apply list_elem_of_filter in Ha as [? _].
Qed.

(** X2.  How often a label is in the computed list.  A label of the
    issue loses one occurrence for each time it is given to remove, down to
    none; a label that was not on the issue comes in once for each time it
    is given to add, and remove does not take it away. *)
Theorem label_multiplicities add rem old x :
  occurrences x (compute_labels add rem old) =
    if decide (x ∈ old)
    then occurrences x old - occurrences x rem
    else occurrences x add.
Proof. apply compute_labels_occurrences. Qed.

Lemma length_list_remove_S y l :
  y ∈ l → Datatypes.S (length (list_remove y l)) = length l.
Proof.
  induction l as [|z l IH]; simpl; intros Hin.
  - by apply not_elem_of_nil in Hin.
  - case_decide; [done|].
    apply elem_of_cons in Hin as [?|Hin]; [done|].
    simpl. by rewrite IH.
Qed.

Lemma add_loop_printed S key st add :
  printed (foldl (add_label S key) st add) =
    printed st ++
    map (λ a, "Add label " +:+ Py.repr_str a +:+ " to the issue " +:+ key)
        (filter (λ a, a ∉ S) add).
Proof.
  revert st. induction add as [|a add IH]; intros st; simpl.
  - by rewrite app_nil_r.
  - rewrite IH. unfold add_label. rewrite filter_cons.
    case_decide; simpl; [by rewrite <- app_assoc | done].
Qed.

Lemma remove_loop_printed S key st rem :
  ∃ removed,
    removed `sublist_of` rem ∧
    Forall (λ r, r ∈ S) removed ∧
    printed (foldl (remove_label S key) st rem) =
      printed st ++
      map (λ r, "Remove label " +:+ Py.repr_str r +:+ " from the issue "
                +:+ key) removed ∧
    length (new_labels (foldl (remove_label S key) st rem)) + length removed
      = length (new_labels st).
Proof.
  revert st. induction rem as [|r rem IH]; intros st; cbn [foldl].
  - exists []. split_and!; [done|done|by rewrite app_nil_r|simpl; lia].
  - unfold remove_label at 2 4.
    destruct (decide (r ∈ S ∧ r ∈ new_labels st)) as [[HrS Hrn]|Hno].
    + destruct (IH {| new_labels := list_remove r (new_labels st);
                      update_labels := true;
                      printed := printed st ++
                        ["Remove label " +:+ Py.repr_str r
                         +:+ " from the issue " +:+ key] |})
        as (removed & Hsub & Hall & Hprinted & Hlen).
      exists (r :: removed). split_and!.
      * by apply sublist_skip.
      * by apply Forall_cons.
      * rewrite Hprinted. cbn [printed map]. by rewrite <- app_assoc.
      * cbn [new_labels length] in *.
        pose proof (length_list_remove_S r (new_labels st) Hrn). lia.
    + destruct (IH st) as (removed & Hsub & Hall & Hprinted & Hlen).
      exists removed. split_and!; [by apply sublist_cons|done..].
Qed.

(** Each step of either loop raises the flag exactly when it prints. *)
Lemma add_loop_flag S key st add :
  (update_labels st = true ↔ printed st ≠ []) →
  let st' := foldl (add_label S key) st add in
  update_labels st' = true ↔ printed st' ≠ [].
Proof.
  revert st. induction add as [|a add IH]; intros st Hst; [done|].
  cbn [foldl]. apply IH. unfold add_label. case_decide; [|done].
  cbn [update_labels printed]. split; [|done].
  intros _ Heq. by apply app_eq_nil in Heq as [_ ?].
Qed.

Lemma remove_loop_flag S key st rem :
  (update_labels st = true ↔ printed st ≠ []) →
  let st' := foldl (remove_label S key) st rem in
  update_labels st' = true ↔ printed st' ≠ [].
Proof.
  revert st. induction rem as [|r rem IH]; intros st Hst; [done|].
  cbn [foldl]. apply IH. unfold remove_label. case_decide; [|done].
  cbn [update_labels printed]. split; [|done].
  intros _ Heq. by apply app_eq_nil in Heq as [_ ?].
Qed.

(** X3.  What is printed for an issue while its labels are computed: one
    [Add label] line for each add label that was not on the issue, in the
    order of the arguments, then one [Remove label] line for each removal,
    in the order of the arguments; each of those lines stands for one
    label more or one label less in the list, and the flag that makes the
    tool update the issue is raised exactly when a line was printed. *)
Theorem printed_lines_match_changes add rem key old :
  let st := edit_labels add rem key old in
  ∃ removed,
    removed `sublist_of` rem ∧
    Forall (λ r, r ∈ old) removed ∧
    printed st =
      map (λ a, "Add label " +:+ Py.repr_str a +:+ " to the issue " +:+ key)
          (filter (λ a, a ∉ old) add) ++
      map (λ r, "Remove label " +:+ Py.repr_str r +:+ " from the issue "
                +:+ key) removed ∧
    length (new_labels st) + length removed =
      length old + length (filter (λ a, a ∉ old) add) ∧
    (update_labels st = true ↔ printed st ≠ []).
Proof.
  intros st. unfold st, edit_labels.
  set (S := list_to_set old : gset string).
  set (st0 := {| new_labels := old; update_labels := false; printed := [] |}).
  assert (filter (λ a, a ∉ old) add = filter (λ a, a ∉ S) add) as ->.
  { apply list_filter_iff. intros a. unfold S.
    by rewrite elem_of_list_to_set. }
  destruct (remove_loop_printed S key (foldl (add_label S key) st0 add) rem)
    as (removed & Hsub & Hall & Hprinted & Hlen).
  exists removed. split_and!.
  - done.
  - eapply Forall_impl; [exact Hall|]. intros r Hr.
    by apply elem_of_list_to_set in Hr.
  - by rewrite Hprinted, add_loop_printed.
  - rewrite Hlen, add_loop_new_labels. cbn [new_labels].
    by rewrite length_app.
  - apply remove_loop_flag, add_loop_flag. by split.
Qed.

End LabelStructure.

(** ** Scripts: relations every run keeps *)

Section Steady.
Import Py.
Context {W : Type} (R : relation W) `{!PreOrder R}.

Lemma steady_ret {A} (a : A) : steady R (mret a).
Proof. intros w. simpl. reflexivity. Qed.

Lemma steady_raise {A} e : steady R (raise (A:=A) e).
Proof. intros w. simpl. reflexivity. Qed.

Lemma steady_unfinished {A} : steady R (unfinished (A:=A)).
Proof. intros w. simpl. reflexivity. Qed.

Lemma steady_lift {A} (r : result A) : steady R (lift r).
Proof. destruct r; [apply steady_ret | apply steady_raise]. Qed.

Lemma steady_bind {A B} (m : M W A) (f : A → M W B) :
  steady R m → (∀ a, steady R (f a)) → steady R (m ≫= f).
Proof.
  intros Hm Hf w. unfold mbind, M_bind. specialize (Hm w).
  destruct (m w) as [[a|e|] w']; simpl in *; [|done..].
  etrans; [exact Hm | apply Hf].
Qed.

Lemma steady_for_each {A} (body : A → M W unit) items :
  (∀ x, steady R (body x)) → steady R (for_each body items).
Proof.
  intros Hbody. induction items as [|x items IH]; simpl.
  - apply steady_ret.
  - apply steady_bind; [apply Hbody | intros _; apply IH].
Qed.

Lemma steady_lift_bind {A B} (r : result A) (f : A → M W B) :
  (∀ a, r = Ok a → steady R (f a)) → steady R (lift r ≫= f).
Proof.
  intros Hf. destruct r as [a|e]; [|apply steady_raise].
  intros w. by apply Hf.
Qed.

(** A script that returns after another one ran it to the end. *)
Lemma bind_Return {A B} (m : M W A) (f : A → M W B) w b w' :
  (m ≫= f) w = (Return b, w') →
  ∃ a w1, m w = (Return a, w1) ∧ f a w1 = (Return b, w').
Proof.
  unfold mbind, M_bind. destruct (m w) as [[a|e|] w1]; [eauto|done..].
Qed.

End Steady.

(** ** A configuration that has what the scripts need *)

Section Configured.
Import Py.
Context {W : Type} (eprint : string → M W unit).

Lemma credentials_ok {B} config_file domain_arg cfg d u p
    (rest : ConfigParser → string → string → string → M W B) w :
  effective_domain domain_arg cfg = Some d →
  cfg_get_fallback cfg d "user" = Some u →
  cfg_get_fallback cfg d "api_token" = Some p →
  credentials eprint config_file domain_arg (Ini cfg) rest w =
    rest cfg d u p w.
Proof.
  intros Hd Hu Hp. unfold credentials. cbn [isfile cfg_read lift].
  erewrite (bind_returns (mret ())) by done.
  erewrite (bind_returns (mret cfg)) by done.
  erewrite (bind_returns _ _ _ d).
  2: { unfold effective_domain in Hd.
       destruct domain_arg as [[|c a]|]; simplify_eq/=; try done;
         by rewrite cfg_get_default, Hd. }
  rewrite Hu. erewrite (bind_returns (mret u)) by done.
  rewrite Hp. by erewrite (bind_returns (mret p)) by done.
Qed.

End Configured.

(** ** The label editor: what a whole run asks for and counts *)

Section LabelRuns.
Import Py EditLabels.
Context {S : Type} (srv : Service S).

Implicit Types (w : World S) (args : Args) (jira : Jira).

Lemma lookups_snoc l e :
  lookups (l ++ [e]) =
    lookups l ++ match e with
                 | Sent _ (GetIssue key fields) => [(key, fields)]
                 | _ => []
                 end.
Proof.
  unfold lookups. rewrite omap_app. f_equal. by destruct e as [| |? []].
Qed.

Lemma searches_snoc l e :
  searches (l ++ [e]) =
    searches l ++ match e with
                  | Sent _ (Jql q start limit fields) =>
                      [(q, start, limit, fields)]
                  | _ => []
                  end.
Proof.
  unfold searches. rewrite omap_app. f_equal. by destruct e as [| |? []].
Qed.

Lemma lookups_app l1 l2 : lookups (l1 ++ l2) = lookups l1 ++ lookups l2.
Proof. apply omap_app. Qed.

Lemma searches_app l1 l2 : searches (l1 ++ l2) = searches l1 ++ searches l2.
Proof. apply omap_app. Qed.

Lemma lookups_issue_events args jira issue_dict :
  lookups (issue_events args jira issue_dict) = [] ∧
  searches (issue_events args jira issue_dict) = [].
Proof.
  unfold issue_events, lookups, searches. rewrite !omap_app.
  assert (∀ lines, omap (λ e, match e with
                              | Sent _ (GetIssue key fields) =>
                                  Some (key, fields)
                              | _ => None
                              end) (map Stdout lines) = []) as ->
    by (intros lines; by induction lines).
  assert (∀ lines, omap (λ e, match e with
                              | Sent _ (Jql q start limit fields) =>
                                  Some (q, start, limit, fields)
                              | _ => None
                              end) (map Stdout lines) = []) as ->
    by (intros lines; by induction lines).
  destruct (update_labels _); [|done]. by destruct (dry_run args).
Qed.

(** The world after one issue: only the answer to the update is the
    service's. *)
Lemma process_issue_world args jira issue_dict w :
  let st := edit_labels (add_labels args) (remove_labels args)
              (issue_key issue_dict) (issue_labels issue_dict) in
  ∃ s,
    (process_issue srv args jira issue_dict w).2 =
      {| service := s;
         log := log w ++ issue_events args jira issue_dict;
         num_issues := Datatypes.S (num_issues w);
         num_updated_issues :=
           num_updated_issues w + (if update_labels st then 1 else 0) |}.
Proof.
  intros st. subst st. unfold process_issue, issue_events.
  unfold mbind, M_bind. simpl. rewrite for_each_print.
  unfold with_log. simpl.
  destruct (update_labels _); simpl.
  - destruct (dry_run args); simpl.
    + eexists. f_equal; first [done | lia | by rewrite <- app_assoc].
    + unfold send. simpl.
      destruct (update_issue_field _ _ _ _ _) as [[[]|e] s]; simpl;
        eexists; (f_equal; first [done | lia | by rewrite <- !app_assoc]).
  - eexists. f_equal; first [done | lia | by rewrite app_nil_r].
Qed.

Lemma process_issue_counters args jira issue_dict w :
  let st := edit_labels (add_labels args) (remove_labels args)
              (issue_key issue_dict) (issue_labels issue_dict) in
  let w' := (process_issue srv args jira issue_dict w).2 in
  num_issues w' = Datatypes.S (num_issues w) ∧
  num_updated_issues w' =
    num_updated_issues w + (if update_labels st then 1 else 0).
Proof.
  intros st w'. subst st w'.
  destruct (process_issue_world args jira issue_dict w) as [s ->]. done.
Qed.

(** One issue is processed to the end when its update, if there is one,
    goes through. *)
Lemma process_issue_returns args jira issue_dict w :
  (∀ s key labels, (update_issue_field srv s jira key labels).1 = Ok ()) →
  (process_issue srv args jira issue_dict w).1 = Return ().
Proof.
  intros Hupdate. unfold process_issue.
  unfold mbind at 1, M_bind at 1. simpl.
  unfold mbind at 1, M_bind at 1. rewrite for_each_print.
  destruct (update_labels _); simpl; [|done].
  unfold mbind at 1, M_bind at 1. simpl.
  destruct (dry_run args); simpl; [done|].
  unfold mbind at 1, M_bind at 1. simpl. unfold send. simpl.
  match goal with
  | |- context [update_issue_field srv ?s ?j ?k ?l] =>
      specialize (Hupdate s k l);
      destruct (update_issue_field srv s j k l) as [[[]|e] s']
  end; simpl in *; done.
Qed.

Lemma returns_pair {W A} (m : M W A) (x : W) a :
  (m x).1 = Return a → m x = (Return a, (m x).2).
Proof. destruct (m x) as [r x']. simpl. by intros ->. Qed.

(** One round of the loop over the keys, when the issue is found. *)
Lemma key_found args jira key keys i s w :
  issue srv (service w) jira key "*all" = (Ok i, s) →
  jira_get_issues_from_keys srv jira (key :: keys)
    (process_issue srv args jira) w =
  (process_issue srv args jira i ≫= λ _,
   jira_get_issues_from_keys srv jira keys (process_issue srv args jira))
    {| service := s; log := log w ++ [Sent jira (GetIssue key "*all")];
       num_issues := num_issues w;
       num_updated_issues := num_updated_issues w |}.
Proof.
  intros Hissue. unfold jira_get_issues_from_keys. cbn [for_each].
  unfold mbind, M_bind, send. by rewrite Hissue.
Qed.

(** The loop over the keys when every lookup is answered. *)
Lemma keys_loop args jira keys w :
  (∀ s key fields, key ∈ keys →
     ∃ i, (issue srv s jira key fields).1 = Ok i) →
  (∀ s key labels, (update_issue_field srv s jira key labels).1 = Ok ()) →
  let r := jira_get_issues_from_keys srv jira keys
             (process_issue srv args jira) w in
  r.1 = Return () ∧
  lookups (log r.2) = lookups (log w) ++ map (λ k, (k, "*all")) keys ∧
  searches (log r.2) = searches (log w) ∧
  num_issues r.2 = num_issues w + length keys.
Proof.
  intros Hissue Hupdate. revert w.
  induction keys as [|key keys IH]; intros w.
  - simpl. by rewrite app_nil_r, Nat.add_0_r.
  - destruct (Hissue (service w) key "*all") as [i Hi];
      [apply list_elem_of_here|].
    destruct (issue srv (service w) jira key "*all") as [a s] eqn:Hfound.
    simpl in Hi. subst a.
    cbv zeta. rewrite (key_found _ _ _ _ _ _ _ Hfound).
    set (w1 := {| service := s |}).
    rewrite (bind_returns _ _ _ _ _
               (returns_pair _ _ _
                  (process_issue_returns args jira i w1 Hupdate))).
    destruct (process_issue_world args jira i w1) as [s2 ->].
    destruct (lookups_issue_events args jira i) as [Hl Hs].
    destruct (IH (λ s key fields Hin,
                    Hissue s key fields (list_elem_of_further _ _ _ Hin))
                 {| service := s2;
                    log := log w1 ++ issue_events args jira i;
                    num_issues := Datatypes.S (num_issues w1);
                    num_updated_issues := num_updated_issues w1 +
                      (if update_labels
                            (edit_labels (add_labels args) (remove_labels args)
                               (issue_key i) (issue_labels i))
                       then 1 else 0) |})
      as (Hr & Hlook & Hsearch & Hn).
    split_and!; [done|..].
    + rewrite Hlook. cbn [log w1 map].
      by rewrite lookups_app, Hl, lookups_snoc, app_nil_r, <- app_assoc.
    + rewrite Hsearch. cbn [log w1].
      by rewrite searches_app, Hs, searches_snoc, !app_nil_r.
    + rewrite Hn. cbn [num_issues w1 length]. lia.
Qed.

(** The loop over the keys when a lookup fails: the exception ends the
    loop there. *)
Lemma keys_loop_fails args jira ks1 k ks2 e w :
  (∀ s key fields, key ∈ ks1 →
     ∃ i, (issue srv s jira key fields).1 = Ok i) →
  (∀ s fields, (issue srv s jira k fields).1 = Raise e) →
  (∀ s key labels, (update_issue_field srv s jira key labels).1 = Ok ()) →
  let r := jira_get_issues_from_keys srv jira (ks1 ++ k :: ks2)
             (process_issue srv args jira) w in
  r.1 = Throw e ∧
  lookups (log r.2) =
    lookups (log w) ++ map (λ k, (k, "*all")) (ks1 ++ [k]) ∧
  searches (log r.2) = searches (log w) ∧
  num_issues r.2 = num_issues w + length ks1.
Proof.
  intros Hissue Hfail Hupdate. revert w.
  induction ks1 as [|key ks1 IH]; intros w.
  - cbn [app length]. unfold jira_get_issues_from_keys. cbn [for_each].
    unfold mbind, M_bind, send.
    specialize (Hfail (service w) "*all").
    destruct (issue srv (service w) jira k "*all") as [a s].
    simpl in Hfail. subst a. cbn [fst snd log num_issues map].
    by rewrite lookups_snoc, searches_snoc, app_nil_r, Nat.add_0_r.
  - destruct (Hissue (service w) key "*all") as [i Hi];
      [apply list_elem_of_here|].
    destruct (issue srv (service w) jira key "*all") as [a s] eqn:Hfound.
    simpl in Hi. subst a.
    cbv zeta. rewrite <- app_comm_cons.
    rewrite (key_found _ _ _ _ _ _ _ Hfound).
    set (w1 := {| service := s |}).
    rewrite (bind_returns _ _ _ _ _
               (returns_pair _ _ _
                  (process_issue_returns args jira i w1 Hupdate))).
    destruct (process_issue_world args jira i w1) as [s2 ->].
    destruct (lookups_issue_events args jira i) as [Hl Hs].
    destruct (IH (λ s key fields Hin,
                    Hissue s key fields (list_elem_of_further _ _ _ Hin))
                 {| service := s2;
                    log := log w1 ++ issue_events args jira i;
                    num_issues := Datatypes.S (num_issues w1);
                    num_updated_issues := num_updated_issues w1 +
                      (if update_labels
                            (edit_labels (add_labels args) (remove_labels args)
                               (issue_key i) (issue_labels i))
                       then 1 else 0) |})
      as (Hr & Hlook & Hsearch & Hn).
    split_and!; [done|..].
    + rewrite Hlook. cbn [log w1 map app].
      by rewrite lookups_app, Hl, lookups_snoc, app_nil_r, <- app_assoc.
    + rewrite Hsearch. cbn [log w1].
      by rewrite searches_app, Hs, searches_snoc, !app_nil_r.
    + rewrite Hn. cbn [num_issues w1 length]. lia.
Qed.

(** With a configuration that has the credentials, [main] is the rest
    of the script. *)
Lemma main_configured rounds args cfg d u p w :
  effective_domain (atlassian_domain args) cfg = Some d →
  cfg_get_fallback cfg d "user" = Some u →
  cfg_get_fallback cfg d "api_token" = Some p →
  main srv rounds args (Ini cfg) w =
    after_credentials srv rounds args d u p w.
Proof.
  intros Hd Hu Hp. rewrite main_credentials.
  by rewrite (credentials_ok _ _ _ _ _ _ _ _ _ Hd Hu Hp).
Qed.

Lemma four_prints {B} a b c d (m : M (World S) B) w :
  (print a ≫= λ _, print b ≫= λ _, print c ≫= λ _, print d ≫= λ _, m) w =
    m (with_log w (log w ++ map Stdout [a; b; c; d])).
Proof.
  unfold mbind, M_bind, print, emit, with_log. simpl.
  by rewrite <- !app_assoc.
Qed.

Lemma labels_given {B} (add rem : list string) (m : M (World S) B) w :
  add ≠ [] ∨ rem ≠ [] →
  (match add, rem with
   | [], [] =>
       eprint "Error: no labels specified for adding and/or removing";;
       raise (SystemExit 1)
   | _, _ => mret ()
   end ≫= λ _, m) w = m w.
Proof. intros [?|?]; by destruct add, rem. Qed.

(** With labels to work on and the domain argument, the script gets to
    its two loops, having printed the four lines about its arguments. *)
Lemma after_credentials_loops rounds args d u p a w :
  add_labels args ≠ [] ∨ remove_labels args ≠ [] →
  atlassian_domain args = Some a →
  ∃ lines,
    after_credentials srv rounds args d u p w =
      (let jira := {| url := "https://" +:+ a; username := u;
                      password := p |} in
       jira_get_issues_from_keys srv jira (keys args)
         (process_issue srv args jira);;
       jira_get_issues
         (λ q start limit,
            send jira (Jql q start limit "labels")
              (λ s, jql srv s jira q start limit "labels"))
         (process_issue srv args jira) (args_jql args) rounds;;
       '(n, updated) ← counters;
       print ("Processed " +:+ pretty n +:+ " issue(s)");;
       if dry_run args
       then print ("DRY RUN: I would have updated " +:+ pretty updated
                   +:+ " issue(s)")
       else print ("Updated " +:+ pretty updated +:+ " issue(s)"))
      (with_log w (log w ++ map Stdout lines)).
Proof.
  intros Hlabels Ha. eexists [_; _; _; _].
  unfold after_credentials.
  rewrite four_prints, labels_given by done. rewrite Ha.
  by erewrite (bind_returns (mret _)) by reflexivity.
Qed.

(** The end of a run: the two lines that report the counters. *)
Lemma summary_lines args w :
  ('(n, updated) ← counters;
   print ("Processed " +:+ pretty n +:+ " issue(s)");;
   if dry_run args
   then print ("DRY RUN: I would have updated " +:+ pretty updated
               +:+ " issue(s)")
   else print ("Updated " +:+ pretty updated +:+ " issue(s)")) w =
  (Return (),
   with_log w
     (log w ++
      [Stdout ("Processed " +:+ pretty (num_issues w) +:+ " issue(s)");
       Stdout (if dry_run args
               then "DRY RUN: I would have updated "
                    +:+ pretty (num_updated_issues w) +:+ " issue(s)"
               else "Updated " +:+ pretty (num_updated_issues w)
                    +:+ " issue(s)")])).
Proof.
  unfold mbind, M_bind, counters, print, emit, with_log. simpl.
  destruct (dry_run args); simpl; by rewrite <- !app_assoc.
Qed.

Lemma lookups_stdout lines :
  lookups (map Stdout lines) = [] ∧ searches (map Stdout lines) = [].
Proof. split; by induction lines. Qed.

Lemma jira_get_issues_no_query {W} search (body : Issue → M W unit) q rounds :
  given q = None → jira_get_issues search body q rounds = mret ().
Proof. by destruct q as [[|c q]|]. Qed.

(** X4.  A run of the label tool with issue keys and no query, against a
    service that answers every lookup and accepts every update: the
    script returns, it has asked for each key once, in the order of the
    arguments and with all fields, it has sent no search, and it has
    counted one issue per key. *)
Theorem keys_are_looked_up_in_order rounds args cfg d u p a w :
  effective_domain (atlassian_domain args) cfg = Some d →
  cfg_get_fallback cfg d "user" = Some u →
  cfg_get_fallback cfg d "api_token" = Some p →
  atlassian_domain args = Some a →
  add_labels args ≠ [] ∨ remove_labels args ≠ [] →
  given (args_jql args) = None →
  (∀ s jira key fields, key ∈ keys args →
     ∃ i, (issue srv s jira key fields).1 = Ok i) →
  (∀ s jira key labels, (update_issue_field srv s jira key labels).1 = Ok ()) →
  let r := main srv rounds args (Ini cfg) w in
  r.1 = Return () ∧
  lookups (log r.2) = lookups (log w) ++ map (λ k, (k, "*all")) (keys args) ∧
  searches (log r.2) = searches (log w) ∧
  num_issues r.2 = num_issues w + length (keys args).
Proof.
  intros Hd Hu Hp Ha Hlabels Hjql Hissue Hupdate r. subst r.
  rewrite (main_configured _ _ _ _ _ _ _ Hd Hu Hp).
  destruct (after_credentials_loops rounds args d u p a w Hlabels Ha)
    as [lines ->].
  cbv zeta. set (jira := {| url := _ |}).
  set (w0 := with_log w _).
  destruct (keys_loop args jira (keys args) w0 (λ s, Hissue s jira)
              (λ s, Hupdate s jira)) as (Hr & Hlook & Hsearch & Hn).
  rewrite (bind_returns _ _ _ _ _ (returns_pair _ _ _ Hr)).
  rewrite (jira_get_issues_no_query _ _ _ _ Hjql).
  erewrite (bind_returns (mret ())) by reflexivity.
  rewrite summary_lines. cbn [fst snd with_log log num_issues].
  destruct (lookups_stdout lines) as [Hl Hs].
  rewrite lookups_app, searches_app. cbn [lookups searches omap].
  rewrite !app_nil_r, Hlook, Hsearch, Hn. unfold w0. cbn [with_log log num_issues].
  by rewrite lookups_app, searches_app, Hl, Hs, !app_nil_r.
Qed.

Lemma throws_pair {W A} (m : M W A) (x : W) e :
  (m x).1 = Throw e → m x = (Throw e, (m x).2).
Proof. destruct (m x) as [r x']. simpl. by intros ->. Qed.

Lemma bind_throws {W A B} (m : M W A) (f : A → M W B) (x x' : W) e :
  m x = (Throw e, x') → (m ≫= f) x = (Throw e, x').
Proof. intros H. unfold mbind, M_bind. by rewrite H. Qed.

(** X5.  When the lookup of a key fails, the exception ends the run: the
    keys before it have been looked up and counted, the keys after it are
    never asked for, and no search is sent. *)
Theorem failed_lookup_ends_the_run rounds args cfg d u p a ks1 k ks2 e w :
  effective_domain (atlassian_domain args) cfg = Some d →
  cfg_get_fallback cfg d "user" = Some u →
  cfg_get_fallback cfg d "api_token" = Some p →
  atlassian_domain args = Some a →
  add_labels args ≠ [] ∨ remove_labels args ≠ [] →
  keys args = ks1 ++ k :: ks2 →
  (∀ s jira key fields, key ∈ ks1 →
     ∃ i, (issue srv s jira key fields).1 = Ok i) →
  (∀ s jira fields, (issue srv s jira k fields).1 = Raise e) →
  (∀ s jira key labels, (update_issue_field srv s jira key labels).1 = Ok ()) →
  let r := main srv rounds args (Ini cfg) w in
  r.1 = Throw e ∧
  lookups (log r.2) =
    lookups (log w) ++ map (λ k, (k, "*all")) (ks1 ++ [k]) ∧
  searches (log r.2) = searches (log w) ∧
  num_issues r.2 = num_issues w + length ks1.
Proof.
  intros Hd Hu Hp Ha Hlabels Hkeys Hissue Hfail Hupdate r. subst r.
  rewrite (main_configured _ _ _ _ _ _ _ Hd Hu Hp).
  destruct (after_credentials_loops rounds args d u p a w Hlabels Ha)
    as [lines ->].
  cbv zeta. set (jira := {| url := _ |}).
  set (w0 := with_log w _). rewrite Hkeys.
  destruct (keys_loop_fails args jira ks1 k ks2 e w0 (λ s, Hissue s jira)
              (λ s, Hfail s jira) (λ s, Hupdate s jira))
    as (Hr & Hlook & Hsearch & Hn).
  rewrite (bind_throws _ _ _ _ _ (throws_pair _ _ _ Hr)).
  cbn [fst snd]. rewrite Hlook, Hsearch, Hn.
  destruct (lookups_stdout lines) as [Hl Hs].
  unfold w0. cbn [with_log log num_issues].
  by rewrite lookups_app, searches_app, Hl, Hs, !app_nil_r.
Qed.

(** X6.  A run of the label tool that returns has ended with the two
    lines that report its counters: the issues it processed, and the
    issues it updated or, in a dry run, would have updated. *)
Theorem summary_reports_the_counters rounds args config w w' :
  main srv rounds args config w = (Return (), w') →
  ∃ l,
    log w' =
      l ++
      [Stdout ("Processed " +:+ pretty (num_issues w') +:+ " issue(s)");
       Stdout (if dry_run args
               then "DRY RUN: I would have updated "
                    +:+ pretty (num_updated_issues w') +:+ " issue(s)"
               else "Updated " +:+ pretty (num_updated_issues w')
                    +:+ " issue(s)")].
Proof.
  intros Hrun. rewrite main_credentials in Hrun.
  destruct (credentials_cases eprint untouched errors
              (λ _ _, eq_refl) (eprint_untouched (S:=S))
              (eprint_errors (S:=S))
              (config_file args) (atlassian_domain args) config
              (λ _, after_credentials srv rounds args) w)
    as [(e & He & _)|(cfg & d & u & p & _ & _ & _ & _ & Heq)].
  { rewrite Hrun in He. done. }
  rewrite Heq in Hrun. unfold after_credentials in Hrun.
  do 8 (apply bind_Return in Hrun as (? & ? & _ & Hrun); cbv beta zeta in Hrun).
  rewrite summary_lines in Hrun. injection Hrun as <-.
  eexists. reflexivity.
Qed.

Local Instance counted_preorder : PreOrder (counted (S:=S)).
Proof.
  split.
  - intros w. unfold counted. lia.
  - intros w1 w2 w3. unfold counted. lia.
Qed.

Lemma counted_same w w' :
  num_issues w' = num_issues w →
  num_updated_issues w' = num_updated_issues w →
  counted w w'.
Proof. unfold counted. lia. Qed.

Lemma steady_emit e : steady counted (emit (S:=S) e).
Proof. intros w. by apply counted_same. Qed.

Lemma steady_send {A} jira r (answer : S → result A * S) :
  steady counted (send jira r answer).
Proof.
  intros w. unfold send. destruct (answer (service w)) as [[a|e] s];
    by apply counted_same.
Qed.

Lemma steady_counters : steady counted (counters (S:=S)).
Proof. intros w. by apply counted_same. Qed.

Lemma steady_process_issue args jira issue_dict :
  steady counted (process_issue srv args jira issue_dict).
Proof.
  intros w.
  destruct (process_issue_counters args jira issue_dict w) as [Hn Hu].
  cbv zeta in Hu. unfold counted. rewrite Hn, Hu.
  destruct (update_labels _); lia.
Qed.

Lemma steady_jira_get_issues (R : relation (World S)) `{!PreOrder R}
    (search : string → nat → nat → M (World S) (list Issue)) body q rounds :
  (∀ q start limit, steady R (search q start limit)) →
  (∀ i, steady R (body i)) →
  steady R (jira_get_issues search body q rounds).
Proof.
  intros Hsearch Hbody. unfold jira_get_issues.
  destruct q as [[|c q]|]; try apply steady_ret; try done.
  generalize 0. induction rounds as [|rounds IH]; intros start; simpl.
  - by apply steady_unfinished.
  - apply steady_bind; [done|apply Hsearch|]. intros issues.
    apply steady_bind; [done| |].
    + case_decide; [by apply steady_for_each | by apply steady_ret].
    + intros _. case_decide; [by apply steady_ret | apply IH].
Qed.

(** X7.  Whatever the arguments, the configuration and the service, and
    however the run ends, the two counters of the label tool only go up,
    and the count of updated issues grows by no more than the count of
    processed issues: the summary never reports more updated issues than
    processed ones. *)
Theorem counters_move_together rounds args config w :
  counted w (main srv rounds args config w).2.
Proof.
  revert w. change (steady counted (main srv rounds args config)).
  unfold main, print, eprint, jira_get_issues_from_keys.
  repeat first
    [ apply steady_process_issue
    | apply steady_counters
    | apply steady_emit
    | apply steady_send
    | apply steady_ret; apply counted_preorder
    | apply steady_raise; apply counted_preorder
    | apply steady_lift; apply counted_preorder
    | apply steady_jira_get_issues; [apply counted_preorder|intros ? ? ?|intros ?]
    | apply steady_for_each; [apply counted_preorder|intros ?]
    | apply steady_bind; [apply counted_preorder| |intros ?]
    | match goal with
      | |- steady _ (match ?x with _ => _ end) => destruct x
      | |- steady _ (let '(_, _) := ?x in _) => destruct x
      end ].
Qed.

(** X8.  Processing an issue sends an update call exactly when the run
    is not a dry run and the computed label list differs from the list
    on the issue; there is one call then, and it carries the key of the
    issue and the whole computed list. *)
Theorem one_update_with_the_whole_list args jira issue_dict w :
  let old := issue_labels issue_dict in
  let new := compute_labels (add_labels args) (remove_labels args) old in
  update_calls (log (process_issue srv args jira issue_dict w).2) =
    update_calls (log w) ++
    if decide (dry_run args = false ∧ new ≠ old)
    then [(issue_key issue_dict, new)] else [].
Proof.
  intros old new.
  rewrite process_issue_log, update_calls_app, update_calls_issue_events.
  cbv zeta. f_equal.
  destruct (edit_labels_key (add_labels args) (remove_labels args)
              (issue_key issue_dict) old) as [Hnew _].
  fold old. rewrite Hnew. fold new.
  pose proof (update_labels_iff (add_labels args) (remove_labels args)
                (issue_key issue_dict) old) as Hiff.
  fold new in Hiff.
  destruct (decide (dry_run args = false ∧ new ≠ old)) as [[-> Hne]|Hcase].
  - apply Hiff in Hne. by rewrite Hne.
  - destruct (update_labels _), (dry_run args); try done.
    destruct Hcase. split; [done|]. by apply Hiff.
Qed.

Lemma reads_app l1 l2 : reads (l1 ++ l2) = reads l1 ++ reads l2.
Proof. apply omap_app. Qed.

Lemma reads_issue_events args jira issue_dict :
  reads (issue_events args jira issue_dict) = [].
Proof.
  unfold issue_events. rewrite reads_app.
  assert (∀ lines, reads (map Stdout lines) = []) as ->
    by (intros lines; by induction lines).
  destruct (update_labels _); [|done]. by destruct (dry_run args).
Qed.

(** The loop over the keys, by the calls that read. *)
Lemma keys_loop_reads args jira keys w :
  (∀ s key fields, key ∈ keys →
     ∃ i, (issue srv s jira key fields).1 = Ok i) →
  (∀ s key labels, (update_issue_field srv s jira key labels).1 = Ok ()) →
  let r := jira_get_issues_from_keys srv jira keys
             (process_issue srv args jira) w in
  r.1 = Return () ∧
  reads (log r.2) = reads (log w) ++ map (λ k, GetIssue k "*all") keys ∧
  num_issues r.2 = num_issues w + length keys.
Proof.
  intros Hissue Hupdate. revert w.
  induction keys as [|key keys IH]; intros w.
  - simpl. by rewrite app_nil_r, Nat.add_0_r.
  - destruct (Hissue (service w) key "*all") as [i Hi];
      [apply list_elem_of_here|].
    destruct (issue srv (service w) jira key "*all") as [a s] eqn:Hfound.
    simpl in Hi. subst a.
    cbv zeta. rewrite (key_found _ _ _ _ _ _ _ Hfound).
    set (w1 := {| service := s |}).
    rewrite (bind_returns _ _ _ _ _
               (returns_pair _ _ _
                  (process_issue_returns args jira i w1 Hupdate))).
    destruct (process_issue_world args jira i w1) as [s2 ->].
    destruct (IH (λ s key fields Hin,
                    Hissue s key fields (list_elem_of_further _ _ _ Hin))
                 {| service := s2;
                    log := log w1 ++ issue_events args jira i;
                    num_issues := Datatypes.S (num_issues w1);
                    num_updated_issues := num_updated_issues w1 +
                      (if update_labels
                            (edit_labels (add_labels args) (remove_labels args)
                               (issue_key i) (issue_labels i))
                       then 1 else 0) |})
      as (Hr & Hreads & Hn).
    split_and!; [done|..].
    + rewrite Hreads. cbn [log w1 map].
      by rewrite !reads_app, reads_issue_events, app_nil_r, <- app_assoc.
    + rewrite Hn. cbn [num_issues w1 length]. lia.
Qed.

(** A search that finds nothing: one request, and the loop is over. *)
Lemma search_finds_nothing args jira c q rounds w :
  (∀ s q start limit fields,
     (jql srv s jira q start limit fields).1 = Ok []) →
  ∃ s,
    jira_get_issues
      (λ q start limit,
         send jira (Jql q start limit "labels")
           (λ s, jql srv s jira q start limit "labels"))
      (process_issue srv args jira) (Some (String c q)) (Datatypes.S rounds) w =
    (Return (),
     {| service := s;
        log := log w ++ [Sent jira (Jql (String c q) 0 200 "labels")];
        num_issues := num_issues w;
        num_updated_issues := num_updated_issues w |}).
Proof.
  intros Hsearch. cbn [jira_get_issues jira_get_issues_from].
  change limit with 200.
  specialize (Hsearch (service w) (String c q) 0 200 "labels").
  unfold mbind, M_bind, send.
  destruct (jql srv (service w) jira (String c q) 0 200 "labels")
    as [answer s].
  simpl in Hsearch. subst answer. exists s. by simpl.
Qed.

(** X28.  With both issue keys and a query, the label tool works
    through the keys first and searches afterwards.  Against a service
    that answers every lookup, accepts every update and finds nothing by
    search, the calls that read are, in this order: one lookup per key,
    with all fields, and one search, from offset 0, for 200 issues, with
    the field [labels] only. *)
Theorem search_follows_the_keys rounds args cfg d u p a query w :
  effective_domain (atlassian_domain args) cfg = Some d →
  cfg_get_fallback cfg d "user" = Some u →
  cfg_get_fallback cfg d "api_token" = Some p →
  atlassian_domain args = Some a →
  add_labels args ≠ [] ∨ remove_labels args ≠ [] →
  args_jql args = Some query → query ≠ "" →
  (∀ s jira key fields, key ∈ keys args →
     ∃ i, (issue srv s jira key fields).1 = Ok i) →
  (∀ s jira key labels, (update_issue_field srv s jira key labels).1 = Ok ()) →
  (∀ s jira q start limit fields,
     (jql srv s jira q start limit fields).1 = Ok []) →
  let r := main srv (Datatypes.S rounds) args (Ini cfg) w in
  r.1 = Return () ∧
  reads (log r.2) =
    reads (log w) ++ map (λ k, GetIssue k "*all") (keys args)
    ++ [Jql query 0 200 "labels"] ∧
  num_issues r.2 = num_issues w + length (keys args).
Proof.
  intros Hd Hu Hp Ha Hlabels Hjql Hquery Hissue Hupdate Hsearch r. subst r.
  destruct query as [|c q]; [done|].
  rewrite (main_configured _ _ _ _ _ _ _ Hd Hu Hp).
  destruct (after_credentials_loops (Datatypes.S rounds) args d u p a w
              Hlabels Ha) as [lines ->].
  cbv zeta. set (jira := {| url := _ |}).
  set (w0 := with_log w _).
  destruct (keys_loop_reads args jira (keys args) w0 (λ s, Hissue s jira)
              (λ s, Hupdate s jira)) as (Hr & Hreads & Hn).
  rewrite (bind_returns _ _ _ _ _ (returns_pair _ _ _ Hr)).
  set (w1 := (jira_get_issues_from_keys _ _ _ _ w0).2) in *.
  rewrite Hjql.
  destruct (search_finds_nothing args jira c q rounds w1
              (λ s, Hsearch s jira)) as [s1 Hs].
  rewrite (bind_returns _ _ _ _ _ Hs).
  rewrite summary_lines. cbn [fst snd with_log log num_issues].
  split_and!; [done| |done].
  rewrite !reads_app, Hreads. unfold w0. cbn [with_log log].
  rewrite reads_app.
  assert (∀ ls, reads (map Stdout ls) = []) as ->
    by (intros ls; by induction ls).
  by rewrite app_nil_r, <- !app_assoc.
Qed.

End LabelRuns.

Section LabelRunWitnesses.
Import Py EditLabels.

Lemma keys_are_looked_up_in_order_witness :
  let args := {| dry_run := false; atlassian_domain := Some "example.net";
                 config_file := "config.ini"; args_jql := None;
                 keys := ["K-1"; "K-2"]; add_labels := ["c"];
                 remove_labels := [] |} in
  let cfg := {| defaults := {[ "domain" := "example.net" ]};
                sections := {[ "example.net" :=
                                 {[ "user" := "u"; "api_token" := "t" ]} ]} |} in
  let r := main (fixed ["K-1"; "K-2"] ["a"]) 5 args (Ini cfg)
             (empty_world ()) in
  r.1 = Return () ∧
  lookups (log r.2) = [] ++ map (λ k, (k, "*all")) ["K-1"; "K-2"] ∧
  searches (log r.2) = [] ∧
  num_issues r.2 = 0 + 2.
Proof.
  intros args cfg.
  apply (keys_are_looked_up_in_order (fixed ["K-1"; "K-2"] ["a"]) 5 args cfg
           "example.net" "u" "t" "example.net" (empty_world ())).
  - by vm_compute.
  - by vm_compute.
  - by vm_compute.
  - done.
  - by left.
  - done.
  - intros s jira key fields Hin. simpl. rewrite decide_True by done. eauto.
  - done.
Defined.

Lemma failed_lookup_ends_the_run_witness :
  let args := {| dry_run := false; atlassian_domain := Some "example.net";
                 config_file := "config.ini"; args_jql := None;
                 keys := ["K-1"; "K-9"; "K-2"]; add_labels := ["c"];
                 remove_labels := [] |} in
  let cfg := {| defaults := {[ "domain" := "example.net" ]};
                sections := {[ "example.net" :=
                                 {[ "user" := "u"; "api_token" := "t" ]} ]} |} in
  let r := main (fixed ["K-1"; "K-2"] ["a"]) 5 args (Ini cfg)
             (empty_world ()) in
  r.1 = Throw HTTPError ∧
  lookups (log r.2) = [] ++ map (λ k, (k, "*all")) (["K-1"] ++ ["K-9"]) ∧
  searches (log r.2) = [] ∧
  num_issues r.2 = 0 + 1.
Proof.
  intros args cfg.
  apply (failed_lookup_ends_the_run (fixed ["K-1"; "K-2"] ["a"]) 5 args cfg
           "example.net" "u" "t" "example.net" ["K-1"] "K-9" ["K-2"]
           HTTPError (empty_world ())).
  - by vm_compute.
  - by vm_compute.
  - by vm_compute.
  - done.
  - by left.
  - done.
  - intros s jira key fields Hin%list_elem_of_singleton. subst key.
    by eexists.
  - done.
  - done.
Defined.

Lemma summary_reports_the_counters_witness :
  let args := {| dry_run := true; atlassian_domain := Some "example.net";
                 config_file := "config.ini"; args_jql := None;
                 keys := ["K-1"; "K-2"]; add_labels := ["c"];
                 remove_labels := [] |} in
  let w' := (main (fixed ["K-1"; "K-2"] ["a"]) 5 args example_config
               (empty_world ())).2 in
  ∃ l,
    log w' =
      l ++ [Stdout ("Processed " +:+ pretty (num_issues w') +:+ " issue(s)");
            Stdout ("DRY RUN: I would have updated "
                    +:+ pretty (num_updated_issues w') +:+ " issue(s)")].
Proof.
  intros args w'.
  apply (summary_reports_the_counters (fixed ["K-1"; "K-2"] ["a"]) 5 args
           example_config (empty_world ()) w').
  by vm_compute.
Defined.

Lemma search_follows_the_keys_witness :
  let args := {| dry_run := false; atlassian_domain := Some "example.net";
                 config_file := "config.ini";
                 args_jql := Some "project = X";
                 keys := ["K-1"; "K-2"]; add_labels := ["c"];
                 remove_labels := [] |} in
  let cfg := {| defaults := {[ "domain" := "example.net" ]};
                sections := {[ "example.net" :=
                                 {[ "user" := "u"; "api_token" := "t" ]} ]} |} in
  let r := main (fixed ["K-1"; "K-2"] ["a"]) 1 args (Ini cfg)
             (empty_world ()) in
  r.1 = Return () ∧
  reads (log r.2) =
    [] ++ map (λ k, GetIssue k "*all") ["K-1"; "K-2"]
    ++ [Jql "project = X" 0 200 "labels"] ∧
  num_issues r.2 = 0 + 2.
Proof.
  intros args cfg.
  apply (search_follows_the_keys (fixed ["K-1"; "K-2"] ["a"]) 0 args cfg
           "example.net" "u" "t" "example.net" "project = X"
           (empty_world ())).
  - by vm_compute.
  - by vm_compute.
  - by vm_compute.
  - done.
  - by left.
  - done.
  - done.
  - intros s jira key fields Hin. simpl. rewrite decide_True by done. eauto.
  - done.
  - done.
Defined.

End LabelRunWitnesses.

(** ** The downloader: the structure written for an issue *)

Section StructureShape.
Import Py DownloadIssues.

Implicit Types (entries items : list (string * value)) (v : value).

Lemma dict_lookup_None entries key :
  dict_lookup entries key = None ↔ key ∉ dict_keys entries.
Proof.
  unfold dict_lookup, dict_keys.
  induction entries as [|[k v] entries IH]; simpl.
  - split; [intros _; apply not_elem_of_nil | done].
  - rewrite not_elem_of_cons. case_decide as Hk.
    + split; [done|]. intros [Hne _]. by destruct Hne.
    + rewrite IH. split; [by intros ?; split; [intros ->|] | by intros [_ ?]].
Qed.

(** The structure of an issue: its keys, in order. *)
Lemma to_struct_keys i v :
  JiraIssue.to_struct i = Ok v →
  ∃ entries,
    v = VDict entries ∧
    dict_keys entries =
      ["type"; "key"; "summary"; "description"; "created"; "labels";
       "updated"; "resolutiondate"]
      ++ (if have_data (JiraIssue.parent_issue i) then ["parent"] else [])
      ++ (if have_data (JiraIssue.resolution_object i)
          then ["resolution"] else [])
      ++ (if have_data (JiraIssue.comments i) then ["comments"] else []).
Proof.
  unfold JiraIssue.to_struct. intros H.
  do 7 (apply bind_Ok in H as (? & _ & H)).
  apply bind_Ok in H as (res1 & H1 & H).
  apply bind_Ok in H as (res2 & H2 & H).
  apply bind_Ok in H as (res3 & H3 & H).
  injection H as <-. eexists. split; [done|].
  destruct (have_data (JiraIssue.parent_issue i)),
    (have_data (JiraIssue.resolution_object i)),
    (have_data (JiraIssue.comments i));
    repeat match goal with
      | H : _ ≫= _ = Ok _ |- _ => apply bind_Ok in H as (? & _ & [= <-])
      | H : Ok _ = Ok _ |- _ => injection H as <-
      end;
    done.
Qed.

Lemma create_object_from_field_fetched {A} items (cls : value → result A)
    key m :
  create_object_from_field (VDict items) cls key = Ok m →
  have_data m = fetched items key.
Proof.
  unfold create_object_from_field, fetched. cbn [py_get mbind result_bind].
  destruct (dict_get items key VNotDownloaded); simpl;
    try (by intros [= <-]);
    destruct (cls _); simpl; by intros [= <-].
Qed.

(** X9.  The structure written for an issue is a dict with the keys
    [type], [key], [summary], [description], [created], [labels],
    [updated], [resolutiondate], in this order, followed by [parent],
    [resolution] and [comments] for those of the fields [parent],
    [resolution] and [comment] that the payload has with a value other
    than null. *)
Theorem structured_output_keys entries items v :
  dict_lookup entries "fields" = Some (VDict items) →
  issue_struct (VDict entries) = Ok v →
  ∃ d,
    v = VDict d ∧
    dict_keys d =
      ["type"; "key"; "summary"; "description"; "created"; "labels";
       "updated"; "resolutiondate"]
      ++ (if fetched items "parent" then ["parent"] else [])
      ++ (if fetched items "resolution" then ["resolution"] else [])
      ++ (if fetched items "comment" then ["comments"] else []).
Proof.
  intros Hfields. unfold issue_struct.
  intros (i & Hinit & Hstruct)%bind_Ok.
  apply init_Ok in Hinit
    as (fields & Hf & _ & _ & Hparent & Hresolution & Hcomments & _).
  cbn [py_get] in Hf. rewrite dict_get_lookup, Hfields in Hf.
  injection Hf as <-.
  apply create_object_from_field_fetched in Hparent, Hresolution, Hcomments.
  rewrite <- Hparent, <- Hresolution, <- Hcomments.
  by apply to_struct_keys.
Qed.

(** Where the entries of the structure come from. *)
Lemma to_struct_entries i entries items d :
  JiraIssue.data i = VDict entries → JiraIssue.fields i = VDict items →
  JiraIssue.to_struct i = Ok (VDict d) →
  dict_lookup d "key" = Some (dict_get entries "key" VNone) ∧
  dict_lookup d "updated" = Some (dict_get entries "updated" VNone) ∧
  dict_lookup d "created" = Some (dict_get items "created" VNotDownloaded).
Proof.
  intros Hd Hf Hstruct.
  unfold JiraIssue.to_struct, JiraIssue.key, JiraIssue.summary,
    JiraIssue.description, JiraIssue.created, JiraIssue.labels,
    JiraIssue.updated, JiraIssue.resultiondate, JiraIssue.get_field,
    get_value, _data, JiraIssue.rest in Hstruct.
  rewrite Hd, Hf in Hstruct. cbn [py_get mbind result_bind] in Hstruct.
  apply bind_Ok in Hstruct as (res1 & H1 & Hstruct).
  apply bind_Ok in Hstruct as (res2 & H2 & Hstruct).
  apply bind_Ok in Hstruct as (res3 & H3 & Hstruct).
  injection Hstruct as <-.
  destruct (have_data (JiraIssue.parent_issue i)),
    (have_data (JiraIssue.resolution_object i)),
    (have_data (JiraIssue.comments i));
    repeat match goal with
      | H : _ ≫= _ = Ok _ |- _ => apply bind_Ok in H as (? & _ & [= <-])
      | H : Ok _ = Ok _ |- _ => injection H as <-
      end;
    done.
Qed.

(** X10.  In the structure written for an issue, [updated] is what the
    record itself has under [updated] ([None] when it has nothing there),
    whatever its field map holds, while [created] comes from the field map
    (the marker [NOT_DOWNLOADED] when the field is absent). *)
Theorem updated_is_read_from_the_record entries items d :
  dict_lookup entries "fields" = Some (VDict items) →
  issue_struct (VDict entries) = Ok (VDict d) →
  dict_lookup d "updated" = Some (dict_get entries "updated" VNone) ∧
  dict_lookup d "created" = Some (dict_get items "created" VNotDownloaded).
Proof.
  intros Hfields. unfold issue_struct.
  intros (i & Hinit & Hstruct)%bind_Ok.
  destruct (init_payload _ _ _ Hfields Hinit) as [Hd Hf].
  by destruct (to_struct_entries _ _ _ _ Hd Hf Hstruct) as (_ & ? & ?).
Qed.

Lemma attr_Ok {A B} (obj : maybe A) (member : A → result B) b :
  attr obj member = Ok b → have_data obj = true.
Proof. by destruct obj. Qed.

(** X12.  The text of an issue can only be made when the payload has
    the fields [issuetype], [status] and [priority] with values other than
    null, and a field [labels] that is not null: without one of them
    [to_text] raises an exception. *)
Theorem text_needs_type_status_priority_labels entries items t :
  dict_lookup entries "fields" = Some (VDict items) →
  issue_text (VDict entries) = Ok t →
  fetched items "issuetype" = true ∧
  fetched items "status" = true ∧
  fetched items "priority" = true ∧
  ∃ l, dict_lookup items "labels" = Some l ∧ l ≠ VNone.
Proof.
  intros Hfields. unfold issue_text.
  intros (i & Hinit & Htext)%bind_Ok.
  destruct (init_payload _ _ _ Hfields Hinit) as [Hd Hf].
  apply init_Ok in Hinit
    as (fields & Hfs & _ & _ & _ & _ & _ & Hstatus & Hpriority & _ & _
        & Htype & _).
  cbn [py_get] in Hfs. rewrite dict_get_lookup, Hfields in Hfs.
  injection Hfs as <-.
  apply create_object_from_field_fetched in Hstatus, Hpriority, Htype.
  unfold JiraIssue.to_text in Htext.
  do 7 (apply bind_Ok in Htext as (? & _ & Htext)).
  apply bind_Ok in Htext as (labels_text & Hlabels & Htext).
  do 3 (apply bind_Ok in Htext as (? & _ & Htext)).
  apply bind_Ok in Htext as (? & Hn1 & Htext).
  apply bind_Ok in Htext as (? & Hn2 & Htext).
  apply bind_Ok in Htext as (? & Hn3 & _).
  unfold JiraIssue.name_of in Hn1, Hn2, Hn3.
  destruct (attr (JiraIssue.issuetype i) _) eqn:H1; [|done].
  destruct (attr (JiraIssue.status i) _) eqn:H2; [|done].
  destruct (attr (JiraIssue.priority i) _) eqn:H3; [|done].
  apply attr_Ok in H1, H2, H3.
  split_and!; [congruence..|].
  apply bind_Ok in Hlabels as (l & Hl & Hjoin).
  unfold JiraIssue.labels, JiraIssue.get_field in Hl.
  rewrite Hf in Hl. cbn [py_get] in Hl. injection Hl as <-.
  rewrite dict_get_lookup in Hjoin.
  destruct (dict_lookup items "labels") as [l|]; [|done].
  exists l. split; [done|]. by intros ->.
Qed.

Lemma mapM_Forall2 {A B} (f : A → result B) l k :
  mapM f l = Ok k → Forall2 (λ a b, f a = Ok b) l k.
Proof.
  revert k. induction l as [|a l IH]; intros k; simpl.
  - intros [= <-]. constructor.
  - intros (b & Hb & (k' & Hk & [= <-])%bind_Ok)%bind_Ok.
    constructor; [done|by apply IH].
Qed.

Lemma comment_to_struct_keys c v :
  JiraComment.to_struct c = Ok v →
  ∃ d, v = VDict d ∧
       dict_keys d =
         ["body"; "created"; "updated"]
         ++ (if truth (JiraComment.author_object c) then ["author"] else []).
Proof.
  unfold JiraComment.to_struct. intros H.
  do 3 (apply bind_Ok in H as (? & _ & H)).
  destruct (truth (JiraComment.author_object c)).
  - apply bind_Ok in H as (? & _ & [= <-]). by eexists.
  - injection H as <-. by eexists.
Qed.

(** X30.  The structure of a comment list has one entry for each of
    its comments, in their order; each entry is a dict with the keys
    [body], [created] and [updated], and with [author] after them when the
    comment has an author. *)
Theorem comments_in_the_structure cl v :
  JiraCommentList.to_struct cl = Ok v →
  ∃ out,
    v = VList out ∧
    Forall2
      (λ c e, ∃ d,
         e = VDict d ∧
         dict_keys d =
           ["body"; "created"; "updated"]
           ++ (if truth (JiraComment.author_object c) then ["author"] else []))
      (JiraCommentList.comments cl) out.
Proof.
  unfold JiraCommentList.to_struct.
  destruct (mapM _ _) as [out|e] eqn:Hout; [|done].
  intros [= <-]. exists out. split; [done|].
  apply mapM_Forall2 in Hout.
  eapply Forall2_impl; [exact Hout|]. intros c e.
  apply comment_to_struct_keys.
Qed.

End StructureShape.

(** ** The downloader: one record, and a whole run *)

Section DownloadRuns.
Import Py DownloadIssues.
Context {S : Type} (respond : S → Jira → request → result value * S).

Implicit Types (w : @World S) (args : Args) (jira : Jira).

Lemma to_struct_no_browse_url i v :
  JiraIssue.to_struct i = Ok v → no_browse_url v.
Proof.
  intros (entries & -> & Hkeys)%to_struct_keys.
  exists entries. split; [done|].
  apply dict_lookup_None. rewrite Hkeys.
  destruct (have_data _), (have_data _), (have_data _);
    by apply (bool_decide_unpack _).
Qed.

Section dumps.
Context (P : value → Prop).

Local Instance dumps_preorder : PreOrder (dumps (S:=S) P).
Proof.
  split.
  - intros w. exists []. by rewrite app_nil_r.
  - intros w1 w2 w3 (d1 & H1 & HP1) (d2 & H2 & HP2).
    exists (d1 ++ d2). rewrite H2, H1, <- app_assoc.
    split; [done|]. by apply Forall_app.
Qed.

Lemma dumps_same w w' : dumped (log w') = dumped (log w) → dumps P w w'.
Proof. intros H. exists []. by rewrite app_nil_r. Qed.

Lemma dumped_snoc l e :
  dumped (l ++ [e]) =
    dumped l ++ match e with DumpYaml _ document => [document] | _ => [] end.
Proof. unfold dumped. rewrite omap_app. f_equal. by destruct e. Qed.

Lemma steady_dumps_emit e :
  match e with DumpYaml _ document => P document | _ => True end →
  steady (dumps P) (emit (S:=S) e).
Proof.
  intros He w. simpl.
  exists (match e with DumpYaml _ document => [document] | _ => [] end).
  split; [apply dumped_snoc|]. destruct e; by repeat constructor.
Qed.

Lemma steady_dumps_send jira r : steady (dumps P) (send respond jira r).
Proof.
  intros w. unfold send.
  destruct (respond (service w) jira r) as [[a|e] s]; simpl;
    apply dumps_same; simpl; by rewrite dumped_snoc, app_nil_r.
Qed.

Lemma steady_dumps_count_issue : steady (dumps P) (count_issue (S:=S)).
Proof. intros w. by apply dumps_same. Qed.

Lemma steady_dumps_get_num_issues : steady (dumps P) (get_num_issues (S:=S)).
Proof. intros w. by apply dumps_same. Qed.
End dumps.

Lemma steady_download_iterator {W} (R : relation W) `{!PreOrder R}
    (search : nat → nat → M W value) body rounds :
  (∀ start limit, steady R (search start limit)) →
  (∀ x, steady R (body x)) →
  steady R (jira_get_issues search body rounds).
Proof.
  intros Hsearch Hbody. unfold jira_get_issues.
  generalize 0 (VInt (-1)).
  induction rounds as [|rounds IH]; intros start total; simpl.
  - by apply steady_unfinished.
  - repeat first
      [ apply IH
      | apply Hsearch
      | by apply steady_ret
      | by apply steady_lift
      | by apply steady_for_each
      | apply steady_bind; [done| |intros ?]
      | match goal with
        | |- steady _ (match ?x with _ => _ end) => destruct x
        end ].
Qed.

Ltac steady_dumps :=
  repeat first
    [ apply steady_dumps_count_issue
    | apply steady_dumps_get_num_issues
    | apply steady_dumps_send
    | apply steady_dumps_emit; first [done | by eapply to_struct_no_browse_url]
    | apply steady_ret; apply dumps_preorder
    | apply steady_raise; apply dumps_preorder
    | apply steady_lift; apply dumps_preorder
    | apply steady_for_each; [apply dumps_preorder|intros ?]
    | apply steady_lift_bind; [apply dumps_preorder|intros ? ?]
    | apply steady_bind; [apply dumps_preorder| |intros ?]
    | match goal with
      | |- steady _ (match ?x with _ => _ end) => destruct x
      end ].

Lemma steady_dumps_process_issue args domain jira issue_dict :
  steady (dumps no_browse_url) (process_issue respond args domain jira issue_dict).
Proof. unfold process_issue, print, download. steady_dumps. Qed.

(** The comment list of a constructed issue wraps a dict. *)
Lemma comments_total entries items i cs :
  dict_lookup entries "fields" = Some (VDict items) →
  JiraIssue.init (VDict entries) = Ok i →
  JiraIssue.comments i = Object cs →
  ∃ total, JiraCommentList.total cs = Ok total.
Proof.
  intros Hfields Hinit Hcs.
  apply init_Ok in Hinit as (fields & _ & _ & _ & _ & _ & Hcomments & _).
  rewrite Hcs in Hcomments.
  apply create_object_from_field_Object in Hcomments as (v & _ & Hv).
  unfold JiraCommentList.init in Hv.
  apply bind_Ok in Hv as (value & (c & -> & _)%py_get_Ok & Hv).
  do 2 (apply bind_Ok in Hv as (? & _ & Hv)). injection Hv as <-.
  by eexists.
Qed.

(** The start of the loop body for a record with a comment list: the
    issue is built and counted, and at most a notice is printed. *)
Lemma process_issue_start entries items i w :
  dict_lookup entries "fields" = Some (VDict items) →
  JiraIssue.init (VDict entries) = Ok i →
  fetched items "comment" = true →
  ∃ lines, ∀ B (rest : M World B),
    (count_issue;;
     match JiraIssue.comments i with
     | Object cs =>
         total ← lift (JiraCommentList.total cs);
         if py_eq total (VInt (Z.of_nat (JiraCommentList.len cs)))
         then mret ()
         else print ("Need to download comments: total = " +:+ py_str total
                     +:+ ", have = " +:+ pretty (JiraCommentList.len cs))
     | _ => raise AttributeError
     end;;
     rest) w =
    rest {| service := service w; log := log w ++ map Stdout lines;
            num_issues := Datatypes.S (num_issues w) |}.
Proof.
  intros Hfields Hinit Hfetched.
  pose proof Hinit as Hinit'.
  apply init_Ok in Hinit'
    as (fields & Hfs & _ & _ & _ & _ & Hcomments & _).
  cbn [py_get] in Hfs. rewrite dict_get_lookup, Hfields in Hfs.
  injection Hfs as <-.
  apply create_object_from_field_fetched in Hcomments.
  rewrite Hfetched in Hcomments.
  destruct (JiraIssue.comments i) as [| |cs] eqn:Hcs; [done..|].
  destruct (comments_total _ _ _ _ Hfields Hinit Hcs) as [total Htotal].
  rewrite Htotal. unfold mbind, M_bind. cbn [count_issue lift mret M_ret].
  destruct (py_eq total _); cbn [print emit].
  - exists []. intros B rest. by rewrite app_nil_r.
  - by eexists [_].
Qed.


Lemma files_stdout l lines : files (l ++ map Stdout lines) = files l.
Proof.
  unfold files. rewrite omap_app.
  assert (omap (λ e, match e with
                     | Stdout _ | Stderr _ | Sent _ _ => None
                     | _ => Some e
                     end) (map Stdout lines) = []) as ->
    by by induction lines.
  by rewrite app_nil_r.
Qed.

Lemma issue_key_string entries i k :
  JiraIssue.data i = VDict entries →
  dict_lookup entries "key" = Some (VStr k) →
  JiraIssue.key i = Ok (VStr k).
Proof.
  intros Hd Hk. unfold JiraIssue.key, get_value, _data, JiraIssue.rest.
  rewrite Hd. cbn [py_get]. by rewrite dict_get_lookup, Hk.
Qed.

(** The loop body in the text format, for a record with a key and a
    comment list. *)
Lemma process_issue_text args domain jira entries items i k w :
  output_format args = "text" →
  download_attachments args = false →
  dict_lookup entries "fields" = Some (VDict items) →
  dict_lookup entries "key" = Some (VStr k) →
  fetched items "comment" = true →
  JiraIssue.init (VDict entries) = Ok i →
  let path := path_join (dest_dir args) (k +:+ ".txt") in
  ∃ lines,
    process_issue respond args domain jira (VDict entries) w =
      (match JiraIssue.to_text i with
       | Ok _ => Return ()
       | Raise e => Throw e
       end,
       {| service := service w;
          log := log w ++ map Stdout lines
                 ++ [OpenFile path;
                     WriteFile path
                       ("Link: " +:+ ("https://" +:+ domain +:+ "/browse/"
                                      +:+ k) +:+ newline)]
                 ++ match JiraIssue.to_text i with
                    | Ok text => [WriteFile path text]
                    | Raise _ => []
                    end;
          num_issues := Datatypes.S (num_issues w) |}).
Proof.
  intros Hformat Hattach Hfields Hkey Hcomment Hinit path.
  destruct (init_payload _ _ _ Hfields Hinit) as [Hd _].
  unfold process_issue. rewrite Hinit. cbn [lift].
  erewrite (bind_returns (mret i)) by reflexivity.
  destruct (process_issue_start entries items i w Hfields Hinit Hcomment)
    as [lines Hstart].
  rewrite Hstart, (issue_key_string _ _ _ Hd Hkey), Hformat, Hattach.
  cbn [lift]. erewrite (bind_returns (mret (VStr k))) by reflexivity.
  rewrite (decide_False (P:="text" = "yaml")) by done.
  rewrite (decide_True (P:="text" = "text")) by done.
  exists (lines ++ ["issue " +:+ k +:+ " -> " +:+ path]).
  unfold mbind, M_bind.
  cbn [print emit lift mret M_ret raise fst snd str_add py_str log service
       num_issues].
  fold path.
  destruct (JiraIssue.to_text i) as [text|e];
    cbn [print emit lift mret M_ret raise fst snd log service num_issues];
    rewrite map_app; cbn [map]; by rewrite <- ?app_assoc.
Qed.

(** X13.  The text format, for a record with a key and a comment list:
    the file [<dest_dir>/<key>.txt] is opened and gets the line with the
    link before the text of the issue is made.  When [to_text] succeeds
    the text is written after the link; when it raises, the exception ends
    the run and the file is left with the link alone. *)
Theorem text_file_is_link_then_text args domain jira entries items i k w :
  output_format args = "text" →
  download_attachments args = false →
  dict_lookup entries "fields" = Some (VDict items) →
  dict_lookup entries "key" = Some (VStr k) →
  fetched items "comment" = true →
  JiraIssue.init (VDict entries) = Ok i →
  let path := path_join (dest_dir args) (k +:+ ".txt") in
  let r := process_issue respond args domain jira (VDict entries) w in
  r.1 = match JiraIssue.to_text i with
        | Ok _ => Return ()
        | Raise e => Throw e
        end ∧
  files (log r.2) =
    files (log w)
    ++ [OpenFile path;
        WriteFile path
          ("Link: " +:+ ("https://" +:+ domain +:+ "/browse/" +:+ k)
           +:+ newline)]
    ++ match JiraIssue.to_text i with
       | Ok text => [WriteFile path text]
       | Raise _ => []
       end.
Proof.
  intros Hformat Hattach Hfields Hkey Hcomment Hinit path r. subst r.
  destruct (process_issue_text args domain jira entries items i k w
              Hformat Hattach Hfields Hkey Hcomment Hinit) as [lines ->].
  split; [done|]. cbn [snd log]. fold path.
  rewrite app_assoc. unfold files at 1. rewrite omap_app.
  fold (files (log w ++ map Stdout lines)). rewrite files_stdout.
  f_equal. rewrite omap_app. f_equal. by destruct (JiraIssue.to_text i).
Qed.




(** X15.  A record that is not an object, or has no object under
    [fields], cannot be wrapped: the constructor raises [AttributeError],
    which ends the run before the record is counted and before anything
    is printed or written for it. *)
Theorem record_without_fields args domain jira issue_dict w :
  (∀ entries items,
     issue_dict = VDict entries →
     dict_lookup entries "fields" ≠ Some (VDict items)) →
  JiraIssue.init issue_dict = Raise AttributeError ∧
  process_issue respond args domain jira issue_dict w
    = (Throw AttributeError, w).
Proof.
  intros Hfields.
  assert (JiraIssue.init issue_dict = Raise AttributeError) as Hinit.
  { destruct issue_dict as [| | | | | |entries]; try done.
    cbn [JiraIssue.init]. rewrite dict_item_lookup.
    destruct (dict_lookup entries "fields") as [fields|] eqn:Hf; [|done].
    destruct fields as [| | | | | |items]; try done.
    by destruct (Hfields entries items). }
  split; [done|]. unfold process_issue. by rewrite Hinit.
Qed.

(** X16.  A record whose field map has no comment list (the field is
    absent or null) is wrapped and counted, and then ends the run with
    [AttributeError], where the loop reads [issue.comments.total]: nothing
    is printed or written for it, whatever the output format. *)
Theorem record_without_comments args domain jira entries items i w :
  dict_lookup entries "fields" = Some (VDict items) →
  JiraIssue.init (VDict entries) = Ok i →
  fetched items "comment" = false →
  process_issue respond args domain jira (VDict entries) w =
    (Throw AttributeError,
     {| service := service w; log := log w;
        num_issues := Datatypes.S (num_issues w) |}).
Proof.
  intros Hfields Hinit Hcomment.
  pose proof Hinit as Hinit'.
  apply init_Ok in Hinit'
    as (fields & Hfs & _ & _ & _ & _ & Hcomments & _).
  cbn [py_get] in Hfs. rewrite dict_get_lookup, Hfields in Hfs.
  injection Hfs as <-.
  apply create_object_from_field_fetched in Hcomments.
  rewrite Hcomment in Hcomments.
  unfold process_issue. rewrite Hinit. cbn [lift].
  erewrite (bind_returns (mret i)) by reflexivity.
  erewrite (bind_returns count_issue) by reflexivity.
  by destruct (JiraIssue.comments i).
Qed.

Lemma download_main_configured rounds args cfg d u p w :
  effective_domain (atlassian_domain args) cfg = Some d →
  cfg_get_fallback cfg d "user" = Some u →
  cfg_get_fallback cfg d "api_token" = Some p →
  main respond rounds args (Ini cfg) w =
    after_credentials respond rounds args cfg d u p w.
Proof.
  intros Hd Hu Hp.
  change (main respond rounds args (Ini cfg))
    with (credentials eprint (config_file args) (atlassian_domain args)
            (Ini cfg) (after_credentials respond rounds args)).
  by apply credentials_ok.
Qed.

(** X17.  The downloader with a configuration that has the credentials
    but no query, and no query argument: [cfg_parser.get] raises
    [NoOptionError], and the process ends with status 1 and the
    interpreter's report on standard error.  Nothing was printed before,
    the output directory was not made and no request was sent. *)
Theorem missing_query_ends_the_run rounds args cfg d u p w :
  effective_domain (atlassian_domain args) cfg = Some d →
  cfg_get_fallback cfg d "user" = Some u →
  cfg_get_fallback cfg d "api_token" = Some p →
  effective_jql (jql args) cfg = None →
  main respond rounds args (Ini cfg) w = (Throw NoOptionError, w) ∧
  script respond rounds args (Ini cfg) w =
    (Some 1%Z,
     {| service := service w; log := log w ++ [Stderr traceback_header];
        num_issues := num_issues w |}).
Proof.
  intros Hd Hu Hp Hjql.
  assert (main respond rounds args (Ini cfg) w = (Throw NoOptionError, w))
    as Hmain.
  { rewrite (download_main_configured _ _ _ _ _ _ _ Hd Hu Hp).
    unfold after_credentials, effective_jql in *.
    destruct (jql args) as [[|c q]|]; simplify_eq/=;
      unfold mbind, M_bind; by rewrite cfg_get_default, Hjql. }
  split; [done|]. unfold script. by rewrite Hmain.
Qed.

(** X18.  The downloader when the search finds nothing.  With the
    credentials and a query (the argument, or [jql] of [DEFAULT]), and a
    service that answers the first search with an empty list of issues,
    the run prints its five lines, makes the output directory, sends that
    one search (from offset 0, for 200 records, to the URL made from the
    domain the credentials were read for) and reports the count, which has
    not moved. *)
Theorem nothing_found rounds args cfg d u p q data s w :
  effective_domain (atlassian_domain args) cfg = Some d →
  cfg_get_fallback cfg d "user" = Some u →
  cfg_get_fallback cfg d "api_token" = Some p →
  effective_jql (jql args) cfg = Some q →
  let jira := {| url := "https://" +:+ d; username := u; password := p |} in
  respond (service w) jira (Jql q 0 200) = (Ok (VDict data), s) →
  dict_lookup data "issues" = Some (VList []) →
  main respond (Datatypes.S rounds) args (Ini cfg) w =
    (Return (),
     {| service := s;
        log := log w ++
               [Stdout ("Atlassian domain: " +:+ d);
                Stdout ("Atlassian user: " +:+ u);
                Stdout ("Output issues to the directory: " +:+ dest_dir args);
                Stdout ("Output format: " +:+ output_format args);
                Stdout ("JQL: " +:+ q);
                MakeDirs (dest_dir args);
                Sent jira (Jql q 0 200);
                Stdout ("Downloaded " +:+ pretty (num_issues w) +:+ " issues")];
        num_issues := num_issues w |}).
Proof.
  intros Hd Hu Hp Hjql jira Hrespond Hissues.
  rewrite (download_main_configured _ _ _ _ _ _ _ Hd Hu Hp).
  unfold after_credentials.
  erewrite (bind_returns _ _ _ q).
  2: { unfold effective_jql in Hjql.
       destruct (jql args) as [[|c a]|]; simplify_eq/=; try done;
         by rewrite cfg_get_default, Hjql. }
  do 5 (erewrite (bind_returns (print _)) by reflexivity).
  erewrite (bind_returns (emit _)) by reflexivity.
  cbv zeta. fold jira.
  unfold jira_get_issues. cbn [jira_get_issues_from].
  change limit with 200.
  unfold mbind at 1, M_bind at 1. unfold mbind at 1, M_bind at 1.
  unfold send at 1. cbn [service print emit fst snd log num_issues].
  rewrite Hrespond.
  cbn [py_eq as_number lift py_get]. rewrite !dict_get_lookup, Hissues.
  unfold mbind, M_bind. simpl. unfold print, emit. simpl.
  by rewrite <- !app_assoc.
Qed.

(** X11.  No run of the downloader hands a document with a [browse_url]
    entry to the YAML dumper: the link is put into a structure that is
    not the one dumped. *)
Theorem browse_url_is_never_dumped rounds args config w :
  ∃ documents,
    dumped (log (main respond rounds args config w).2) =
      dumped (log w) ++ documents ∧
    Forall no_browse_url documents.
Proof.
  revert w.
  change (steady (dumps no_browse_url) (main respond rounds args config)).
  unfold main, print, eprint.
  repeat first
    [ apply steady_dumps_process_issue
    | apply steady_download_iterator;
        [apply dumps_preorder|intros ? ?|intros ?]
    | progress steady_dumps ].
Qed.

(** X29.  A run of the downloader that returns has ended with the line
    that reports how many issues it counted. *)
Theorem download_reports_the_count rounds args config w w' :
  main respond rounds args config w = (Return (), w') →
  ∃ l,
    log w' =
      l ++ [Stdout ("Downloaded " +:+ pretty (num_issues w') +:+ " issues")].
Proof.
  intros Hrun.
  change (main respond rounds args config)
    with (credentials eprint (config_file args) (atlassian_domain args)
            config (after_credentials respond rounds args)) in Hrun.
  destruct (credentials_cases eprint download_untouched download_errors
              (λ _ _, eq_refl) (download_eprint_untouched (S:=S))
              (download_eprint_errors (S:=S))
              (config_file args) (atlassian_domain args) config
              (after_credentials respond rounds args) w)
    as [(e & He & _)|(cfg & d & u & p & _ & _ & _ & _ & Heq)].
  { rewrite Hrun in He. done. }
  rewrite Heq in Hrun. unfold after_credentials in Hrun.
  do 8 (apply bind_Return in Hrun as (? & ? & _ & Hrun); cbv beta zeta in Hrun).
  unfold mbind, M_bind, get_num_issues, print, emit in Hrun.
  injection Hrun as <-. eexists. reflexivity.
Qed.

End DownloadRuns.

(** ** Pagination: what ends the loop, and what breaks it *)

Section PaginationEdges.
Import Py.

Lemma for_each_returns {W A} (body : A → M W unit) items w :
  (∀ x w, (body x w).1 = Return ()) →
  (for_each body items w).1 = Return ().
Proof.
  intros Hbody. revert w. induction items as [|x items IH]; intros w; [done|].
  cbn [for_each]. rewrite (bind_returns _ _ _ _ _ (returns_pair _ _ _ (Hbody x w))).
  apply IH.
Qed.

(** X19.  The loop of either iterator ends on an empty page and on
    nothing else: the total that the service reports is stored and never
    looked at.  Against a service that answers every search with a page
    that is not empty, and with a loop body that returns, the iterator has
    not returned after any number of rounds. *)
Theorem iterator_stops_only_on_an_empty_page :
  (∀ W (search : nat → nat → M W value) (body : value → M W unit),
     (∀ start limit w, ∃ entries items w',
        search start limit w = (Return (VDict entries), w') ∧
        dict_lookup entries "issues" = Some (VList items) ∧ items ≠ []) →
     (∀ x w, (body x w).1 = Return ()) →
     ∀ rounds w,
       (DownloadIssues.jira_get_issues search body rounds w).1 = Unfinished) ∧
  (∀ W (search : string → nat → nat → M W (list EditLabels.Issue))
     (body : EditLabels.Issue → M W unit) c q,
     (∀ start limit w, ∃ items w',
        search (String c q) start limit w = (Return items, w') ∧ items ≠ []) →
     (∀ x w, (body x w).1 = Return ()) →
     ∀ rounds w,
       (EditLabels.jira_get_issues search body (Some (String c q)) rounds w).1
       = Unfinished).
Proof.
  split.
  - intros W search body Hsearch Hbody rounds.
    unfold DownloadIssues.jira_get_issues.
    generalize 0 (VInt (-1)).
    induction rounds as [|rounds IH]; intros start total w; [done|].
    cbn [DownloadIssues.jira_get_issues_from].
    destruct (Hsearch start DownloadIssues.limit w)
      as (entries & items & w' & Hs & Hissues & Hne).
    rewrite (bind_returns _ _ _ _ _ Hs).
    erewrite (bind_returns _ _ _
                (if py_eq total (VInt (-1))
                 then dict_get entries "total" VNone else total) w').
    2: { by destruct (py_eq total _). }
    cbn [py_get lift]. rewrite (dict_get_lookup _ "issues"), Hissues.
    cbv [id]. cbn [default].
    do 2 (cbn [py_len py_iter lift];
          erewrite (bind_returns (mret _)) by reflexivity).
    assert (0 < length items) by (destruct items; [done|simpl; lia]).
    rewrite (decide_True (P:=0 < _)), (decide_False (P:=_ = 0)) by lia.
    erewrite (bind_returns _ _ _ ()).
    2: { erewrite (bind_returns (mret _)) by reflexivity.
         apply returns_pair, for_each_returns, Hbody. }
    apply IH.
  - intros W search body c q Hsearch Hbody rounds.
    cbn [EditLabels.jira_get_issues].
    generalize 0.
    induction rounds as [|rounds IH]; intros start w; [done|].
    cbn [EditLabels.jira_get_issues_from].
    destruct (Hsearch start EditLabels.limit w) as (items & w' & Hs & Hne).
    rewrite (bind_returns _ _ _ _ _ Hs).
    assert (0 < length items) by (destruct items; [done|simpl; lia]).
    rewrite (decide_True (P:=0 < _)), (decide_False (P:=_ = 0)) by lia.
    erewrite (bind_returns _ _ _ ()).
    2: { apply returns_pair, for_each_returns, Hbody. }
    apply IH.
Qed.

(** X20.  A response that is not an object, or an object without
    [issues], ends the downloader's iterator with an exception on the
    first round, before the loop body has seen anything: [AttributeError]
    from [data.get], or [TypeError] from [len(None)]. *)
Theorem page_without_issues {W} (search : nat → nat → M W value)
    (body : value → M W unit) rounds data w w' :
  search 0 200 w = (Return data, w') →
  ((∀ entries, data ≠ VDict entries) →
   DownloadIssues.jira_get_issues search body (S rounds) w
     = (Throw AttributeError, w')) ∧
  (∀ entries, data = VDict entries → dict_lookup entries "issues" = None →
   DownloadIssues.jira_get_issues search body (S rounds) w
     = (Throw TypeError, w')).
Proof.
  intros Hsearch.
  unfold DownloadIssues.jira_get_issues.
  cbn [DownloadIssues.jira_get_issues_from].
  change DownloadIssues.limit with 200.
  rewrite (bind_returns _ _ _ _ _ Hsearch).
  cbn [py_eq as_number].
  rewrite bool_decide_eq_true_2 by done.
  split.
  - intros Hnot. destruct data as [| | | | | |entries]; try done.
    by destruct (Hnot entries).
  - intros entries -> Hnone. cbn [py_get lift].
    erewrite (bind_returns (mret _)) by reflexivity.
    rewrite (dict_get_lookup _ "issues"), Hnone. cbv [id]. cbn [default].
    by erewrite (bind_returns (mret _)) by reflexivity.
Qed.

End PaginationEdges.

(** ** Wrappers and the payloads they were made from *)

Section WrapperPayloads.
Import Py DownloadIssues.

Implicit Types (entries items : list (string * value)) (v : value).

Lemma mapM_Ok_data {A} (cls : value → result A) (data : A → value) cs l :
  (∀ c a, cls c = Ok a → data a = c) →
  mapM cls cs = Ok l → map data l = cs.
Proof.
  intros Hcls. revert l. induction cs as [|c cs IH]; intros l; simpl.
  - by intros [= <-].
  - intros (a & Ha & (k & Hk & [= <-])%bind_Ok)%bind_Ok.
    simpl. by rewrite (Hcls _ _ Ha), (IH _ Hk).
Qed.

Lemma comprehension_data {A} (cls : value → result A) (data : A → value)
    value l :
  (∀ c a, cls c = Ok a → data a = c) →
  comprehension cls value = Ok l → py_iter value = Ok (map data l).
Proof.
  intros Hcls. unfold comprehension.
  intros (cs & -> & Hl)%bind_Ok. by rewrite (mapM_Ok_data _ _ _ _ Hcls Hl).
Qed.

Lemma issue_data c a : JiraIssue.init c = Ok a → JiraIssue.data a = c.
Proof. by intros (? & _ & ? & _)%init_Ok. Qed.

Lemma attachment_data c a :
  JiraAttachment.init c = Ok a → JiraAttachment.data a = c.
Proof.
  unfold JiraAttachment.init. by intros (? & _ & [= <-])%bind_Ok.
Qed.

Lemma comment_data c a : JiraComment.init c = Ok a → JiraComment.data a = c.
Proof. unfold JiraComment.init. by intros (? & _ & [= <-])%bind_Ok. Qed.

(** X21.  An issue object and the objects inside it keep the payloads
    they were made from, all of them and in the order of the payload: the
    record itself and its field map, one subtask object for each entry of
    [subtasks], one attachment object for each entry of [attachment], the
    parent, and in the comment list one comment object for each entry of
    [comments]. *)
Theorem wrappers_keep_their_payloads entries items i :
  dict_lookup entries "fields" = Some (VDict items) →
  JiraIssue.init (VDict entries) = Ok i →
  JiraIssue.data i = VDict entries ∧
  JiraIssue.fields i = VDict items ∧
  py_iter (dict_get items "subtasks" (VList []))
    = Ok (map JiraIssue.data (JiraIssue.subtasks i)) ∧
  py_iter (dict_get items "attachment" (VList []))
    = Ok (map JiraAttachment.data (JiraIssue.attachment i)) ∧
  (∀ parent, JiraIssue.parent_issue i = Object parent →
     dict_lookup items "parent" = Some (JiraIssue.data parent)) ∧
  (∀ cs, JiraIssue.comments i = Object cs →
     dict_lookup items "comment" = Some (JiraCommentList.data cs) ∧
     get_value cs "comments" (VList []) ≫= py_iter
       = Ok (map JiraComment.data (JiraCommentList.comments cs))).
Proof.
  intros Hfields Hinit.
  destruct (init_payload _ _ _ Hfields Hinit) as [Hd Hf].
  apply init_Ok in Hinit
    as (fields & Hfs & _ & Hfs' & Hparent & _ & Hcomments & _ & _ & _ & _ & _
        & Hsubtasks & Hattachment).
  rewrite Hf in Hfs'. subst fields. cbn [py_get mbind result_bind] in *.
  split_and!; [done|done|..].
  - by apply (comprehension_data _ _ _ _ issue_data).
  - by apply (comprehension_data _ _ _ _ attachment_data).
  - intros parent Hp. rewrite Hp in Hparent.
    apply create_object_from_field_Object in Hparent as (v & Hv & Hinit).
    cbn [py_get] in Hv. rewrite dict_get_lookup in Hv.
    destruct (dict_lookup items "parent") as [v'|] eqn:Hl; simpl in Hv;
      injection Hv as <-; [|done].
    by rewrite (issue_data _ _ Hinit).
  - intros cs Hcs. rewrite Hcs in Hcomments.
    pose proof Hcomments as Hfetched.
    apply create_object_from_field_Object in Hcomments as (v & Hv & Hinit).
    unfold JiraCommentList.init in Hinit.
    apply bind_Ok in Hinit as (value & Hvalue & Hinit).
    apply bind_Ok in Hinit as (cl & Hiter & Hinit).
    apply bind_Ok in Hinit as (l & Hl & [= <-]).
    cbn [JiraCommentList.data JiraCommentList.comments].
    split.
    + cbn [py_get] in Hv. rewrite dict_get_lookup in Hv.
      destruct (dict_lookup items "comment") as [v'|] eqn:Hlook;
        simpl in Hv; injection Hv as <-; [done|].
      done.
    + unfold get_value, _data, JiraCommentList.rest.
      cbn [JiraCommentList.data]. rewrite Hvalue. cbn [mbind result_bind].
      by rewrite Hiter, (mapM_Ok_data _ _ _ _ comment_data Hl).
Qed.

End WrapperPayloads.

(** ** Attachments: what a download does to the files *)

Section AttachmentFacts.
Import Py DownloadIssues Attachments.
Context {S : Type} (get : S → value → result Response * S).

Implicit Types (w : @World S) (resp : Response) (fname : string).

(** The loop that writes the chunks, on a file that is there. *)
Lemma write_loop fname chunks content w :
  files w !! fname = Some content →
  for_each (λ data, size ← file_write fname data; emit (BarUpdated size))
           chunks w =
  (Return (),
   {| session := session w;
      files := <[fname := content +:+ foldr String.app "" chunks]> (files w);
      log := log w ++ map (λ data, BarUpdated (String.length data)) chunks |}).
Proof.
  revert content w. induction chunks as [|data chunks IH]; intros content w Hf.
  - cbn [for_each foldr map]. rewrite append_nil_r, app_nil_r.
    rewrite insert_id by done. by destruct w.
  - cbn [for_each foldr map].
    unfold mbind at 1, M_bind at 1. unfold mbind at 1, M_bind at 1.
    cbn [file_write emit fst snd].
    rewrite (IH (content +:+ data)); cbn [files session log].
    + rewrite Hf. cbn [default]. rewrite insert_insert_eq, append_assoc.
      by rewrite <- app_assoc.
    + by rewrite Hf, lookup_insert_eq.
Qed.

Lemma progress_app l1 l2 : progress (l1 ++ l2) = progress l1 + progress l2.
Proof. unfold progress. by rewrite omap_app, sum_list_with_app. Qed.

Lemma progress_updates chunks :
  progress (map (λ data, BarUpdated (String.length data)) chunks) =
    String.length (foldr String.app "" chunks).
Proof.
  induction chunks as [|data chunks IH]; [done|].
  cbn [map foldr].
  change (progress (?e :: ?l)) with (progress ([e] ++ l)).
  rewrite progress_app, IH. unfold progress. simpl. rewrite Nat.add_0_r.
  clear IH. induction data as [|c data IH]; [done|].
  change (String c data +:+ ?s) with (String c (data +:+ s)).
  cbn [String.length]. by rewrite <- IH.
Qed.

(** The whole function, once the response is there and its status is
    good. *)
Lemma download_with_progress_bar_run url fname resp s w :
  get (session w) url = (Ok resp, s) →
  raise_for_status resp = Ok () →
  let total := default 0 (content_length resp) in
  download_with_progress_bar get url fname w =
    if decide (String.length <$> files w !! fname = Some total)
    then (Return (),
          {| session := s; files := files w;
             log := log w ++ [Fetched url;
                              Printed ("File " +:+ fname
                                       +:+ " already downloaded")] |})
    else (Return (),
          {| session := s; files := <[fname := body resp]> (files w);
             log := log w ++ [Fetched url; BarOpened fname total]
                    ++ map (λ data, BarUpdated (String.length data))
                           (chunks resp) |}).
Proof.
  intros Hget Hstatus total. unfold download_with_progress_bar.
  unfold mbind at 1, M_bind at 1. unfold session_get at 1. rewrite Hget.
  rewrite Hstatus. cbn [lift].
  erewrite (bind_returns (mret ())) by reflexivity.
  cbv zeta. fold total.
  erewrite (bind_returns (path_exists fname)) by reflexivity.
  cbn [files].
  destruct (files w !! fname) as [content|] eqn:Hf.
  - rewrite bool_decide_eq_true_2 by eauto.
    unfold mbind at 1, M_bind at 1. unfold mbind at 1, M_bind at 1.
    cbn [st_size files fst snd]. rewrite Hf. cbn [from_option fmap option_fmap option_map].
    destruct (decide (String.length content = total)) as [Heq|Hne].
    + rewrite decide_True by congruence.
      unfold mbind, M_bind. cbn [emit mret M_ret fst snd log session files].
      by rewrite <- app_assoc.
    + rewrite decide_False by congruence.
      cbn [mret M_ret].
      erewrite (bind_returns (open_wb fname)) by reflexivity.
      erewrite (bind_returns (emit _)) by reflexivity.
      rewrite (write_loop fname (chunks resp) "");
        cbn [files session log]; [|by rewrite lookup_insert_eq].
      rewrite insert_insert_eq. unfold body.
      by rewrite <- !app_assoc.
  - rewrite bool_decide_eq_false_2 by (by intros [? ?]).
    rewrite decide_False by done.
    erewrite (bind_returns (mret false)) by reflexivity. cbv iota.
    erewrite (bind_returns (open_wb fname)) by reflexivity.
    erewrite (bind_returns (emit _)) by reflexivity.
    rewrite (write_loop fname (chunks resp) "");
      cbn [files session log]; [|by rewrite lookup_insert_eq].
    rewrite insert_insert_eq. unfold body.
    by rewrite <- !app_assoc.
Qed.

(** X22.  A file that is there with the size the response announces is
    taken as downloaded: the request has been sent, the line is printed,
    and the file is left as it is, whatever it holds and whatever the body
    is.  The announced size is 0 when the response has no
    [Content-Length], so an empty file is then left empty. *)
Theorem same_size_is_taken_as_downloaded url fname resp s content w :
  get (session w) url = (Ok resp, s) →
  raise_for_status resp = Ok () →
  files w !! fname = Some content →
  String.length content = default 0 (content_length resp) →
  download_with_progress_bar get url fname w =
    (Return (),
     {| session := s; files := files w;
        log := log w ++ [Fetched url;
                         Printed ("File " +:+ fname
                                  +:+ " already downloaded")] |}).
Proof.
  intros Hget Hstatus Hf Hsize.
  rewrite (download_with_progress_bar_run _ _ _ _ _ Hget Hstatus).
  cbv zeta. rewrite Hf. cbn [fmap option_fmap option_map].
  by rewrite decide_True by congruence.
Qed.

(** X23.  Otherwise, when the status of the response is good: the file
    is made or emptied and gets the chunks of the body one after the
    other, so that it holds the body and nothing of what it held before;
    the other files are as they were, and the progress bar has been
    advanced by the size of the body. *)
Theorem download_stores_the_body url fname resp s w :
  get (session w) url = (Ok resp, s) →
  raise_for_status resp = Ok () →
  String.length <$> files w !! fname ≠ Some (default 0 (content_length resp)) →
  let r := download_with_progress_bar get url fname w in
  r.1 = Return () ∧
  files r.2 = <[fname := body resp]> (files w) ∧
  progress (log r.2) = progress (log w) + String.length (body resp).
Proof.
  intros Hget Hstatus Hsize r. subst r.
  rewrite (download_with_progress_bar_run _ _ _ _ _ Hget Hstatus).
  cbv zeta. rewrite decide_False by done. cbn [fst snd files log].
  split_and!; [done..|].
  rewrite !progress_app, progress_updates. unfold body.
  unfold progress at 2. simpl. lia.
Qed.

(** X24.  A response with a status from 400 to 599 ends the download
    with [HTTPError] after the request: no file is made, emptied or
    written, and nothing is printed. *)
Theorem bad_status_writes_nothing url fname resp s w :
  get (session w) url = (Ok resp, s) →
  (400 ≤ status_code resp ∧ status_code resp < 600)%nat →
  download_with_progress_bar get url fname w =
    (Throw HTTPError,
     {| session := s; files := files w; log := log w ++ [Fetched url] |}).
Proof.
  intros Hget Hstatus. unfold download_with_progress_bar.
  unfold mbind at 1, M_bind at 1. unfold session_get at 1. rewrite Hget.
  unfold raise_for_status. by rewrite decide_True by done.
Qed.

(** X25.  Downloading the same thing again changes no file: against a
    session that answers the URL with the same good response each time,
    the files after a second download are the files after the first. *)
Theorem second_download_changes_no_file url fname resp w :
  (∀ s, (get s url).1 = Ok resp) →
  raise_for_status resp = Ok () →
  let w1 := (download_with_progress_bar get url fname w).2 in
  files (download_with_progress_bar get url fname w1).2 = files w1.
Proof.
  intros Hget Hstatus w1.
  assert (∀ w, ∃ s, get (session w) url = (Ok resp, s)) as Hget'.
  { intros w0. specialize (Hget (session w0)).
    destruct (get (session w0) url) as [a s]. simpl in Hget. subst a.
    by exists s. }
  destruct (Hget' w1) as [s1 Hg1].
  rewrite (download_with_progress_bar_run _ _ _ _ _ Hg1 Hstatus).
  cbv zeta. case_decide as Hsame; [done|].
  cbn [snd files]. subst w1.
  destruct (Hget' w) as [s Hg].
  rewrite (download_with_progress_bar_run _ _ _ _ _ Hg Hstatus) in *.
  cbv zeta in *. case_decide as Hfirst; cbn [snd files] in *; [done|].
  by rewrite insert_insert_eq.
Qed.

(** X26.  The file name of an attachment is joined to the directory as
    it comes from the payload: a name that starts with a slash is the path
    that is written, whatever the directory is. *)
Theorem absolute_filename_leaves_the_directory (a : JiraAttachment.t) d name
    dest_dir resp s w :
  JiraAttachment.data a = VDict d →
  dict_lookup d "filename" = Some (VStr name) →
  String.prefix "/" name = true →
  get (session w) (dict_get d "content" VNone) = (Ok resp, s) →
  raise_for_status resp = Ok () →
  files w !! name = None →
  let r := download get a dest_dir w in
  r.1 = Return () ∧ files r.2 = <[name := body resp]> (files w).
Proof.
  intros Hd Hname Hprefix Hget Hstatus Hf r. subst r.
  unfold download, JiraAttachment.filename, JiraAttachment.content,
    get_value, _data, JiraAttachment.rest.
  rewrite Hd. cbn [py_get lift]. rewrite (dict_get_lookup _ "filename"), Hname.
  cbn [default]. cbv [id].
  erewrite (bind_returns (mret _)) by reflexivity. cbn [as_str lift].
  erewrite (bind_returns (mret _)) by reflexivity. cbv zeta.
  erewrite (bind_returns (mret _)) by reflexivity.
  unfold path_join. rewrite Hprefix.
  rewrite (download_with_progress_bar_run _ _ _ _ _ Hget Hstatus).
  cbv zeta. rewrite Hf. by rewrite decide_False by done.
Qed.

(** X27.  An attachment whose payload has no file name, or one that is
    not a string, is not fetched: joining the name to the directory raises
    [TypeError] before the request is sent, and that ends the loop over
    the attachments. *)
Theorem attachment_without_filename (a : JiraAttachment.t) d dest_dir w :
  JiraAttachment.data a = VDict d →
  (∀ name, dict_lookup d "filename" ≠ Some (VStr name)) →
  download get a dest_dir w = (Throw TypeError, w) ∧
  ∀ i rest, JiraIssue.attachment i = a :: rest →
    download_attachment get i dest_dir w = (Throw TypeError, w).
Proof.
  intros Hd Hname.
  assert (download get a dest_dir w = (Throw TypeError, w)) as Hrun.
  { unfold download, JiraAttachment.filename, get_value, _data,
      JiraAttachment.rest.
    rewrite Hd. cbn [py_get lift]. rewrite (dict_get_lookup _ "filename").
    destruct (dict_lookup d "filename") as [[| | | |name| |]|] eqn:Hl;
      try done.
    by destruct (Hname name). }
  split; [done|]. intros i rest Hi. unfold download_attachment.
  rewrite Hi. cbn [for_each]. by rewrite (bind_throws _ _ _ _ _ Hrun).
Qed.

End AttachmentFacts.

(** ** Examples for the properties of the downloader *)

Section DownloadWitnesses.
Import Py DownloadIssues.

Lemma structured_output_keys_witness :
  ∃ v,
    issue_struct (VDict example_entries) = Ok v ∧
    ∃ d,
      v = VDict d ∧
      dict_keys d =
        ["type"; "key"; "summary"; "description"; "created"; "labels";
         "updated"; "resolutiondate"]
        ++ (if fetched example_fields "parent" then ["parent"] else [])
        ++ (if fetched example_fields "resolution" then ["resolution"] else [])
        ++ (if fetched example_fields "comment" then ["comments"] else []).
Proof.
  eexists. split; [vm_compute; reflexivity|].
  apply (structured_output_keys example_entries example_fields);
    [reflexivity | vm_compute; reflexivity].
Defined.

Lemma updated_is_read_from_the_record_witness :
  ∃ d,
    issue_struct (VDict example_dated) = Ok (VDict d) ∧
    dict_lookup d "updated" = Some (dict_get example_dated "updated" VNone) ∧
    dict_lookup d "created" =
      Some (dict_get (("created", VStr "2024-01-01")
                      :: ("updated", VStr "2024-01-02") :: example_fields)
              "created" VNotDownloaded).
Proof.
  eexists. split; [vm_compute; reflexivity|].
  apply (updated_is_read_from_the_record example_dated);
    [reflexivity | vm_compute; reflexivity].
Defined.

Lemma text_needs_type_status_priority_labels_witness :
  ∃ t,
    issue_text (VDict example_entries) = Ok t ∧
    fetched example_fields "issuetype" = true ∧
    fetched example_fields "status" = true ∧
    fetched example_fields "priority" = true ∧
    ∃ l, dict_lookup example_fields "labels" = Some l ∧ l ≠ VNone.
Proof.
  eexists. split; [vm_compute; reflexivity|].
  eapply (text_needs_type_status_priority_labels example_entries
            example_fields);
    [reflexivity | vm_compute; reflexivity].
Defined.

Lemma text_file_is_link_then_text_witness :
  let args := {| atlassian_domain := None; config_file := "config.ini";
                 dest_dir := "issues"; jql := None; output_format := "text";
                 download_attachments := false |} in
  let jira := {| url := "https://example.net"; username := "u";
                 password := "t" |} in
  ∃ i,
    JiraIssue.init (VDict example_entries) = Ok i ∧
    let r := process_issue offline args "example.net" jira
               (VDict example_entries) (empty_world ()) in
    r.1 = match JiraIssue.to_text i with
          | Ok _ => Return ()
          | Raise e => Throw e
          end ∧
    files (log r.2) =
      []
      ++ [OpenFile (path_join "issues" ("K-1" +:+ ".txt"));
          WriteFile (path_join "issues" ("K-1" +:+ ".txt"))
            ("Link: " +:+ ("https://" +:+ "example.net" +:+ "/browse/"
                           +:+ "K-1") +:+ newline)]
      ++ match JiraIssue.to_text i with
         | Ok text => [WriteFile (path_join "issues" ("K-1" +:+ ".txt")) text]
         | Raise _ => []
         end.
Proof.
  intros args jira. eexists. split; [vm_compute; reflexivity|].
  apply (text_file_is_link_then_text offline args "example.net" jira
           example_entries example_fields _ "K-1" (empty_world ()));
    reflexivity.
Defined.


Lemma record_without_fields_witness :
  let args := {| atlassian_domain := None; config_file := "config.ini";
                 dest_dir := "issues"; jql := None; output_format := "text";
                 download_attachments := false |} in
  let jira := {| url := "https://example.net"; username := "u";
                 password := "t" |} in
  JiraIssue.init (VDict example_bare) = Raise AttributeError ∧
  process_issue offline args "example.net" jira (VDict example_bare)
    (empty_world ()) = (Throw AttributeError, empty_world ()).
Proof.
  intros args jira.
  apply (record_without_fields offline args "example.net" jira
           (VDict example_bare) (empty_world ())).
  by intros entries items [= <-].
Defined.

Lemma record_without_comments_witness :
  let args := {| atlassian_domain := None; config_file := "config.ini";
                 dest_dir := "issues"; jql := None; output_format := "text";
                 download_attachments := false |} in
  let jira := {| url := "https://example.net"; username := "u";
                 password := "t" |} in
  process_issue offline args "example.net" jira (VDict example_uncommented)
    (empty_world ()) =
  (Throw AttributeError, {| service := (); log := []; num_issues := 1 |}).
Proof.
  intros args jira.
  eapply (record_without_comments offline args "example.net" jira
            example_uncommented [("labels", VList [])] _ (empty_world ()));
    [reflexivity | vm_compute; reflexivity | reflexivity].
Defined.

Lemma missing_query_ends_the_run_witness :
  let args := {| atlassian_domain := None; config_file := "config.ini";
                 dest_dir := "issues"; jql := None; output_format := "text";
                 download_attachments := false |} in
  let cfg := {| defaults := {[ "domain" := "example.net" ]};
                sections := {[ "example.net" :=
                                 {[ "user" := "u"; "api_token" := "t" ]} ]} |} in
  main offline 5 args (Ini cfg) (empty_world ())
    = (Throw NoOptionError, empty_world ()) ∧
  script offline 5 args (Ini cfg) (empty_world ()) =
    (Some 1%Z,
     {| service := (); log := [] ++ [Stderr traceback_header];
        num_issues := 0 |}).
Proof.
  intros args cfg.
  apply (missing_query_ends_the_run offline 5 args cfg "example.net" "u" "t"
           (empty_world ())); by vm_compute.
Defined.

Lemma nothing_found_witness :
  let args := {| atlassian_domain := None; config_file := "config.ini";
                 dest_dir := "issues"; jql := Some "project = X";
                 output_format := "text"; download_attachments := false |} in
  let cfg := {| defaults := {[ "domain" := "example.net" ]};
                sections := {[ "example.net" :=
                                 {[ "user" := "u"; "api_token" := "t" ]} ]} |} in
  let jira := {| url := "https://" +:+ "example.net"; username := "u";
                 password := "t" |} in
  main nothing 1 args (Ini cfg) (empty_world ()) =
    (Return (),
     {| service := ();
        log := [] ++
               [Stdout ("Atlassian domain: " +:+ "example.net");
                Stdout ("Atlassian user: " +:+ "u");
                Stdout ("Output issues to the directory: " +:+ "issues");
                Stdout ("Output format: " +:+ "text");
                Stdout ("JQL: " +:+ "project = X");
                MakeDirs "issues";
                Sent jira (Jql "project = X" 0 200);
                Stdout ("Downloaded " +:+ pretty 0 +:+ " issues")];
        num_issues := 0 |}).
Proof.
  intros args cfg jira.
  apply (nothing_found nothing 0 args cfg "example.net" "u" "t" "project = X"
           [("total", VInt 0); ("issues", VList [])] () (empty_world ()));
    by vm_compute.
Defined.

Lemma wrappers_keep_their_payloads_witness :
  ∃ i,
    JiraIssue.init (VDict example_family) = Ok i ∧
    JiraIssue.data i = VDict example_family ∧
    JiraIssue.fields i = VDict example_family_fields ∧
    py_iter (dict_get example_family_fields "subtasks" (VList []))
      = Ok (map JiraIssue.data (JiraIssue.subtasks i)) ∧
    py_iter (dict_get example_family_fields "attachment" (VList []))
      = Ok (map JiraAttachment.data (JiraIssue.attachment i)) ∧
    (∀ parent, JiraIssue.parent_issue i = Object parent →
       dict_lookup example_family_fields "parent"
         = Some (JiraIssue.data parent)) ∧
    (∀ cs, JiraIssue.comments i = Object cs →
       dict_lookup example_family_fields "comment"
         = Some (JiraCommentList.data cs) ∧
       get_value cs "comments" (VList []) ≫= py_iter
         = Ok (map JiraComment.data (JiraCommentList.comments cs))).
Proof.
  eexists. split; [vm_compute; reflexivity|].
  apply (wrappers_keep_their_payloads example_family example_family_fields);
    [reflexivity | vm_compute; reflexivity].
Defined.

Lemma download_reports_the_count_witness :
  let args := {| atlassian_domain := None; config_file := "config.ini";
                 dest_dir := "issues"; jql := Some "project = X";
                 output_format := "text"; download_attachments := false |} in
  let w' := (main nothing 1 args example_config (empty_world ())).2 in
  ∃ l,
    log w' =
      l ++ [Stdout ("Downloaded " +:+ pretty (num_issues w') +:+ " issues")].
Proof.
  intros args w'.
  apply (download_reports_the_count nothing 1 args example_config
           (empty_world ()) w').
  by vm_compute.
Defined.

Lemma comments_in_the_structure_witness :
  ∃ cl v,
    JiraCommentList.init example_comments = Ok cl ∧
    JiraCommentList.to_struct cl = Ok v ∧
    ∃ out,
      v = VList out ∧
      Forall2
        (λ c e, ∃ d,
           e = VDict d ∧
           dict_keys d =
             ["body"; "created"; "updated"]
             ++ (if truth (JiraComment.author_object c)
                 then ["author"] else []))
        (JiraCommentList.comments cl) out.
Proof.
  eexists _, _. split; [vm_compute; reflexivity|].
  split; [vm_compute; reflexivity|].
  apply comments_in_the_structure. vm_compute. reflexivity.
Defined.

End DownloadWitnesses.

Section PaginationWitnesses.
Import Py Paging.

Lemma iterator_stops_only_on_an_empty_page_witness :
  (DownloadIssues.jira_get_issues (search_again (VInt 0)) collect 7
     ([], [])).1 = Unfinished ∧
  (EditLabels.jira_get_issues
     (search_again_issues {| EditLabels.issue_key := "K-1";
                             EditLabels.issue_labels := [] |})
     collect (Some "q") 7 ([], [])).1 = Unfinished.
Proof.
  split.
  - apply (proj1 iterator_stops_only_on_an_empty_page (Trace value)
             (search_again (VInt 0)) collect).
    + intros start limit t. by eexists _, _, _.
    + done.
  - apply (proj2 iterator_stops_only_on_an_empty_page
             (Trace EditLabels.Issue) (search_again_issues _) collect).
    + intros start limit t. by eexists _, _.
    + done.
Defined.

Lemma page_without_issues_witness :
  let search := λ (start limit : nat) (t : Trace value),
    (Return (VDict [("errorMessages", VList [VStr "no"])]), t) in
  DownloadIssues.jira_get_issues search collect 1 ([], [])
    = (Throw TypeError, ([], [])).
Proof.
  intros search.
  by apply (proj2 (page_without_issues search collect 0
                     (VDict [("errorMessages", VList [VStr "no"])])
                     ([], []) ([], []) eq_refl)
              [("errorMessages", VList [VStr "no"])]).
Defined.

End PaginationWitnesses.

Section AttachmentWitnesses.
Import Py DownloadIssues Attachments.

Lemma same_size_is_taken_as_downloaded_witness :
  let resp := {| status_code := 200; content_length := Some 3;
                 chunks := ["xyz"] |} in
  let w := {| session := (); files := {[ "a.txt" := "abc" ]}; log := [] |} in
  download_with_progress_bar (always resp) (VStr "https://example.net/a/1")
    "a.txt" w =
  (Return (),
   {| session := (); files := {[ "a.txt" := "abc" ]};
      log := [] ++ [Fetched (VStr "https://example.net/a/1");
                    Printed ("File " +:+ "a.txt" +:+ " already downloaded")] |}).
Proof.
  intros resp w.
  by apply (same_size_is_taken_as_downloaded (always resp)
              (VStr "https://example.net/a/1") "a.txt" resp () "abc" w).
Defined.

Lemma download_stores_the_body_witness :
  let resp := {| status_code := 200; content_length := Some 3;
                 chunks := ["xy"; "z"] |} in
  let w := {| session := (); files := {[ "a.txt" := "old text" ]};
              log := [] |} in
  let r := download_with_progress_bar (always resp)
             (VStr "https://example.net/a/1") "a.txt" w in
  r.1 = Return () ∧
  files r.2 = <[ "a.txt" := body resp ]> {[ "a.txt" := "old text" ]} ∧
  progress (log r.2) = 0 + String.length (body resp).
Proof.
  intros resp w.
  by apply (download_stores_the_body (always resp)
              (VStr "https://example.net/a/1") "a.txt" resp () w).
Defined.

Lemma bad_status_writes_nothing_witness :
  let resp := {| status_code := 404; content_length := None;
                 chunks := ["not found"] |} in
  let w := {| session := (); files := ∅; log := [] |} in
  download_with_progress_bar (always resp) (VStr "https://example.net/a/1")
    "a.txt" w =
  (Throw HTTPError,
   {| session := (); files := ∅;
      log := [] ++ [Fetched (VStr "https://example.net/a/1")] |}).
Proof.
  intros resp w.
  apply (bad_status_writes_nothing (always resp)
           (VStr "https://example.net/a/1") "a.txt" resp () w);
    [done | simpl; lia].
Defined.

Lemma second_download_changes_no_file_witness :
  let resp := {| status_code := 200; content_length := None;
                 chunks := ["xy"; "z"] |} in
  let w := {| session := (); files := ∅; log := [] |} in
  let w1 := (download_with_progress_bar (always resp)
               (VStr "https://example.net/a/1") "a.txt" w).2 in
  files (download_with_progress_bar (always resp)
           (VStr "https://example.net/a/1") "a.txt" w1).2 = files w1.
Proof.
  intros resp w.
  by apply (second_download_changes_no_file (always resp)
              (VStr "https://example.net/a/1") "a.txt" resp w).
Defined.

Lemma absolute_filename_leaves_the_directory_witness :
  let resp := {| status_code := 200; content_length := Some 1;
                 chunks := ["x"] |} in
  let a := JiraAttachment.mk
             (VDict [("filename", VStr "/tmp/x");
                     ("content", VStr "https://example.net/a/1")]) IsNone in
  let w := {| session := (); files := ∅; log := [] |} in
  let r := download (always resp) a "issues/K-1" w in
  r.1 = Return () ∧ files r.2 = <[ "/tmp/x" := body resp ]> ∅.
Proof.
  intros resp a w.
  by apply (absolute_filename_leaves_the_directory (always resp) a
              [("filename", VStr "/tmp/x");
               ("content", VStr "https://example.net/a/1")]
              "/tmp/x" "issues/K-1" resp () w).
Defined.

Lemma attachment_without_filename_witness :
  let resp := {| status_code := 200; content_length := Some 1;
                 chunks := ["x"] |} in
  let a := JiraAttachment.mk
             (VDict [("content", VStr "https://example.net/a/1")]) IsNone in
  let w := {| session := (); files := ∅; log := [] |} in
  download (always resp) a "issues/K-1" w = (Throw TypeError, w) ∧
  ∀ i rest, JiraIssue.attachment i = a :: rest →
    download_attachment (always resp) i "issues/K-1" w = (Throw TypeError, w).
Proof.
  intros resp a w.
  by apply (attachment_without_filename (always resp) a
              [("content", VStr "https://example.net/a/1")] "issues/K-1" w).
Defined.

End AttachmentWitnesses.
